(** * OM1 glue utilities: a shallow embedding and its properties

    Three independent utilities of the OM1 agent runtime are embedded here:

    - [providers/conversation_history_manager.py]: the file-backed,
      size-limited conversation log ([Module History]);
    - [actions/gps/connector/fabric.py]: the retrying JSON-RPC client that
      shares GPS coordinates ([Module Fabric]);
    - [simulators/__init__.py]: the reflection-based plugin loader
      ([Module Simulators]).

    Python is dynamically typed and every method may raise, so the embedding
    works over one universe of Python values ([pyval]), one type of
    exceptions ([exn]) and a state-and-exception monad ([M]).  The outside
    world (file system, clock, logging, network, import system) is explicit
    state. *)

From Stdlib Require Import ZArith Ascii.
From stdpp Require Import gmap strings list pretty.

#[local] Set Warnings "-register-all".
#[local] Open Scope Z_scope.

(* ===================================================================== *)
(** ** Python values *)
(* ===================================================================== *)

(** The values that [json.load] produces and [json.dump] accepts.  A float
    is kept as the dyadic number [m * 2^e]; dictionaries have string keys,
    as every JSON object has, and are finite maps: the order in which the
    keys were inserted is not kept. *)
Inductive pyval :=
| PNone
| PBool (b : bool)
| PInt (z : Z)
| PFloat (m e : Z)
| PStr (s : string)
| PList (l : list pyval)
| PDict (d : gmap string pyval).

(** ** Exceptions *)

(** The exception instances that travel through the embedded code.
    [HTTPError] carries the status code of the response it was raised for
    ([requests] builds it in [Response.raise_for_status] only). *)
Inductive exn :=
| TypeError
| AttributeError
| KeyError
| ValueError (msg : string)
| JSONDecodeError
| OSError
| ImportError (msg : string)
| ModuleNotFoundError (msg : string)
| SyntaxError
| RequestException
| Timeout
| ConnectTimeout
| ConnectionError
| HTTPError (status : Z)
| RequestsJSONDecodeError
| OtherException (name : string).

(** [str(e)]: the message an exception was built with. *)
Definition exn_text (e : exn) : string :=
  match e with
  | ValueError msg | ImportError msg | ModuleNotFoundError msg => msg
  | OtherException name => name
  | _ => ""
  end.

(** The classes that appear in [except] clauses. *)
Inductive exc_class :=
| C_Exception
| C_ValueError
| C_JSONDecodeError
| C_ImportError
| C_AttributeError
| C_RequestException
| C_Timeout
| C_ConnectionError
| C_HTTPError.

(** [isinstance e c]: Python's class hierarchy, restricted to the classes
    above.  [json.JSONDecodeError] derives from [ValueError];
    [ModuleNotFoundError] from [ImportError]; every [requests] exception
    from [RequestException]; [ConnectTimeout] from both [ConnectionError]
    and [Timeout]; [requests.JSONDecodeError] from [json.JSONDecodeError]. *)
Definition isinstance (e : exn) (c : exc_class) : bool :=
  match c, e with
  | C_Exception, _ => true
  | C_ValueError, (ValueError _ | JSONDecodeError | RequestsJSONDecodeError) => true
  | C_JSONDecodeError, (JSONDecodeError | RequestsJSONDecodeError) => true
  | C_ImportError, (ImportError _ | ModuleNotFoundError _) => true
  | C_AttributeError, AttributeError => true
  | C_RequestException,
    (RequestException | Timeout | ConnectTimeout | ConnectionError
     | HTTPError _ | RequestsJSONDecodeError) => true
  | C_Timeout, (Timeout | ConnectTimeout) => true
  | C_ConnectionError, (ConnectionError | ConnectTimeout) => true
  | C_HTTPError, HTTPError _ => true
  | _, _ => false
  end.

(** ** Results and the state-and-exception monad *)

Inductive result (A : Type) :=
| Ok (a : A)
| Raise (e : exn).
Arguments Ok {A} a.
Arguments Raise {A} e.

Definition result_bind {A B} (r : result A) (f : A -> result B) : result B :=
  match r with
  | Ok a => f a
  | Raise e => Raise e
  end.

Definition is_ok {A} (r : result A) : bool :=
  match r with Ok _ => true | Raise _ => false end.

(** A computation over a state [S]: it returns a value or raises, and in
    both cases leaves the state as it was at that point (mutations made
    before a [raise] stay). *)
Definition M (S A : Type) : Type := S -> result A * S.

Definition ret {S A} (a : A) : M S A := fun s => (Ok a, s).
Definition raise {S A} (e : exn) : M S A := fun s => (Raise e, s).
Definition bind {S A B} (m : M S A) (k : A -> M S B) : M S B :=
  fun s => match m s with
           | (Ok a, s') => k a s'
           | (Raise e, s') => (Raise e, s')
           end.
Definition lift {S A} (r : result A) : M S A := fun s => (r, s).
Definition get {S} : M S S := fun s => (Ok s, s).
Definition gets {S A} (f : S -> A) : M S A := fun s => (Ok (f s), s).
Definition modify {S} (f : S -> S) : M S unit := fun s => (Ok tt, f s).
Definition when {S} (b : bool) (m : M S unit) : M S unit :=
  if b then m else ret tt.

Declare Scope py_scope.
Delimit Scope py_scope with py.
Notation "x <- m ;; k" := (bind m (fun x => k))
  (at level 100, m at next level, right associativity) : py_scope.
Notation "m ;; k" := (bind m (fun _ => k))
  (at level 100, right associativity) : py_scope.
#[local] Open Scope py_scope.

(** [try: body except c1: h1 except c2: h2 ...]: the first clause whose
    class the exception is an instance of handles it; with no such clause
    the exception propagates. *)
Fixpoint dispatch {S A} (handlers : list (exc_class * (exn -> M S A)))
    (e : exn) : M S A :=
  match handlers with
  | [] => raise e
  | (c, h) :: rest => if isinstance e c then h e else dispatch rest e
  end.

Definition try_except {S A} (body : M S A)
    (handlers : list (exc_class * (exn -> M S A))) : M S A :=
  fun s => match body s with
           | (Ok a, s') => (Ok a, s')
           | (Raise e, s') => dispatch handlers e s'
           end.

(** ** Dynamic operations on values *)

(** Truth value testing ([bool(v)]). *)
Definition truthy (v : pyval) : bool :=
  match v with
  | PNone => false
  | PBool b => b
  | PInt z => negb (z =? 0)
  | PFloat m _ => negb (m =? 0)
  | PStr s => negb (String.eqb s "")
  | PList l => match l with [] => false | _ => true end
  | PDict d => negb (bool_decide (d = ∅))
  end.

(** The one-character strings of a string (iteration over a [str]). *)
Fixpoint chars (s : string) : list pyval :=
  match s with
  | EmptyString => []
  | String c s' => PStr (String c EmptyString) :: chars s'
  end.

(** [len(v)]. *)
Definition py_len (v : pyval) : result Z :=
  match v with
  | PStr s => Ok (Z.of_nat (String.length s))
  | PList l => Ok (Z.of_nat (length l))
  | PDict d => Ok (Z.of_nat (size d))
  | _ => Raise TypeError
  end.

(** [iter(v)], run to the end: the elements of a list, the characters of a
    string, the keys of a dictionary. *)
Definition py_iter (v : pyval) : result (list pyval) :=
  match v with
  | PStr s => Ok (chars s)
  | PList l => Ok l
  | PDict d => Ok (PStr <$> (map_to_list d).*1)
  | _ => Raise TypeError
  end.

(** The slice [l[start:]] of a sequence of length [n]: a negative [start]
    counts from the end, and both ends are clamped. *)
Definition slice_start (n : nat) (start : Z) : nat :=
  if start <? 0 then Z.to_nat (Z.max 0 (Z.of_nat n + start))
  else Z.to_nat (Z.min start (Z.of_nat n)).

Definition list_slice_from {A} (l : list A) (start : Z) : list A :=
  drop (slice_start (length l) start) l.

Fixpoint string_drop (n : nat) (s : string) : string :=
  match n, s with
  | O, _ => s
  | S n', String _ s' => string_drop n' s'
  | S _, EmptyString => EmptyString
  end.

(** [v[start:]]. Slicing a dictionary is an error. *)
Definition py_slice_from (v : pyval) (start : Z) : result pyval :=
  match v with
  | PList l => Ok (PList (list_slice_from l start))
  | PStr s => Ok (PStr (string_drop (slice_start (String.length s) start) s))
  | _ => Raise TypeError
  end.

(** [v is None]. *)
Definition is_none (v : pyval) : bool :=
  match v with PNone => true | _ => false end.

(** [isinstance(v, dict)]. *)
Definition is_dict (v : pyval) : bool :=
  match v with PDict _ => true | _ => false end.

(** [k in v] for a dictionary [v]. *)
Definition has_key (k : string) (v : pyval) : bool :=
  match v with
  | PDict d => match d !! k with Some _ => true | None => false end
  | _ => false
  end.

(** [v[k]] for a string key [k]. *)
Definition py_getitem (v : pyval) (k : string) : result pyval :=
  match v with
  | PDict d => match d !! k with Some x => Ok x | None => Raise KeyError end
  | _ => Raise TypeError
  end.

(** [v.get(k, default)]: only dictionaries have the method. *)
Definition py_get (v : pyval) (k : string) (default : pyval) : result pyval :=
  match v with
  | PDict d => Ok (match d !! k with Some x => x | None => default end)
  | _ => Raise AttributeError
  end.

(** [v.copy()]: lists and dictionaries have the method. *)
Definition py_copy (v : pyval) : result pyval :=
  match v with
  | PList _ | PDict _ => Ok v
  | _ => Raise AttributeError
  end.

(** [v.append(x)]. *)
Definition py_append (v x : pyval) : result pyval :=
  match v with
  | PList l => Ok (PList (l ++ [x]))
  | _ => Raise AttributeError
  end.

(** [v.extend(xs)]. *)
Definition py_extend (v xs : pyval) : result pyval :=
  match v with
  | PList l => result_bind (py_iter xs) (fun ys => Ok (PList (l ++ ys)))
  | _ => Raise AttributeError
  end.

(** [str(v)], as an f-string interpolates a value.  The text of a float,
    a list or a dictionary is built from [repr] of its parts; it is left
    to [render]. *)
Definition py_str (render : pyval -> string) (v : pyval) : string :=
  match v with
  | PStr s => s
  | PNone => "None"
  | PBool true => "True"
  | PBool false => "False"
  | PInt z => pretty z
  | _ => render v
  end.

(** [v == s] for a string [s]. *)
Definition py_eq_str (v : pyval) (s : string) : bool :=
  match v with
  | PStr t => String.eqb t s
  | _ => false
  end.

(** ** Logging *)

Inductive level := DEBUG | INFO | WARNING | ERROR.

(** A log record: the level and the fixed text of the message (the
    interpolated values are left out). *)
Definition log_record : Type := level * string.

(* ===================================================================== *)
(** ** providers/conversation_history_manager.py *)
(* ===================================================================== *)

Module History.

(** *** Paths, clock and file system *)

(** A [pathlib.Path], by the three accessors the code relies on: the
    directory ([parent]), the file name without its last suffix ([stem])
    and that suffix. *)
Record path := Path { parent : string; stem : string; suffix : string }.

#[global] Instance path_eq_dec : EqDecision path.
Proof. solve_decision. Defined.

#[global] Instance path_countable : Countable path.
Proof.
  apply (inj_countable' (fun p => (parent p, stem p, suffix p))
                        (fun t => Path t.1.1 t.1.2 t.2)).
  by intros [].
Defined.

(** [p.with_suffix(sfx)]. *)
Definition with_suffix (p : path) (sfx : string) : path :=
  {| parent := parent p; stem := stem p; suffix := sfx |}.

(** A [datetime], by its fields. *)
Record datetime := DateTime {
  year : nat; month : nat; day : nat;
  hour : nat; minute : nat; second : nat; microsecond : nat
}.

(** Decimal notation, zero-padded on the left to [width] digits. *)
Definition zpad (width : nat) (n : nat) : string :=
  let digits := pretty n in
  String.concat "" (replicate (width - String.length digits) "0") +:+ digits.

(** [t.isoformat()]: the fraction is printed when it is not zero. *)
Definition isoformat (t : datetime) : string :=
  zpad 4 (year t) +:+ "-" +:+ zpad 2 (month t) +:+ "-" +:+ zpad 2 (day t)
  +:+ "T" +:+ zpad 2 (hour t) +:+ ":" +:+ zpad 2 (minute t) +:+ ":"
  +:+ zpad 2 (second t)
  +:+ (if Nat.eqb (microsecond t) 0 then "" else "." +:+ zpad 6 (microsecond t)).

(** [t.strftime('%Y%m%d_%H%M%S')]. *)
Definition strftime_compact (t : datetime) : string :=
  zpad 4 (year t) +:+ zpad 2 (month t) +:+ zpad 2 (day t) +:+ "_"
  +:+ zpad 2 (hour t) +:+ zpad 2 (minute t) +:+ zpad 2 (second t).

(** What a file holds, as [json.load] sees it: a document, or text that is
    not JSON.  [json.dump] followed by [json.load] gives the value back. *)
Inductive file_content :=
| Json (v : pyval)
| Malformed.

(** How writing a file can go: the write succeeds, [open] itself fails and
    nothing is created, or the write fails after [open(..., 'w')] has
    created or truncated the file. *)
Inductive write_outcome := WriteOk | OpenFails | DumpFails.

(** The environment of a manager.  [files] holds the files that the
    process can see ([stat] succeeds on them).  [clock k] is the time the
    [k]-th call of [datetime.now()] returns; the [deny_*] fields say which
    system calls the operating system turns down.  For a path that is not
    among [files], [deny_stat] tells the two ways in which [stat] fails
    apart: there is no such file, or the call is refused for another reason
    (a directory on the way that cannot be searched, a name that is too
    long). *)
Record world := World {
  files : gmap path file_content;
  clock : nat -> datetime;
  ticks : nat;
  log : list log_record;
  deny_mkdir : string -> bool;
  deny_stat : path -> bool;
  deny_read : path -> bool;
  on_write : path -> write_outcome;
  deny_replace : path -> bool
}.

Definition set_files (f : gmap path file_content -> gmap path file_content)
    (w : world) : world :=
  {| files := f (files w); clock := clock w; ticks := ticks w; log := log w;
     deny_mkdir := deny_mkdir w; deny_stat := deny_stat w;
     deny_read := deny_read w;
     on_write := on_write w; deny_replace := deny_replace w |}.

Definition tick (w : world) : world :=
  {| files := files w; clock := clock w; ticks := S (ticks w); log := log w;
     deny_mkdir := deny_mkdir w; deny_stat := deny_stat w;
     deny_read := deny_read w;
     on_write := on_write w; deny_replace := deny_replace w |}.

Definition add_log (r : log_record) (w : world) : world :=
  {| files := files w; clock := clock w; ticks := ticks w;
     log := log w ++ [r];
     deny_mkdir := deny_mkdir w; deny_stat := deny_stat w;
     deny_read := deny_read w;
     on_write := on_write w; deny_replace := deny_replace w |}.

(** *** The manager object *)

Record manager := Manager {
  history_dir : string;
  agent_name : string;
  auto_save : bool;
  max_history_size : Z;
  history : pyval
}.

Definition set_history (h : pyval) (m : manager) : manager :=
  {| history_dir := history_dir m; agent_name := agent_name m;
     auto_save := auto_save m; max_history_size := max_history_size m;
     history := h |}.

(** A method runs over the object and its environment. *)
Record state := State { self : manager; env : world }.

Definition on_self (f : manager -> manager) (s : state) : state :=
  {| self := f (self s); env := env s |}.
Definition on_env (f : world -> world) (s : state) : state :=
  {| self := self s; env := f (env s) |}.

(** *** Primitive effects *)

(** [datetime.now()]. *)
Definition now : M state datetime :=
  fun s => (Ok (clock (env s) (ticks (env s))), on_env tick s).

(** [logger.<level>(msg)]. *)
Definition logging (l : level) (msg : string) : M state unit :=
  modify (on_env (add_log (l, msg))).

(** [p.exists()]: [True] for a file that is there, [False] when [stat]
    says that there is no such file; every other error of [stat] is raised
    ([pathlib] ignores [ENOENT], [ENOTDIR], [EBADF] and [ELOOP] only). *)
Definition path_exists (p : path) : M state bool :=
  fun s =>
    match files (env s) !! p with
    | Some _ => (Ok true, s)
    | None =>
        if deny_stat (env s) p then (Raise OSError, s) else (Ok false, s)
    end.

(** [with open(p, 'r') as f: data = json.load(f)]. *)
Definition read_json (p : path) : M state pyval :=
  fun s =>
    if deny_read (env s) p then (Raise OSError, s)
    else match files (env s) !! p with
         | None => (Raise OSError, s)
         | Some Malformed => (Raise JSONDecodeError, s)
         | Some (Json v) => (Ok v, s)
         end.

(** [with open(p, 'w') as f: json.dump(data, f, ...)]. *)
Definition write_json (p : path) (data : pyval) : M state unit :=
  fun s =>
    match on_write (env s) p with
    | WriteOk => (Ok tt, on_env (set_files (insert p (Json data))) s)
    | OpenFails => (Raise OSError, s)
    | DumpFails => (Raise OSError, on_env (set_files (insert p Malformed)) s)
    end.

(** [src.replace(dst)]: the rename. *)
Definition replace (src dst : path) : M state unit :=
  fun s =>
    if deny_replace (env s) dst then (Raise OSError, s)
    else match files (env s) !! src with
         | None => (Raise OSError, s)
         | Some c =>
             (Ok tt, on_env (set_files (fun fs => <[dst := c]> (delete src fs))) s)
         end.

(** [d.mkdir(parents=True, exist_ok=True)]. *)
Definition mkdir (d : string) : M state unit :=
  fun s => if deny_mkdir (env s) d then (Raise OSError, s) else (Ok tt, s).

(** [self.history = h]. *)
Definition assign_history (h : pyval) : M state unit :=
  modify (on_self (set_history h)).

(** *** Methods *)

(** The [history_file] property. *)
Definition history_file (m : manager) : path :=
  {| parent := history_dir m; stem := agent_name m +:+ "_history";
     suffix := ".json" |}.

Definition _save_to_file (filepath : path) : M state unit :=
  m <- gets self ;;
  t <- now ;;
  n <- lift (py_len (history m)) ;;
  let data := PDict (list_to_map
    [ ("agent_name", PStr (agent_name m));
      ("saved_at", PStr (isoformat t));
      ("message_count", PInt n);
      ("history", history m) ]) in
  let temp_file := with_suffix filepath ".tmp" in
  write_json temp_file data ;;
  replace temp_file filepath.

Definition _save_history : M state unit :=
  try_except
    (m <- gets self ;;
     _save_to_file (history_file m) ;;
     m <- gets self ;;
     _ <- lift (py_len (history m)) ;;
     logging DEBUG "Saved messages to history file")
    [ (C_Exception,
       fun _ => logging ERROR "Failed to save conversation history") ].

(** The test of the cleaning comprehension of [_load_history]. *)
Definition valid_message (msg : pyval) : bool :=
  is_dict msg && has_key "role" msg && has_key "content" msg.

Definition _load_history : M state unit :=
  m <- gets self ;;
  ex <- path_exists (history_file m) ;;
  if negb ex then logging INFO "No existing conversation history found"
  else
    try_except
      (m <- gets self ;;
       data <- read_json (history_file m) ;;
       h <- lift (py_get data "history" (PList [])) ;;
       assign_history h ;;
       m <- gets self ;;
       msgs <- lift (py_iter (history m)) ;;
       assign_history (PList (List.filter valid_message msgs)) ;;
       m <- gets self ;;
       _ <- lift (py_len (history m)) ;;
       logging INFO "Loaded messages from history file")
      [ (C_JSONDecodeError,
         fun _ => logging ERROR "Failed to parse conversation history" ;;
                  logging INFO "Starting with empty history");
        (C_Exception,
         fun _ => logging ERROR "Failed to load conversation history" ;;
                  logging INFO "Starting with empty history") ].

(** The constructor: the new object, or the exception it raised. *)
Definition __init__ (history_dir agent_name : string) (auto_save : bool)
    (max_history_size : Z) (w : world) : result manager * world :=
  let body : M state unit :=
    mkdir history_dir ;;
    assign_history (PList []) ;;
    _load_history ;;
    logging INFO "ConversationHistoryManager initialized" ;;
    m <- gets self ;;
    _ <- lift (py_len (history m)) ;;
    logging INFO "Loaded messages from previous session" in
  let fresh := {| history_dir := history_dir; agent_name := agent_name;
                  auto_save := auto_save; max_history_size := max_history_size;
                  history := PList [] |} in
  match body {| self := fresh; env := w |} with
  | (Ok _, s) => (Ok (self s), env s)
  | (Raise e, s) => (Raise e, env s)
  end.

Definition add_message (role content : string)
    (metadata : option (gmap string pyval)) : M state unit :=
  t <- now ;;
  let message := PDict (list_to_map
    [ ("role", PStr role);
      ("content", PStr content);
      ("timestamp", PStr (isoformat t));
      ("metadata", match metadata with
                   | Some d => if truthy (PDict d) then PDict d else PDict ∅
                   | None => PDict ∅
                   end) ]) in
  m <- gets self ;;
  h <- lift (py_append (history m) message) ;;
  assign_history h ;;
  m <- gets self ;;
  n <- lift (py_len (history m)) ;;
  (if n >? max_history_size m then
     h <- lift (py_slice_from (history m) (- max_history_size m)) ;;
     assign_history h ;;
     logging DEBUG "Trimmed history"
   else ret tt) ;;
  m <- gets self ;;
  when (auto_save m) _save_history.

(** A list comprehension [[x for x in l if test(x)]] whose test can raise:
    the first failing test ends it. *)
Fixpoint filter_r (test : pyval -> result bool) (l : list pyval)
    : result (list pyval) :=
  match l with
  | [] => Ok []
  | x :: l' =>
      result_bind (test x) (fun b =>
      result_bind (filter_r test l') (fun r =>
      Ok (if b then x :: r else r)))
  end.

(** A list comprehension [[f(x) for x in l]] whose body can raise. *)
Fixpoint map_r (f : pyval -> result pyval) (l : list pyval)
    : result (list pyval) :=
  match l with
  | [] => Ok []
  | x :: l' =>
      result_bind (f x) (fun y =>
      result_bind (map_r f l') (fun r => Ok (y :: r)))
  end.

(** [if limit: history = history[-limit:]] *)
Definition apply_limit (limit : option Z) (h : pyval) : result pyval :=
  match limit with
  | Some n => if negb (n =? 0) then py_slice_from h (- n) else Ok h
  | None => Ok h
  end.

(** The copy of the history that passes the role filter of [get_history]. *)
Definition role_filtered (role_filter : option string) (m : manager)
    : result pyval :=
  result_bind (py_copy (history m)) (fun h =>
  match role_filter with
  | Some r =>
      if negb (String.eqb r "") then
        result_bind (py_iter h) (fun msgs =>
        result_bind
          (filter_r (fun msg => result_bind (py_getitem msg "role")
                                  (fun v => Ok (py_eq_str v r))) msgs)
          (fun l => Ok (PList l)))
      else Ok h
  | None => Ok h
  end).

Definition get_history (limit : option Z) (role_filter : option string)
    : M state pyval :=
  m <- gets self ;;
  h <- lift (role_filtered role_filter m) ;;
  lift (apply_limit limit h).

(** The copy of the history that [get_formatted_history] keeps: all of it,
    or the messages whose role is not ["system"]. *)
Definition system_filtered (include_system : bool) (m : manager)
    : result pyval :=
  result_bind (py_copy (history m)) (fun h =>
  if negb include_system then
    result_bind (py_iter h) (fun msgs =>
    result_bind
      (filter_r (fun msg => result_bind (py_getitem msg "role")
                              (fun v => Ok (negb (py_eq_str v "system")))) msgs)
      (fun l => Ok (PList l)))
  else Ok h).

(** [{"role": msg["role"], "content": msg["content"]}] *)
Definition format_message (msg : pyval) : result pyval :=
  result_bind (py_getitem msg "role") (fun r =>
  result_bind (py_getitem msg "content") (fun c =>
  Ok (PDict (list_to_map [("role", r); ("content", c)])))).

Definition format_messages (h : pyval) : result pyval :=
  result_bind (py_iter h) (fun msgs =>
  result_bind (map_r format_message msgs) (fun l => Ok (PList l))).

Definition get_formatted_history (limit : option Z) (include_system : bool)
    : M state pyval :=
  m <- gets self ;;
  h <- lift (system_filtered include_system m) ;;
  h <- lift (apply_limit limit h) ;;
  lift (format_messages h).

(** The name of the backup written at time [t]. *)
Definition backup_file (m : manager) (t : datetime) : path :=
  {| parent := history_dir m;
     stem := agent_name m +:+ "_backup_" +:+ strftime_compact t;
     suffix := ".json" |}.

Definition clear_history (save_backup : bool) : M state unit :=
  m <- gets self ;;
  (if save_backup && truthy (history m) then
     t <- now ;;
     _save_to_file (backup_file m t) ;;
     logging INFO "Saved backup"
   else ret tt) ;;
  assign_history (PList []) ;;
  _save_history ;;
  logging INFO "Conversation history cleared".

Definition export_history (filepath : path) : M state unit :=
  _save_to_file filepath ;;
  logging INFO "Exported conversation history".

Definition import_history (filepath : path) (append : bool) : M state unit :=
  ex <- path_exists filepath ;;
  if negb ex then logging ERROR "Import file not found"
  else
    try_except
      (data <- read_json filepath ;;
       imported_history <- lift (py_get data "history" (PList [])) ;;
       m <- gets self ;;
       (if append then
          h <- lift (py_extend (history m) imported_history) ;;
          assign_history h
        else assign_history imported_history) ;;
       m <- gets self ;;
       n <- lift (py_len (history m)) ;;
       (if n >? max_history_size m then
          h <- lift (py_slice_from (history m) (- max_history_size m)) ;;
          assign_history h
        else ret tt) ;;
       _save_history ;;
       _ <- lift (py_len imported_history) ;;
       logging INFO "Imported messages")
      [ (C_Exception,
         fun _ => logging ERROR "Failed to import conversation history") ].

End History.

(* ===================================================================== *)
(** ** actions/gps/connector/fabric.py *)
(* ===================================================================== *)

Module Fabric.

Record GPSFabricConfig := {
  cfg_fabric_endpoint : string;
  cfg_request_timeout : Z;
  cfg_max_retries : Z
}.

(** The defaults of the three [Field]s. *)
Definition default_config : GPSFabricConfig :=
  {| cfg_fabric_endpoint := "http://localhost:8545";
     cfg_request_timeout := 10;
     cfg_max_retries := 3 |}.

(** The connector, as [__init__] leaves it. *)
Record GPSFabricConnector := {
  config : GPSFabricConfig;
  fabric_endpoint : string;
  request_timeout : Z;
  max_retries : Z
}.

Definition __init__ (config : GPSFabricConfig) : GPSFabricConnector :=
  {| config := config;
     fabric_endpoint := cfg_fabric_endpoint config;
     request_timeout := cfg_request_timeout config;
     max_retries := cfg_max_retries config |}.

(** The arguments of one [requests.post] call. *)
Record http_request := {
  url : string;
  json : pyval;
  headers : list (string * string);
  timeout : Z
}.

(** A [requests.Response]: its status code and its body, [None] when the
    body is not JSON. *)
Record response := {
  status_code : Z;
  body : option pyval
}.

Inductive post_outcome :=
| Responds (r : response)
| Fails (e : exn).

(** The environment of a connector: the variables of the [IOProvider]
    singleton, the network ([server k req] is what the [k]-th POST of this
    run meets), the POSTs issued so far, the pauses taken, and the log. *)
Record world := World {
  io_variables : gmap string pyval;
  server : nat -> http_request -> post_outcome;
  posts : list http_request;
  sleeps : list Z;
  log : list log_record
}.

Definition logging (l : level) (msg : string) : M world unit :=
  modify (fun w =>
    {| io_variables := io_variables w; server := server w; posts := posts w;
       sleeps := sleeps w; log := log w ++ [(l, msg)] |}).

(** [time.sleep(seconds)], as [tenacity] calls it between attempts. *)
Definition sleep (seconds : Z) : M world unit :=
  modify (fun w =>
    {| io_variables := io_variables w; server := server w; posts := posts w;
       sleeps := sleeps w ++ [seconds]; log := log w |}).

(** Modelled from the spec: [providers/io_provider.py] is not among the
    sources; the connector "reads three named values" from it, and a name
    that was never set reads as [None]. *)
Definition get_dynamic_variable (key : string) : M world pyval :=
  gets (fun w => default PNone (io_variables w !! key)).

(** [requests.post(url, json=..., headers=..., timeout=...)]. *)
Definition requests_post (req : http_request) : M world response :=
  fun w =>
    let w' := {| io_variables := io_variables w; server := server w;
                 posts := posts w ++ [req]; sleeps := sleeps w;
                 log := log w |} in
    match server w (length (posts w)) req with
    | Responds r => (Ok r, w')
    | Fails e => (Raise e, w')
    end.

(** [response.raise_for_status()]: statuses 400 to 599 are errors. *)
Definition raise_for_status (r : response) : M world unit :=
  if (400 <=? status_code r) && (status_code r <? 600)
  then raise (HTTPError (status_code r))
  else ret tt.

(** [response.json()]. *)
Definition response_json (r : response) : M world pyval :=
  match body r with
  | Some v => ret v
  | None => raise RequestsJSONDecodeError
  end.

(** [tenacity.wait_exponential(multiplier, min, max)]: the pause after the
    attempt of the given number. *)
Definition wait_exponential (multiplier min max : Z) (attempt_number : nat) : Z :=
  Z.max (Z.max 0 min) (Z.min (multiplier * 2 ^ (Z.of_nat attempt_number - 1)) max).

(** The loop of [tenacity.retry(stop=stop_after_attempt(n), wait=...,
    reraise=True)]: [more] further attempts are allowed after the attempt
    numbered [attempt_number]. *)
Fixpoint retry_loop {A} (more : nat) (attempt_number : nat)
    (wait : nat -> Z) (f : M world A) : M world A :=
  fun w =>
    match f w with
    | (Ok a, w') => (Ok a, w')
    | (Raise e, w') =>
        match more with
        | O => (Raise e, w')
        | S more' =>
            (sleep (wait attempt_number) ;;
             retry_loop more' (S attempt_number) wait f) w'
        end
    end.

Definition retry {A} (stop_after_attempt : nat) (wait : nat -> Z)
    (f : M world A) : M world A :=
  retry_loop (stop_after_attempt - 1) 1 wait f.

Definition _get_coordinates : M world (option pyval) :=
  latitude <- get_dynamic_variable "latitude" ;;
  longitude <- get_dynamic_variable "longitude" ;;
  yaw <- get_dynamic_variable "yaw_deg" ;;
  logging DEBUG "GPSFabricConnector: Retrieved coordinates" ;;
  if is_none latitude || is_none longitude || is_none yaw then
    logging ERROR "GPSFabricConnector: Incomplete coordinates" ;;
    ret None
  else
    ret (Some (PDict (list_to_map
      [ ("latitude", latitude); ("longitude", longitude); ("yaw", yaw) ]))).

(** The body that [_send_request] posts. *)
Definition rpc_request (c : GPSFabricConnector) (coordinates : pyval)
    : http_request :=
  {| url := fabric_endpoint c;
     json := PDict (list_to_map
       [ ("method", PStr "omp2p_shareStatus");
         ("params", PList [coordinates]);
         ("id", PInt 1);
         ("jsonrpc", PStr "2.0") ]);
     headers := [("Content-Type", "application/json")];
     timeout := request_timeout c |}.

Definition _send_request (c : GPSFabricConnector) (coordinates : pyval)
    : M world response :=
  retry 3 (wait_exponential 1 2 10)
    (requests_post (rpc_request c coordinates)).

(** [needle in haystack] for two strings. *)
Fixpoint is_substring (needle haystack : string) : bool :=
  String.prefix needle haystack
  || match haystack with
     | EmptyString => false
     | String _ rest => is_substring needle rest
     end.

(** [k in v] for a string [k]: a key of a dictionary, an element of a list,
    a substring of a string. *)
Definition py_contains (k : string) (v : pyval) : result bool :=
  match v with
  | PDict d => Ok (match d !! k with Some _ => true | None => false end)
  | PList l => Ok (existsb (fun x => py_eq_str x k) l)
  | PStr s => Ok (is_substring k s)
  | _ => Raise TypeError
  end.

Definition send_coordinates (c : GPSFabricConnector) : M world bool :=
  logging INFO "GPSFabricConnector: Preparing to send coordinates to Fabric network" ;;
  coordinates <- _get_coordinates ;;
  match coordinates with
  | None => ret false
  | Some coordinates =>
      try_except
        (response <- _send_request c coordinates ;;
         raise_for_status response ;;
         parsed <- try_except
           (result <- response_json response ;; ret (Some result))
           [ (C_ValueError,
              fun _ => logging ERROR "GPSFabricConnector: Invalid JSON response" ;;
                       logging DEBUG "Response content" ;;
                       ret None) ] ;;
         match parsed with
         | None => ret false
         | Some result =>
             has_result <- lift (py_contains "result" result) ;;
             ok <- (if has_result
                    then v <- lift (py_getitem result "result") ;; ret (truthy v)
                    else ret false) ;;
             if ok then
               logging INFO "GPSFabricConnector: Coordinates shared successfully" ;;
               ret true
             else
               has_error <- lift (py_contains "error" result) ;;
               if has_error then
                 _ <- lift (py_getitem result "error") ;;
                 logging ERROR "GPSFabricConnector: JSON-RPC error" ;;
                 ret false
               else
                 logging ERROR "GPSFabricConnector: Unexpected response format" ;;
                 ret false
         end)
        [ (C_Timeout,
           fun _ => logging ERROR "GPSFabricConnector: Request timeout" ;; ret false);
          (C_ConnectionError,
           fun _ => logging ERROR "GPSFabricConnector: Connection error" ;; ret false);
          (C_HTTPError,
           fun _ => logging ERROR "GPSFabricConnector: HTTP error" ;; ret false);
          (C_RequestException,
           fun _ => logging ERROR "GPSFabricConnector: Request error" ;; ret false);
          (C_Exception,
           fun _ => logging ERROR "GPSFabricConnector: Unexpected error" ;; ret false) ]
  end.

(** Modelled from the spec: the declarations of [GPSAction] and [GPSInput]
    ([actions/gps/interface.py]) are not among the sources.  The connector
    tells the member [SHARE_LOCATION] from every other action, and reads the
    field [action] of its input. *)
Inductive GPSAction :=
| SHARE_LOCATION
| OtherAction (name : string).

Record GPSInput := { action : GPSAction }.

Definition connect (c : GPSFabricConnector) (output_interface : GPSInput)
    : M world unit :=
  logging INFO "GPSFabricConnector: Action requested" ;;
  match action output_interface with
  | SHARE_LOCATION =>
      success <- send_coordinates c ;;
      if negb success
      then logging WARNING "GPSFabricConnector: Failed to share location"
      else ret tt
  | OtherAction _ => ret tt
  end.

End Fabric.

(* ===================================================================== *)
(** ** simulators/__init__.py *)
(* ===================================================================== *)

Module Simulators.

(** *** Texts *)

(** A character is a Unicode code point, and the text of a file (a [str])
    is the list of its code points. *)
Definition char : Type := N.
Definition text : Type := list char.

(** The code points of a string of the model, whose characters are the
    code points below 256. *)
Definition code_points (s : string) : text :=
  N_of_ascii <$> String.list_ascii_of_string s.

(** *** The regular expression of [find_module_with_class] *)

(** Regular expressions over characters, matched by derivatives. *)
Inductive regex :=
| Nothing
| Eps
| Sym (p : char -> bool)
| Alt (r1 r2 : regex)
| Seq (r1 r2 : regex)
| Star (r : regex).

Fixpoint nullable (r : regex) : bool :=
  match r with
  | Nothing => false
  | Eps => true
  | Sym _ => false
  | Alt r1 r2 => nullable r1 || nullable r2
  | Seq r1 r2 => nullable r1 && nullable r2
  | Star _ => true
  end.

Fixpoint deriv (c : char) (r : regex) : regex :=
  match r with
  | Nothing => Nothing
  | Eps => Nothing
  | Sym p => if p c then Eps else Nothing
  | Alt r1 r2 => Alt (deriv c r1) (deriv c r2)
  | Seq r1 r2 =>
      if nullable r1 then Alt (Seq (deriv c r1) r2) (deriv c r2)
      else Seq (deriv c r1) r2
  | Star r' => Seq (deriv c r') (Star r')
  end.

(** [re.match(r, s)]: some prefix of [s] is in the language of [r]. *)
Fixpoint matches_prefix (r : regex) (s : text) : bool :=
  nullable r
  || match s with
     | [] => false
     | c :: s' => matches_prefix (deriv c r) s'
     end.

(** [re.search('^' + r, s, re.MULTILINE)]: a match that starts at the
    beginning of the text or just after a newline (code point 10). *)
Fixpoint search_after_newline (r : regex) (s : text) : bool :=
  match s with
  | [] => false
  | c :: s' =>
      (if N.eqb c 10 then matches_prefix r s' else false)
      || search_after_newline r s'
  end.

Definition search_multiline (r : regex) (s : text) : bool :=
  matches_prefix r s || search_after_newline r s.

(** The literal text [s] (what [re.escape] makes of a name). *)
Fixpoint lit (s : text) : regex :=
  match s with
  | [] => Eps
  | c :: s' => Seq (Sym (N.eqb c)) (lit s')
  end.

(** [\s] in a [str] pattern: the white space of Unicode.  Tab to carriage
    return, the four separators 28 to 31, the space, next line (133), the
    no-break space (160), the ogham space mark (5760), the spaces from en
    quad to hair space (8192 to 8202), the line and paragraph separators
    (8232, 8233), the narrow no-break space (8239), the medium
    mathematical space (8287) and the ideographic space (12288). *)
Definition is_space (c : char) : bool :=
  ((9 <=? c) && (c <=? 13) || (28 <=? c) && (c <=? 32)
   || (c =? 133) || (c =? 160) || (c =? 5760)
   || (8192 <=? c) && (c <=? 8202)
   || (c =? 8232) || (c =? 8233) || (c =? 8239) || (c =? 8287)
   || (c =? 12288))%N.

(** [[^)]] *)
Definition not_rparen (c : char) : bool := negb (N.eqb c 41).

(** [^class\s+NAME\s*\([^)]*Simulator[^)]*\)\s*:] without the anchor. *)
Definition class_pattern (class_name : string) : regex :=
  Seq (lit (code_points "class"))
 (Seq (Seq (Sym is_space) (Star (Sym is_space)))
 (Seq (lit (code_points class_name))
 (Seq (Star (Sym is_space))
 (Seq (lit (code_points "("))
 (Seq (Star (Sym not_rparen))
 (Seq (lit (code_points "Simulator"))
 (Seq (Star (Sym not_rparen))
 (Seq (lit (code_points ")"))
 (Seq (Star (Sym is_space))
      (lit (code_points ":"))))))))))).

(** *** Classes, modules and the environment *)

(** A class object: its qualified name and the qualified names of the
    classes it derives from, itself included ([__mro__]). *)
Record class_obj := { qualname : string; mro : list string }.

(** What a module attribute can hold: a class, an instance of a class built
    from keyword arguments, or plain data. *)
Inductive pyobj :=
| Class (c : class_obj)
| Instance (c : class_obj) (kwargs : list (string * pyobj))
| Data (v : pyval).

(** [simulators.base.Simulator] and [simulators.base.SimulatorConfig]. *)
Definition Simulator : class_obj :=
  {| qualname := "simulators.base.Simulator";
     mro := ["simulators.base.Simulator"; "object"] |}.
Definition SimulatorConfig : class_obj :=
  {| qualname := "simulators.base.SimulatorConfig";
     mro := ["simulators.base.SimulatorConfig"; "object"] |}.

(** [inspect.isclass(o)], also [isinstance(o, type)]. *)
Definition isclass (o : pyobj) : bool :=
  match o with Class _ => true | _ => false end.

(** [issubclass(c, base)]. *)
Definition issubclass (c base : class_obj) : bool :=
  bool_decide (qualname base ∈ mro c).

(** [c != base] on class objects. *)
Definition class_ne (c base : class_obj) : bool :=
  negb (String.eqb (qualname c) (qualname base)).

(** A module: its [__dict__], in order. *)
Definition module := list (string * pyobj).

(** [getattr(module, name)]. *)
Fixpoint getattr (m : module) (name : string) : result pyobj :=
  match m with
  | [] => Raise AttributeError
  | (k, o) :: m' => if String.eqb k name then Ok o else getattr m' name
  end.

(** The plugins directory: absent, present but not listable, or listed
    (in the order of [os.listdir]) with what reading each file gives. *)
Inductive plugins_dir :=
| Missing
| Unlistable
| Listing (entries : list (string * result text)).

(** The environment of the loader: the directory, the import system, what
    calling a class does, the text that [str] gives for the values whose
    [repr] is not modelled, and the log. *)
Record world := World {
  plugins : plugins_dir;
  import_table : string -> result module;
  on_call : class_obj -> list (string * pyobj) -> result pyobj;
  str_of : pyval -> string;
  log : list log_record
}.

Definition logging (l : level) (msg : string) : M world unit :=
  modify (fun w =>
    {| plugins := plugins w; import_table := import_table w;
       on_call := on_call w; str_of := str_of w;
       log := log w ++ [(l, msg)] |}).

(** [raise E(f"...")], for a message that interpolates values. *)
Definition raise_with {A} (e : world -> exn) : M world A :=
  fun w => (Raise (e w), w).

(** [importlib.import_module(name)]. *)
Definition import_module (name : string) : M world module :=
  fun w => (import_table w name, w).

(** Calling the class [c] with the keyword arguments [kwargs]. *)
Definition call_class (c : class_obj) (kwargs : list (string * pyobj))
    : M world pyobj :=
  fun w => (on_call w c kwargs, w).

(** *** Strings *)

(** [s.endswith(sfx)]. *)
Definition endswith (s sfx : string) : bool :=
  bool_decide (String.list_ascii_of_string sfx `suffix_of` String.list_ascii_of_string s).

(** [s[:-n]] for a positive [n]. *)
Definition drop_last (n : nat) (s : string) : string :=
  String.string_of_list_ascii (take (String.length s - n) (String.list_ascii_of_string s)).

(** *** The three functions *)

(** The loop over the plugin files.  A name that is not a string makes
    [re.escape] raise inside the [try], which is logged like a file that
    cannot be read. *)
Fixpoint scan_plugins (class_name : pyval)
    (plugin_files : list (string * result text)) : M world (option string) :=
  match plugin_files with
  | [] => ret None
  | (plugin_file, read) :: rest =>
      found <- try_except
        (content <- lift read ;;
         match class_name with
         | PStr name =>
             ret (search_multiline (class_pattern name) content)
         | _ => raise TypeError
         end)
        [ (C_Exception,
           fun _ => logging WARNING "Could not read plugin file" ;; ret false) ] ;;
      if found then ret (Some (drop_last 3 plugin_file))
      else scan_plugins class_name rest
  end.

Definition find_module_with_class (class_name : pyval)
    : M world (option string) :=
  dir <- gets plugins ;;
  match dir with
  | Missing => ret None
  | Unlistable => raise OSError
  | Listing entries =>
      let plugin_files :=
        List.filter (fun f => endswith f.1 ".py") entries in
      scan_plugins class_name plugin_files
  end.

(** The f-string rendering of a value that is used as a class name. *)
Definition name_text (w : world) (class_name : pyval) : string :=
  py_str (str_of w) class_name.

(** [getattr(module, class_name)]: the name must be a string. *)
Definition getattr_dyn (m : module) (class_name : pyval) : result pyobj :=
  match class_name with
  | PStr s => getattr m s
  | _ => Raise TypeError
  end.

(** The test both functions apply to the resolved object. *)
Definition valid_simulator_class (o : pyobj) : bool :=
  match o with
  | Class c => issubclass c Simulator && class_ne c Simulator
  | _ => false
  end.

Definition get_simulator_class (class_name : pyval) : M world pyobj :=
  module_name <- find_module_with_class class_name ;;
  match module_name with
  | None =>
      raise_with (fun w =>
        ValueError ("Class '" +:+ name_text w class_name
                    +:+ "' not found in any simulator plugin module"))
  | Some module_name =>
      try_except
        (module <- import_module ("simulators.plugins." +:+ module_name) ;;
         simulator_class <- lift (getattr_dyn module class_name) ;;
         if negb (valid_simulator_class simulator_class) then
           raise_with (fun w =>
             ValueError ("'" +:+ name_text w class_name
                         +:+ "' is not a valid Simulator subclass"))
         else
           logging DEBUG "Got Simulator class" ;;
           ret simulator_class)
        [ (C_ImportError,
           fun e => raise (ValueError ("Could not import simulator module '"
                                       +:+ module_name +:+ "': "
                                       +:+ exn_text e)));
          (C_AttributeError,
           fun _ => raise_with (fun w =>
             ValueError ("Class '" +:+ name_text w class_name
                         +:+ "' not found in simulator module '"
                         +:+ module_name +:+ "'"))) ]
  end.

(** The scan of [module.__dict__] for a configuration class: the last
    strict subclass of [SimulatorConfig] wins. *)
Fixpoint find_config_class (m : module) (config_class : option class_obj)
    : option class_obj :=
  match m with
  | [] => config_class
  | (_, obj) :: m' =>
      find_config_class m'
        (match obj with
         | Class c =>
             if issubclass c SimulatorConfig && class_ne c SimulatorConfig
             then Some c else config_class
         | _ => config_class
         end)
  end.

(** The keyword arguments [config_dict if isinstance(config_dict, dict)
    else {}], unpacked. *)
Definition config_kwargs (config_dict : pyval) : list (string * pyobj) :=
  match config_dict with
  | PDict d => (fun kv => (kv.1, Data kv.2)) <$> map_to_list d
  | _ => []
  end.

Definition load_simulator (simulator_config : gmap string pyval)
    : M world pyobj :=
  class_name <- lift (match simulator_config !! "type" with
                      | Some v => Ok v
                      | None => Raise KeyError
                      end) ;;
  module_name <- find_module_with_class class_name ;;
  match module_name with
  | None =>
      raise_with (fun w =>
        ValueError ("Class '" +:+ name_text w class_name
                    +:+ "' not found in any simulator plugin module"))
  | Some module_name =>
      try_except
        (module <- import_module ("simulators.plugins." +:+ module_name) ;;
         simulator_class <- lift (getattr_dyn module class_name) ;;
         match simulator_class with
         | Class cls =>
             if negb (valid_simulator_class simulator_class) then
               raise_with (fun w =>
                 ValueError ("'" +:+ name_text w class_name
                             +:+ "' is not a valid simulator subclass"))
             else
               let config_class := find_config_class module None in
               let config_dict :=
                 default (PDict ∅) (simulator_config !! "config") in
               config <- call_class (default SimulatorConfig config_class)
                                    (config_kwargs config_dict) ;;
               logging DEBUG "Loaded simulator" ;;
               call_class cls [("config", config)]
         | _ =>
             raise_with (fun w =>
               ValueError ("'" +:+ name_text w class_name
                           +:+ "' is not a valid simulator subclass"))
         end)
        [ (C_ImportError,
           fun e => raise (ValueError ("Could not import simulator module '"
                                       +:+ module_name +:+ "': "
                                       +:+ exn_text e)));
          (C_AttributeError,
           fun _ => raise_with (fun w =>
             ValueError ("Class '" +:+ name_text w class_name
                         +:+ "' not found in simulator module '"
                         +:+ module_name +:+ "'"))) ]
  end.

End Simulators.

(* ===================================================================== *)
(** ** Vocabulary of the properties *)
(* ===================================================================== *)

Module Vocabulary.
Import History.

(** The record that [add_message] builds at time [t]. *)
Definition message_record (role content : string) (t : datetime)
    (metadata : option (gmap string pyval)) : gmap string pyval :=
  list_to_map
    [ ("role", PStr role); ("content", PStr content);
      ("timestamp", PStr (isoformat t));
      ("metadata", PDict (default ∅ metadata)) ].

(** The role of a message, when it has one. *)
Definition role_of (msg : pyval) : option pyval :=
  match msg with
  | PDict d => d !! "role"
  | _ => None
  end.

(** The messages that a role filter lets through: an absent or empty
    filter lets everything through. *)
Definition matching (role_filter : option string) (h : list pyval)
    : list pyval :=
  match role_filter with
  | Some r =>
      if String.eqb r "" then h
      else List.filter (fun msg => match role_of msg with
                                   | Some v => py_eq_str v r
                                   | None => false
                                   end) h
  | None => h
  end.

(** The messages that [get_formatted_history] keeps. *)
Definition without_system (include_system : bool) (h : list pyval)
    : list pyval :=
  if include_system then h
  else List.filter (fun msg => match role_of msg with
                               | Some v => negb (py_eq_str v "system")
                               | None => false
                               end) h.

(** A message reduced to its role and its content. *)
Definition brief (msg : pyval) : pyval :=
  match msg with
  | PDict d =>
      PDict (list_to_map [ ("role", default PNone (d !! "role"));
                           ("content", default PNone (d !! "content")) ])
  | _ => PNone
  end.

(** The document that [_save_to_file] writes for the manager [m] at time
    [t]. *)
Definition document (m : manager) (t : datetime) : pyval :=
  PDict (list_to_map
    [ ("agent_name", PStr (agent_name m));
      ("saved_at", PStr (isoformat t));
      ("message_count",
       PInt (match py_len (history m) with Ok n => n | Raise _ => 0 end));
      ("history", history m) ]).

(** A file system that accepts every write and every rename. *)
Definition accepts_writes (w : world) : Prop :=
  forall p, on_write w p = WriteOk /\ deny_replace w p = false.

(** The existence test of [p] raises: the file is not to be seen, and not
    because there is none. *)
Definition stat_fails (w : world) (p : path) : Prop :=
  files w !! p = None /\ deny_stat w p = true.

(** The ways in which loading the file [p] fails: there is no such file,
    it cannot be read, or its content is not JSON. *)
Definition load_fails (w : world) (p : path) : Prop :=
  files w !! p = None \/ deny_read w p = true \/ files w !! p = Some Malformed.

(** What a failed load of [p] writes to the log. *)
Definition load_failure_log (w : world) (p : path) : list log_record :=
  match files w !! p with
  | None => [ (INFO, "No existing conversation history found") ]
  | Some c =>
      if deny_read w p then
        [ (ERROR, "Failed to load conversation history");
          (INFO, "Starting with empty history") ]
      else
        [ (ERROR, "Failed to parse conversation history");
          (INFO, "Starting with empty history") ]
  end.

End Vocabulary.
Import Vocabulary.

Module FabricVocabulary.
Import Fabric.

(** What the [k]-th POST from now on meets. *)
Definition attempt (w : world) (req : http_request) (k : nat) : post_outcome :=
  server w (length (posts w) + k) req.

(** The outcome of a request that is tried up to three times, and the
    number of attempts it took: the first response, or the failure of the
    third attempt. *)
Definition delivery (w : world) (req : http_request) : post_outcome * nat :=
  match attempt w req 0 with
  | Responds r => (Responds r, 1%nat)
  | Fails _ =>
      match attempt w req 1 with
      | Responds r => (Responds r, 2%nat)
      | Fails _ => (attempt w req 2, 3%nat)
      end
  end.

(** The world after [k] POSTs of [req], with a pause of two seconds
    between consecutive ones. *)
Definition sent (w : world) (req : http_request) (k : nat) : world :=
  {| io_variables := io_variables w; server := server w;
     posts := posts w ++ replicate k req;
     sleeps := sleeps w ++ replicate (k - 1) 2;
     log := log w |}.

(** The three values the connector reads. *)
Definition latitude_of (w : world) : pyval :=
  default PNone (io_variables w !! "latitude").
Definition longitude_of (w : world) : pyval :=
  default PNone (io_variables w !! "longitude").
Definition yaw_of (w : world) : pyval :=
  default PNone (io_variables w !! "yaw_deg").

(** The coordinates dictionary made of the three values. *)
Definition coordinates_of (w : world) : pyval :=
  PDict (list_to_map [ ("latitude", latitude_of w);
                       ("longitude", longitude_of w);
                       ("yaw", yaw_of w) ]).

Definition complete (w : world) : Prop :=
  latitude_of w <> PNone /\ longitude_of w <> PNone /\ yaw_of w <> PNone.

(** The one way to success: the three values are there, the request is
    answered within three attempts, the status is not an error status, and
    the body is a JSON object whose "result" is true in a test. *)
Definition accepted (c : GPSFabricConnector) (w : world) : Prop :=
  complete w
  /\ exists r d v,
       (delivery w (rpc_request c (coordinates_of w))).1 = Responds r
       /\ (status_code r < 400 \/ 600 <= status_code r)
       /\ body r = Some (PDict d)
       /\ d !! "result" = Some v
       /\ truthy v = true.

(** The world with further records in its log. *)
Definition logged (records : list log_record) (w : world) : world :=
  {| io_variables := io_variables w; server := server w; posts := posts w;
     sleeps := sleeps w; log := log w ++ records |}.

(** Whether a response is one that [send_coordinates] reports as a
    success. *)
Definition verdict (r : response) : bool :=
  negb ((400 <=? status_code r) && (status_code r <? 600))
  && match body r with
     | Some (PDict d) =>
         match d !! "result" with
         | Some v => truthy v
         | None => false
         end
     | _ => false
     end.

(** The configuration with another value of [max_retries]. *)
Definition with_max_retries (n : Z) (cfg : GPSFabricConfig) : GPSFabricConfig :=
  {| cfg_fabric_endpoint := cfg_fabric_endpoint cfg;
     cfg_request_timeout := cfg_request_timeout cfg;
     cfg_max_retries := n |}.

(** Sample inputs: the variables of a robot that knows where it is, a
    server that never answers, and a server that accepts. *)
Definition located : gmap string pyval :=
  list_to_map [ ("latitude", PFloat 4869 (-7)); ("longitude", PFloat 2351 (-10));
                ("yaw_deg", PInt 90) ].

Definition unreachable (vars : gmap string pyval) : world :=
  {| io_variables := vars; server := fun _ _ => Fails ConnectionError;
     posts := []; sleeps := []; log := [] |}.

Definition accepting (vars : gmap string pyval) : world :=
  {| io_variables := vars;
     server := fun _ _ =>
       Responds {| status_code := 200;
                   body := Some (PDict (list_to_map [("result", PBool true)])) |};
     posts := []; sleeps := []; log := [] |}.

End FabricVocabulary.
Import FabricVocabulary.

Module SimulatorsVocabulary.
Import Simulators.

(** The module path that [importlib] is asked for. *)
Definition plugin_module (module_name : string) : string :=
  "simulators.plugins." +:+ module_name.

(** No readable plugin file declares the class. *)
Definition no_match (class_name : string)
    (entries : list (string * result text)) : Prop :=
  forall f content,
    (f, Ok content) ∈ entries ->
    endswith f ".py" = true ->
    search_multiline (class_pattern class_name) content = false.

(** The four ways in which the lookup of a class name fails with an error
    that the code handles: no plugin module declares it; the import of the
    module that declares it raises an [ImportError] or an
    [AttributeError]; the imported module has no attribute of that name;
    the attribute is not a strict subclass of [Simulator]. *)
Inductive lookup_failure (w : world) (class_name : string) : Prop :=
| not_found (w1 : world) :
    find_module_with_class (PStr class_name) w = (Ok None, w1) ->
    lookup_failure w class_name
| import_fails (module_name : string) (w1 : world) (e : exn) :
    find_module_with_class (PStr class_name) w = (Ok (Some module_name), w1) ->
    import_table w (plugin_module module_name) = Raise e ->
    isinstance e C_ImportError || isinstance e C_AttributeError = true ->
    lookup_failure w class_name
| attribute_missing (module_name : string) (w1 : world) (m : module) :
    find_module_with_class (PStr class_name) w = (Ok (Some module_name), w1) ->
    import_table w (plugin_module module_name) = Ok m ->
    getattr m class_name = Raise AttributeError ->
    lookup_failure w class_name
| not_a_simulator (module_name : string) (w1 : world) (m : module) (o : pyobj) :
    find_module_with_class (PStr class_name) w = (Ok (Some module_name), w1) ->
    import_table w (plugin_module module_name) = Ok m ->
    getattr m class_name = Ok o ->
    valid_simulator_class o = false ->
    lookup_failure w class_name.

(** Sample inputs. *)
Definition newline : text := [10%N].

(** A plugin file that declares the class [Turtle]. *)
Definition turtle_source : text :=
  code_points "import math" ++ newline
  ++ code_points "class Turtle(Simulator):" ++ newline
  ++ code_points "    pass" ++ newline.


(** An installation whose plugin [turtle.py] declares [Turtle], and whose
    import gives the module [m] or fails. *)
Definition installation (imported : result module) : world :=
  {| plugins := Listing [ ("README.md",
                           Ok (code_points "class Turtle(Simulator):"));
                          ("turtle.py", Ok turtle_source) ];
     import_table := fun _ => imported;
     on_call := fun c kwargs => Ok (Instance c kwargs);
     str_of := fun _ => "";
     log := [] |}.

End SimulatorsVocabulary.
Import SimulatorsVocabulary.

(* ===================================================================== *)
(** ** Sample inputs *)
(* ===================================================================== *)

Module Samples.
Import History.

(** A clock whose [k]-th reading is [k] microseconds into one second. *)
Definition sample_clock (k : nat) : datetime :=
  {| year := 2025; month := 3; day := 14;
     hour := 9; minute := 26; second := 53; microsecond := k |}.

Definition message (role content : string) : pyval :=
  PDict (list_to_map [("role", PStr role); ("content", PStr content)]).

(** A history file as [_save_to_file] writes it, reduced to the two keys
    that matter here. *)
Definition saved (h : pyval) : file_content :=
  Json (PDict (list_to_map [("agent_name", PStr "agent"); ("history", h)])).

Definition agent_file : path :=
  {| parent := "conversation_history"; stem := "agent_history";
     suffix := ".json" |}.

(** A file system that accepts every call. *)
Definition disk (fs : gmap path file_content) : world :=
  {| files := fs; clock := sample_clock; ticks := 0; log := [];
     deny_mkdir := fun _ => false; deny_stat := fun _ => false;
     deny_read := fun _ => false;
     on_write := fun _ => WriteOk; deny_replace := fun _ => false |}.

(** A file system that refuses to open any file for writing. *)
Definition read_only_disk (fs : gmap path file_content) : world :=
  {| files := fs; clock := sample_clock; ticks := 0; log := [];
     deny_mkdir := fun _ => false; deny_stat := fun _ => false;
     deny_read := fun _ => false;
     on_write := fun _ => OpenFails; deny_replace := fun _ => false |}.

(** The same world behind a directory that cannot be searched: [stat]
    is refused for every path that is not among the files. *)
Definition hidden (w : world) : world :=
  {| files := files w; clock := clock w; ticks := ticks w; log := log w;
     deny_mkdir := deny_mkdir w; deny_stat := fun _ => true;
     deny_read := deny_read w;
     on_write := on_write w; deny_replace := deny_replace w |}.

Definition three_messages : list pyval :=
  [ message "user" "one"; message "assistant" "two"; message "user" "three" ].

(** Entries of every kind: two messages, a number, and a dictionary
    without content. *)
Definition mixed_entries : list pyval :=
  [ message "system" "be brief"; PInt 7;
    PDict (list_to_map [("role", PStr "user")]);
    message "user" "hello" ].

Definition agent (max_history_size : Z) (auto_save : bool) (h : pyval)
    : manager :=
  {| history_dir := "conversation_history"; agent_name := "agent";
     auto_save := auto_save; max_history_size := max_history_size;
     history := h |}.

End Samples.

(* ===================================================================== *)
(** ** Vocabulary of the further properties *)
(* ===================================================================== *)

Module HistoryScenarios.
Import History.

(** A caller that adds one message after the other, without metadata (the
    loop of the size-limit test). *)
Fixpoint add_messages (items : list (string * string)) : M state unit :=
  match items with
  | [] => ret tt
  | (role, content) :: rest =>
      add_message role content None ;; add_messages rest
  end.

(** The last [k] elements of a list. *)
Definition last_elements {A} (k : nat) (l : list A) : list A :=
  drop (length l - k) l.

(** The cut that [add_message] and [import_history] apply to a list. *)
Definition trimmed (max_history_size : Z) (l : list pyval) : list pyval :=
  if Z.of_nat (length l) >? max_history_size
  then list_slice_from l (- max_history_size)
  else l.

(** A message record carries the given role and content. *)
Definition says (item : string * string) (msg : pyval) : Prop :=
  exists d, msg = PDict d
            /\ d !! "role" = Some (PStr item.1)
            /\ d !! "content" = Some (PStr item.2).

(** The value of a field of a message, when it has the field. *)
Definition field (key : string) (msg : pyval) : option pyval :=
  match msg with
  | PDict d => d !! key
  | _ => None
  end.

(** The world with one more record in its log. *)
Definition noted (r : log_record) (s : state) : state :=
  on_env (add_log r) s.

End HistoryScenarios.

Module FabricScenarios.
Import Fabric.

(** The text of the [ERROR] record that [send_coordinates] writes for an
    exception, by the first [except] clause that takes it. *)
Definition failure_text (e : exn) : string :=
  if isinstance e C_Timeout then "GPSFabricConnector: Request timeout"
  else if isinstance e C_ConnectionError then "GPSFabricConnector: Connection error"
  else if isinstance e C_HTTPError then "GPSFabricConnector: HTTP error"
  else if isinstance e C_RequestException then "GPSFabricConnector: Request error"
  else "GPSFabricConnector: Unexpected error".

(** A server that answers every request with the given status and no
    body. *)
Definition answering (status : Z) (vars : gmap string pyval) : world :=
  {| io_variables := vars;
     server := fun _ _ => Responds {| status_code := status; body := None |};
     posts := []; sleeps := []; log := [] |}.

(** A server that cannot be reached in time. *)
Definition timing_out (vars : gmap string pyval) : world :=
  {| io_variables := vars; server := fun _ _ => Fails ConnectTimeout;
     posts := []; sleeps := []; log := [] |}.

End FabricScenarios.

Module SimulatorsScenarios.
Import Simulators.

(** The language of a regular expression: the texts it matches in
    full. *)
Inductive matches : regex -> text -> Prop :=
| matches_eps : matches Eps []
| matches_sym (p : char -> bool) (c : char) :
    p c = true -> matches (Sym p) [c]
| matches_alt_l (r1 r2 : regex) (s : text) :
    matches r1 s -> matches (Alt r1 r2) s
| matches_alt_r (r1 r2 : regex) (s : text) :
    matches r2 s -> matches (Alt r1 r2) s
| matches_seq (r1 r2 : regex) (s1 s2 : text) :
    matches r1 s1 -> matches r2 s2 -> matches (Seq r1 r2) (s1 ++ s2)
| matches_star_nil (r : regex) : matches (Star r) []
| matches_star_cons (r : regex) (s1 s2 : text) :
    matches r s1 -> matches (Star r) s2 -> matches (Star r) (s1 ++ s2).

(** Every character of the text passes the test. *)
Fixpoint all_chars (p : char -> bool) (s : text) : bool :=
  match s with
  | [] => true
  | c :: s' => p c && all_chars p s'
  end.

(** The text before a position at which [^] matches under
    [re.MULTILINE]: nothing, or a text that ends in a newline. *)
Definition line_start (before : text) : Prop :=
  before = [] \/ exists b, before = b ++ [10%N].

(** The free parts of a class declaration that the pattern accepts: the
    white space after [class], after the name and before the colon, and
    the text of the base list on both sides of the word [Simulator]. *)
Record layout := {
  after_class : text;
  after_name : text;
  bases_before : text;
  bases_after : text;
  before_colon : text
}.

Definition declaration (class_name : string) (l : layout) : text :=
  code_points "class" ++ after_class l ++ code_points class_name
  ++ after_name l ++ code_points "(" ++ bases_before l
  ++ code_points "Simulator" ++ bases_after l ++ code_points ")"
  ++ before_colon l ++ code_points ":".

Definition well_formed (l : layout) : Prop :=
  after_class l <> []
  /\ all_chars is_space (after_class l) = true
  /\ all_chars is_space (after_name l) = true
  /\ all_chars not_rparen (bases_before l) = true
  /\ all_chars not_rparen (bases_after l) = true
  /\ all_chars is_space (before_colon l) = true.

(** The text declares, at the start of one of its lines, a class of the
    given name with [Simulator] in the text of its base list. *)
Definition declares (class_name : string) (content : text) : Prop :=
  exists before l after,
    content = before ++ declaration class_name l ++ after
    /\ line_start before
    /\ well_formed l.

(** The entries of the directory that are plugin files and cannot be
    read. *)
Definition unreadable (entries : list (string * result text))
    : list (string * result text) :=
  List.filter (fun f => endswith f.1 ".py"
                        && match f.2 with Raise _ => true | Ok _ => false end)
              entries.

(** The world with [k] more warnings about plugin files in its log. *)
Definition warned (k : nat) (w : world) : world :=
  {| plugins := plugins w; import_table := import_table w;
     on_call := on_call w; str_of := str_of w;
     log := log w ++ replicate k (WARNING, "Could not read plugin file") |}.

(** The world with one more record in its log. *)
Definition recorded (r : log_record) (w : world) : world :=
  {| plugins := plugins w; import_table := import_table w;
     on_call := on_call w; str_of := str_of w; log := log w ++ [r] |}.

(** A strict subclass of [SimulatorConfig], as the scan of the module
    tests it. *)
Definition config_subclass (o : pyobj) : bool :=
  match o with
  | Class c => issubclass c SimulatorConfig && class_ne c SimulatorConfig
  | _ => false
  end.

(** Sample classes and a sample plugin module. *)
Definition Turtle : class_obj :=
  {| qualname := "simulators.plugins.turtle.Turtle";
     mro := ["simulators.plugins.turtle.Turtle"; "simulators.base.Simulator";
             "object"] |}.
Definition TurtleConfig : class_obj :=
  {| qualname := "simulators.plugins.turtle.TurtleConfig";
     mro := ["simulators.plugins.turtle.TurtleConfig";
             "simulators.base.SimulatorConfig"; "object"] |}.
Definition turtle_module : module :=
  [ ("Simulator", Class Simulator);
    ("SimulatorConfig", Class SimulatorConfig);
    ("TurtleConfig", Class TurtleConfig);
    ("Turtle", Class Turtle) ].

(** An installation with the plugin [turtle.py] in which constructing a
    [Turtle] raises [e]. *)
Definition broken_turtle (e : exn) : world :=
  {| plugins := Listing [ ("notes.py", Raise OSError);
                          ("turtle.py",
                           Ok (code_points "class Turtle(Simulator):"
                               ++ [10%N])) ];
     import_table := fun _ => Ok turtle_module;
     on_call := fun c kwargs =>
       if String.eqb (qualname c) (qualname Turtle) then Raise e
       else Ok (Instance c kwargs);
     str_of := fun _ => "";
     log := [] |}.

(** A declaration set with a no-break space (code point 160) after
    [class] and an em space (8195) before the colon. *)
Definition typeset_source : text :=
  code_points "class" ++ [160%N] ++ code_points "Turtle(Simulator)"
  ++ [8195%N] ++ code_points ":".

End SimulatorsScenarios.

(* ===================================================================== *)
(** * Properties *)
(* ===================================================================== *)

(** Unfolding of the monad's operations, for running a method on a
    symbolic state. *)
Ltac run :=
  unfold bind, ret, raise, lift, gets, get, modify, when, try_except in *;
  simpl in *.

(** ** Slices *)

Lemma slice_start_keep_last (n : nat) (k : Z) :
  0 < k -> slice_start n (- k) = (n - Z.to_nat k)%nat.
Proof.
  intros Hk. unfold slice_start.
  destruct (Z.ltb_spec (- k) 0); lia.
Qed.

Lemma slice_start_zero (n : nat) : slice_start n (- 0) = 0%nat.
Proof. unfold slice_start. simpl. lia. Qed.

Lemma list_slice_last {A} (l : list A) (k : Z) :
  0 < k -> list_slice_from l (- k) = drop (length l - Z.to_nat k) l.
Proof.
  intros Hk. unfold list_slice_from. by rewrite slice_start_keep_last.
Qed.

Lemma list_slice_last_length {A} (l : list A) (k : Z) :
  0 < k ->
  length (list_slice_from l (- k)) = Nat.min (Z.to_nat k) (length l).
Proof.
  intros Hk. rewrite list_slice_last, length_drop by done. lia.
Qed.

Lemma list_slice_zero {A} (l : list A) : list_slice_from l (- 0) = l.
Proof. unfold list_slice_from. by rewrite slice_start_zero. Qed.

(** ** The history manager *)

Arguments History._save_to_file : simpl never.
Arguments History._save_history : simpl never.
Arguments History._load_history : simpl never.

Section HistoryFacts.
Import History.

(** A message passes the cleaning test exactly when it is a dictionary
    with the two keys. *)
Lemma valid_message_spec (msg : pyval) :
  valid_message msg = true <->
  exists d, msg = PDict d /\ is_Some (d !! "role") /\ is_Some (d !! "content").
Proof.
  unfold valid_message, is_dict, has_key. split.
  - destruct msg as [| | | | | |d]; try discriminate.
    cbn [andb]. intros H.
    destruct (d !! "role") as [r|] eqn:Hr; [|discriminate].
    destruct (d !! "content") as [c|] eqn:Hc; [|discriminate].
    exists d. rewrite Hr, Hc. eauto.
  - intros (d & -> & [r Hr] & [c Hc]). cbn [andb]. by rewrite Hr, Hc.
Qed.

(** No element of a string or of the key list of a dictionary is a
    dictionary, so the cleaning comprehension empties them. *)
Lemma filter_valid_chars (s : string) : List.filter valid_message (chars s) = [].
Proof. induction s as [|c s IH]; simpl; auto. Qed.

Lemma filter_valid_keys (ks : list string) :
  List.filter valid_message (PStr <$> ks) = [].
Proof. induction ks as [|k ks IH]; simpl; auto. Qed.

(** [_save_to_file] never touches the object. *)
Lemma save_to_file_self (p : path) (s : state) :
  self (_save_to_file p s).2 = self s.
Proof.
  unfold _save_to_file, now, write_json, replace. run.
  destruct (py_len (history (self s))); simpl; [|done].
  destruct (on_write _ _); simpl; try done.
  destruct (deny_replace _ _); simpl; [done|].
  rewrite lookup_insert_eq. done.
Qed.

(** [_save_history] catches everything: it returns normally and leaves the
    object as it was. *)
Lemma save_history_total (s : state) :
  exists w', _save_history s = (Ok tt, {| self := self s; env := w' |}).
Proof.
  unfold _save_history. run.
  pose proof (save_to_file_self (history_file (self s)) s) as Hself.
  destruct (_save_to_file (history_file (self s)) s) as [[[]|e] [m w]];
    simpl in *; subst m.
  - destruct (py_len (history (self s))); simpl; eauto.
  - unfold logging. run. eauto.
Qed.

(** The existence test is outside the [try]: when it raises, so does
    [_load_history], before it has done anything. *)
Lemma load_history_stat_fails (s : state) :
  stat_fails (env s) (history_file (self s)) ->
  _load_history s = (Raise OSError, s).
Proof.
  intros [Hfile Hstat]. unfold _load_history, path_exists. run.
  by rewrite Hfile, Hstat.
Qed.

(** Past the existence test, [_load_history] catches everything. *)
Lemma load_history_cases (s : state) :
  history (self s) = PList [] ->
  ~ stat_fails (env s) (history_file (self s)) ->
  exists s',
    _load_history s = (Ok tt, s')
    /\ (history (self s') = PList []
        \/ (exists d l, deny_read (env s) (history_file (self s)) = false
               /\ files (env s) !! history_file (self s) = Some (Json (PDict d))
               /\ d !! "history" = Some (PList l)
               /\ history (self s') = PList (List.filter valid_message l))
        \/ (exists d v, files (env s) !! history_file (self s) = Some (Json (PDict d))
               /\ d !! "history" = Some v
               /\ py_iter v = Raise TypeError
               /\ history (self s') = v)).
Proof.
  intros Hempty Hstat. unfold _load_history, path_exists, read_json,
    assign_history, logging. run.
  destruct (files (env s) !! history_file (self s)) as [content|] eqn:Hfile;
    simpl.
  2:{ destruct (deny_stat (env s) (history_file (self s))) eqn:Hdeny; simpl.
      - destruct Hstat. by split.
      - eexists. split; [reflexivity|]. left. done. }
  destruct (deny_read (env s) (history_file (self s))) eqn:Hdeny; simpl.
  { eexists. split; [reflexivity|]. left. done. }
  rewrite Hfile.
  destruct content as [data|]; simpl.
  2:{ eexists. split; [reflexivity|]. left. done. }
  destruct data as [| | | | |l0|d]; simpl;
    try (eexists; split; [reflexivity|]; left; done).
  destruct (d !! "history") as [v|] eqn:Hd; simpl.
  2:{ eexists. split; [reflexivity|]. left. done. }
  destruct v as [| | | |str|l|d']; simpl;
    try (eexists; split; [reflexivity|]; right; right;
         exists d; eexists; repeat split; eauto; done).
  - eexists. split; [reflexivity|]. left. simpl.
    by rewrite filter_valid_chars.
  - eexists. split; [reflexivity|]. right. left.
    exists d, l. repeat split; auto.
  - eexists. split; [reflexivity|]. left. simpl.
    by rewrite filter_valid_keys.
Qed.

Lemma stat_fails_dec (w : world) (p : path) :
  stat_fails w p \/ ~ stat_fails w p.
Proof.
  unfold stat_fails.
  destruct (files w !! p); [right; by intros [? _]|].
  destruct (deny_stat w p); [left; done|right; by intros [_ ?]].
Qed.

Lemma load_history_list (s : state) (d : gmap string pyval) (l : list pyval) :
  deny_read (env s) (history_file (self s)) = false ->
  files (env s) !! history_file (self s) = Some (Json (PDict d)) ->
  d !! "history" = Some (PList l) ->
  history (self (_load_history s).2) = PList (List.filter valid_message l).
Proof.
  intros Hdeny Hfile Hd.
  unfold _load_history, path_exists, read_json, assign_history, logging. run.
  rewrite Hfile. simpl. rewrite Hdeny, Hfile. simpl. rewrite Hd. reflexivity.
Qed.

Lemma metadata_or_empty (metadata : option (gmap string pyval)) :
  match metadata with
  | Some d => if truthy (PDict d) then PDict d else PDict ∅
  | None => PDict ∅
  end = PDict (default ∅ metadata).
Proof.
  destruct metadata as [d|]; simpl; [|done].
  case_bool_decide; simpl; congruence.
Qed.

(** What [add_message] does to a history that is a list. *)
Lemma add_message_history (s : state) (role content : string)
    (metadata : option (gmap string pyval)) (l : list pyval) :
  history (self s) = PList l ->
  let msg := PDict (message_record role content
                      (clock (env s) (ticks (env s))) metadata) in
  exists s',
    add_message role content metadata s = (Ok tt, s')
    /\ history (self s') =
         PList (if Z.of_nat (length (l ++ [msg])) >? max_history_size (self s)
                then list_slice_from (l ++ [msg]) (- max_history_size (self s))
                else l ++ [msg])
    /\ max_history_size (self s') = max_history_size (self s).
Proof.
  intros Hl. unfold add_message, now, assign_history, logging, message_record.
  run. rewrite Hl, metadata_or_empty. simpl.
  set (msg := PDict (<["role":=_]> _)).
  destruct (Z.of_nat (length (l ++ [msg])) >? max_history_size (self s)) eqn:Hgt;
    simpl;
    (destruct (auto_save (self s)); simpl;
     [ match goal with |- context [_save_history ?st] =>
         destruct (save_history_total st) as [w' ->] end; simpl | ];
     eexists; (split; [reflexivity|]); simpl; by rewrite ?Hgt).
Qed.

End HistoryFacts.

Section HistoryQueries.
Import History.

Lemma getitem_role_valid (msg : pyval) :
  valid_message msg = true ->
  exists v, py_getitem msg "role" = Ok v /\ role_of msg = Some v.
Proof.
  intros (d & -> & [v Hv] & _)%valid_message_spec.
  exists v. simpl. by rewrite Hv.
Qed.

Lemma filter_r_valid (test : pyval -> bool) (h : list pyval) :
  Forall (fun msg => valid_message msg = true) h ->
  filter_r (fun msg => result_bind (py_getitem msg "role")
                         (fun v => Ok (test v))) h
  = Ok (List.filter (fun msg => match role_of msg with
                                | Some v => test v
                                | None => false
                                end) h).
Proof.
  induction 1 as [|msg h Hmsg _ IH]; simpl; [done|].
  destruct (getitem_role_valid msg Hmsg) as (v & -> & ->). simpl.
  by rewrite IH.
Qed.

Lemma role_filtered_valid (m : manager) (rf : option string) (h : list pyval) :
  history m = PList h ->
  Forall (fun msg => valid_message msg = true) h ->
  role_filtered rf m = Ok (PList (matching rf h)).
Proof.
  intros Hh Hvalid. unfold role_filtered, matching. rewrite Hh. simpl.
  destruct rf as [r|]; [|done].
  destruct (String.eqb r ""); simpl; [done|].
  rewrite (filter_r_valid (fun v => py_eq_str v r)) by done. done.
Qed.

Lemma system_filtered_valid (m : manager) (inc : bool) (h : list pyval) :
  history m = PList h ->
  Forall (fun msg => valid_message msg = true) h ->
  system_filtered inc m = Ok (PList (without_system inc h)).
Proof.
  intros Hh Hvalid. unfold system_filtered, without_system. rewrite Hh. simpl.
  destruct inc; simpl; [done|].
  rewrite (filter_r_valid (fun v => negb (py_eq_str v "system"))) by done.
  done.
Qed.

Lemma format_message_valid (msg : pyval) :
  valid_message msg = true -> format_message msg = Ok (brief msg).
Proof.
  intros (d & -> & [r Hr] & [c Hc])%valid_message_spec.
  unfold format_message, brief. simpl. by rewrite Hr, Hc.
Qed.

Lemma map_r_format_valid (h : list pyval) :
  Forall (fun msg => valid_message msg = true) h ->
  map_r format_message h = Ok (brief <$> h).
Proof.
  induction 1 as [|msg h Hmsg _ IH]; simpl; [done|].
  by rewrite format_message_valid, IH.
Qed.

Lemma filter_preserves_valid (p : pyval -> bool) (h : list pyval) :
  Forall (fun msg => valid_message msg = true) h ->
  Forall (fun msg => valid_message msg = true) (List.filter p h).
Proof.
  rewrite !List.Forall_forall. intros H x [Hx _]%List.filter_In. auto.
Qed.

Lemma drop_preserves_valid (k : nat) (h : list pyval) :
  Forall (fun msg => valid_message msg = true) h ->
  Forall (fun msg => valid_message msg = true) (drop k h).
Proof. apply Forall_drop. Qed.

(** A positive limit keeps a suffix of the right length. *)
Lemma keep_last_spec {A} (n : Z) (l : list A) :
  0 < n ->
  list_slice_from l (- n) `suffix_of` l
  /\ length (list_slice_from l (- n)) = Nat.min (Z.to_nat n) (length l).
Proof.
  intros Hn. split; [|by apply list_slice_last_length].
  unfold list_slice_from. apply suffix_drop.
Qed.

End HistoryQueries.

Section HistoryFiles.
Import History.

(** The files a manager writes are pairwise distinct. *)
Lemma backup_ne_history (m : manager) (t : datetime) :
  backup_file m t <> history_file m.
Proof.
  unfold backup_file, history_file. intros H. injection H as H.
  apply (inj (String.app (agent_name m))) in H. discriminate H.
Qed.

Lemma tmp_ne_json (p q : path) :
  suffix q = ".json" -> with_suffix p ".tmp" <> q.
Proof. intros Hq H. rewrite <- H in Hq. discriminate Hq. Qed.

(** A write that the file system accepts. *)
Lemma save_to_file_accepted (p : path) (s : state) (l : list pyval) :
  history (self s) = PList l ->
  on_write (env s) (with_suffix p ".tmp") = WriteOk ->
  deny_replace (env s) p = false ->
  _save_to_file p s
  = (Ok tt,
     {| self := self s;
        env := set_files
                 (fun fs =>
                    <[p := Json (document (self s) (clock (env s) (ticks (env s))))]>
                      (delete (with_suffix p ".tmp")
                         (<[with_suffix p ".tmp" :=
                              Json (document (self s)
                                      (clock (env s) (ticks (env s))))]> fs)))
                 (tick (env s)) |}).
Proof.
  intros Hl Hw Hr. unfold _save_to_file, now, write_json, replace, document.
  run. rewrite Hl. simpl. rewrite Hw. simpl. rewrite Hr.
  rewrite lookup_insert_eq. simpl. unfold on_env, set_files. simpl.
  repeat f_equal.
Qed.

(** A write whose [open] is refused raises and changes no file. *)
Lemma save_to_file_refused (p : path) (s : state) (l : list pyval) :
  history (self s) = PList l ->
  on_write (env s) (with_suffix p ".tmp") = OpenFails ->
  _save_to_file p s = (Raise OSError, on_env tick s).
Proof.
  intros Hl Hw. unfold _save_to_file, now, write_json. run.
  rewrite Hl. simpl. by rewrite Hw.
Qed.

(** [_save_history], accepted. *)
Lemma save_history_accepted (s : state) (l : list pyval) :
  history (self s) = PList l ->
  accepts_writes (env s) ->
  let p := history_file (self s) in
  let doc := Json (document (self s) (clock (env s) (ticks (env s)))) in
  _save_history s
  = (Ok tt,
     {| self := self s;
        env := add_log (DEBUG, "Saved messages to history file")
                 (set_files
                    (fun fs => <[p := doc]>
                       (delete (with_suffix p ".tmp")
                          (<[with_suffix p ".tmp" := doc]> fs)))
                    (tick (env s))) |}).
Proof.
  intros Hl Hok p doc. unfold _save_history. run.
  rewrite (save_to_file_accepted _ _ l Hl); [|apply Hok..].
  simpl. rewrite Hl. simpl. unfold logging. run. reflexivity.
Qed.

(** Every way in which [_save_to_file] ends, for a history that is a
    list. *)
Lemma save_to_file_cases (p : path) (s : state) (l : list pyval) :
  history (self s) = PList l ->
  let tmp := with_suffix p ".tmp" in
  let doc := Json (document (self s) (clock (env s) (ticks (env s)))) in
  _save_to_file p s
  = match on_write (env s) tmp with
    | WriteOk =>
        if deny_replace (env s) p
        then (Raise OSError,
              {| self := self s;
                 env := set_files (insert tmp doc) (tick (env s)) |})
        else (Ok tt,
              {| self := self s;
                 env := set_files
                          (fun fs => <[p := doc]>
                                       (delete tmp (<[tmp := doc]> fs)))
                          (tick (env s)) |})
    | OpenFails => (Raise OSError, on_env tick s)
    | DumpFails =>
        (Raise OSError,
         {| self := self s;
            env := set_files (insert tmp Malformed) (tick (env s)) |})
    end.
Proof.
  intros Hl tmp doc. subst tmp doc.
  unfold _save_to_file, now, write_json, replace, document.
  run. rewrite Hl. simpl.
  destruct (on_write (env s) (with_suffix p ".tmp")); simpl; try reflexivity.
  destruct (deny_replace (env s) p); simpl; [reflexivity|].
  rewrite lookup_insert_eq. simpl. unfold on_env, set_files. simpl.
  repeat f_equal.
Qed.

(** [_save_history] on any file system: it returns, leaves the object
    alone, touches no file but the history file and its temporary file,
    and the history file holds the document when its write goes through. *)
Lemma save_history_frame (s : state) (l : list pyval) :
  history (self s) = PList l ->
  let p := history_file (self s) in
  exists w',
    _save_history s = (Ok tt, {| self := self s; env := w' |})
    /\ (forall q, q <> p -> q <> with_suffix p ".tmp" ->
          files w' !! q = files (env s) !! q)
    /\ (on_write (env s) (with_suffix p ".tmp") = WriteOk ->
        deny_replace (env s) p = false ->
        files w' !! p
        = Some (Json (document (self s) (clock (env s) (ticks (env s)))))).
Proof.
  intros Hl p. subst p. unfold _save_history. run.
  rewrite (save_to_file_cases _ s l Hl).
  destruct (on_write (env s) _) eqn:Hw; simpl.
  - destruct (deny_replace (env s) _) eqn:Hr; simpl.
    + unfold logging. run. eexists. split; [reflexivity|]. simpl. split.
      * intros q _ Hq. by rewrite lookup_insert_ne.
      * intros _ H. discriminate H.
    + rewrite Hl. simpl. unfold logging. run.
      eexists. split; [reflexivity|]. simpl. split.
      * intros q Hq Hq'. rewrite lookup_insert_ne by done.
        rewrite lookup_delete_ne by done. by rewrite lookup_insert_ne.
      * intros _ _. by rewrite lookup_insert_eq.
  - unfold logging. run. eexists. split; [reflexivity|]. simpl.
    split; [done|]. intros H. discriminate H.
  - unfold logging. run. eexists. split; [reflexivity|]. simpl. split.
    + intros q _ Hq. by rewrite lookup_insert_ne.
    + intros H. discriminate H.
Qed.

(** What [_save_history] logs when the write raises. *)
Lemma save_history_failure_logged (s : state) :
  is_ok (_save_to_file (history_file (self s)) s).1 = false ->
  log (env (_save_history s).2)
  = log (env s) ++ [(ERROR, "Failed to save conversation history")].
Proof.
  unfold _save_history. run.
  assert (Hlog : log (env (_save_to_file (history_file (self s)) s).2)
                 = log (env s)).
  { unfold _save_to_file, now, write_json, replace. run.
    destruct (py_len (history (self s))); simpl; [|done].
    destruct (on_write _ _); simpl; try done.
    destruct (deny_replace _ _); simpl; [done|].
    by rewrite lookup_insert_eq. }
  destruct (_save_to_file (history_file (self s)) s) as [[[]|e] s1];
    simpl in *; [discriminate|].
  intros _. unfold logging. run. by rewrite Hlog.
Qed.

End HistoryFiles.

(** ** Claims about the history manager *)

Section HistoryClaims.
Import History Samples.

(** C7. The history loaded on startup is validated.  Started on the empty
    history that the constructor sets, [_load_history] returns normally,
    unless the existence test of the file itself raises: then nothing is
    loaded and the state is untouched.  Whenever it leaves a list, every
    message of the list is a dictionary with a "role" and a "content" key;
    and when the file holds a list, the load returns and the history is
    that list without the entries that fail the test: they are dropped,
    the load does not fail. *)
Theorem C7_load_history_validates (s : state) :
  history (self s) = PList [] ->
  exists r s',
    _load_history s = (r, s')
    /\ ((r = Ok tt /\ ~ stat_fails (env s) (history_file (self s)))
        \/ (r = Raise OSError /\ s' = s
            /\ stat_fails (env s) (history_file (self s))))
    /\ (forall l, history (self s') = PList l ->
          Forall (fun msg => exists d, msg = PDict d
                               /\ is_Some (d !! "role")
                               /\ is_Some (d !! "content")) l)
    /\ (forall d l,
          deny_read (env s) (history_file (self s)) = false ->
          files (env s) !! history_file (self s) = Some (Json (PDict d)) ->
          d !! "history" = Some (PList l) ->
          r = Ok tt
          /\ history (self s') = PList (List.filter valid_message l)).
Proof.
  intros Hempty.
  destruct (stat_fails_dec (env s) (history_file (self s))) as [Hstat|Hstat].
  { exists (Raise OSError), s.
    split; [by apply load_history_stat_fails|]. split; [right; done|]. split.
    - intros l Hl. rewrite Hempty in Hl. injection Hl as <-. constructor.
    - intros d l _ Hfile _. destruct Hstat as [Hnone _]. congruence. }
  destruct (load_history_cases s Hempty Hstat) as (s' & Hrun & Hcases).
  exists (Ok tt), s'. split; [done|]. split; [left; done|]. split.
  - intros l Hl.
    destruct Hcases as [H|[(d & l' & _ & _ & _ & H)|(d & v & _ & _ & Hiter & H)]].
    + rewrite H in Hl. injection Hl as <-. constructor.
    + rewrite H in Hl. injection Hl as <-.
      apply List.Forall_forall. intros msg [_ Hmsg]%List.filter_In.
      by apply valid_message_spec.
    + rewrite H in Hl. rewrite Hl in Hiter. discriminate Hiter.
  - intros d l Hdeny Hfile Hd. split; [done|].
    pose proof (load_history_list s d l Hdeny Hfile Hd) as H.
    by rewrite Hrun in H.
Qed.

Lemma C7_load_history_validates_witness :
  exists s',
    _load_history {| self := agent 100 true (PList []);
                     env := disk {[ agent_file := saved (PList mixed_entries) ]} |}
    = (Ok tt, s')
    /\ history (self s') = PList [message "system" "be brief"; message "user" "hello"].
Proof.
  destruct (C7_load_history_validates
              {| self := agent 100 true (PList []);
                 env := disk {[ agent_file := saved (PList mixed_entries) ]} |}
              eq_refl) as (r & s' & Hrun & _ & _ & Hlist).
  destruct (Hlist (list_to_map [("agent_name", PStr "agent");
                                ("history", PList mixed_entries)])
                  mixed_entries eq_refl eq_refl eq_refl) as [-> Hhist].
  exists s'. split; [exact Hrun|]. rewrite Hhist. reflexivity.
Defined.

(** C8. Every record appended by [add_message] has exactly the four fields
    role, content, timestamp and metadata: role and content are the
    arguments, the timestamp is the clock reading of the call, and the
    metadata is the given dictionary, or the empty one for [None].  The
    record is appended to the history, which is then cut to size. *)
Theorem C8_add_message_record (s : state) (role content : string)
    (metadata : option (gmap string pyval)) (l : list pyval) :
  history (self s) = PList l ->
  exists (msg : gmap string pyval) (s' : state),
    add_message role content metadata s = (Ok tt, s')
    /\ history (self s') =
         PList (if Z.of_nat (length (l ++ [PDict msg])) >? max_history_size (self s)
                then list_slice_from (l ++ [PDict msg]) (- max_history_size (self s))
                else l ++ [PDict msg])
    /\ dom msg = {[ "role"; "content"; "timestamp"; "metadata" ]}
    /\ msg !! "role" = Some (PStr role)
    /\ msg !! "content" = Some (PStr content)
    /\ msg !! "timestamp" = Some (PStr (isoformat (clock (env s) (ticks (env s)))))
    /\ msg !! "metadata" = Some (PDict (default ∅ metadata)).
Proof.
  intros Hl.
  destruct (add_message_history s role content metadata l Hl)
    as (s' & Hrun & Hhist & _).
  exists (message_record role content (clock (env s) (ticks (env s))) metadata), s'.
  split; [done|]. split; [done|].
  unfold message_record. split.
  - rewrite dom_list_to_map_L. simpl. set_solver.
  - simpl. repeat split.
Qed.

Lemma C8_add_message_record_witness :
  exists (msg : gmap string pyval) (s' : state),
    add_message "user" "hello" None
      {| self := agent 100 false (PList three_messages); env := disk ∅ |}
    = (Ok tt, s')
    /\ history (self s') = PList (three_messages ++ [PDict msg])
    /\ dom msg = {[ "role"; "content"; "timestamp"; "metadata" ]}
    /\ msg !! "timestamp" = Some (PStr "2025-03-14T09:26:53")
    /\ msg !! "metadata" = Some (PDict ∅).
Proof.
  destruct (C8_add_message_record
              {| self := agent 100 false (PList three_messages); env := disk ∅ |}
              "user" "hello" None three_messages eq_refl)
    as (msg & s' & Hrun & Hhist & Hdom & _ & _ & Htime & Hmeta).
  exists msg, s'. repeat split; assumption.
Defined.

(** C10. A limit of 0 is not applied: [get_history] and
    [get_formatted_history] then return what they return without a limit,
    the entire filtered history.  On a history of well-formed messages, a
    positive limit [n] returns the last [min n length] messages that pass
    the filter, in their order: the suffix of that length. *)
Theorem C10_limit_is_tested_for_truth (s : state) (h : list pyval)
    (role_filter : option string) (include_system : bool) :
  history (self s) = PList h ->
  Forall (fun msg => valid_message msg = true) h ->
  (get_history (Some 0) role_filter s = get_history None role_filter s
   /\ get_history (Some 0) role_filter s
      = (Ok (PList (matching role_filter h)), s)
   /\ get_formatted_history (Some 0) include_system s
      = get_formatted_history None include_system s
   /\ get_formatted_history (Some 0) include_system s
      = (Ok (PList (brief <$> without_system include_system h)), s))
  /\ (forall n : Z, 0 < n ->
       (exists kept,
          get_history (Some n) role_filter s = (Ok (PList kept), s)
          /\ kept `suffix_of` matching role_filter h
          /\ length kept
             = Nat.min (Z.to_nat n) (length (matching role_filter h)))
       /\ (exists kept,
             get_formatted_history (Some n) include_system s
             = (Ok (PList (brief <$> kept)), s)
             /\ kept `suffix_of` without_system include_system h
             /\ length kept
                = Nat.min (Z.to_nat n)
                    (length (without_system include_system h)))).
Proof.
  intros Hh Hvalid.
  assert (Hsys : Forall (fun msg => valid_message msg = true)
                   (without_system include_system h)).
  { unfold without_system. destruct include_system; [done|].
    by apply filter_preserves_valid. }
  split; [split; [|split; [|split]]|].
  - reflexivity.
  - unfold get_history. run.
    by rewrite (role_filtered_valid _ _ h).
  - reflexivity.
  - unfold get_formatted_history. run.
    rewrite (system_filtered_valid _ _ h) by done. simpl.
    unfold format_messages. simpl. by rewrite map_r_format_valid.
  - intros n Hn.
    assert (Hnz : (n =? 0) = false) by lia.
    split.
    + exists (list_slice_from (matching role_filter h) (- n)).
      split; [|by apply keep_last_spec].
      unfold get_history. run.
      rewrite (role_filtered_valid _ _ h) by done. simpl.
      by rewrite Hnz.
    + exists (list_slice_from (without_system include_system h) (- n)).
      split; [|by apply keep_last_spec].
      unfold get_formatted_history. run.
      rewrite (system_filtered_valid _ _ h) by done. simpl.
      rewrite Hnz. simpl. unfold format_messages. simpl.
      rewrite map_r_format_valid; [done|].
      by apply drop_preserves_valid.
Qed.

Lemma C10_limit_is_tested_for_truth_witness :
  let s := {| self := agent 100 false (PList three_messages); env := disk ∅ |} in
  get_history (Some 0) (Some "user") s
  = (Ok (PList [message "user" "one"; message "user" "three"]), s)
  /\ get_history (Some 1) (Some "user") s
     = (Ok (PList [message "user" "three"]), s)
  /\ get_formatted_history (Some 2) true s
     = (Ok (PList [message "assistant" "two"; message "user" "three"]), s).
Proof.
  intros s.
  assert (Hvalid : Forall (fun msg => valid_message msg = true) three_messages).
  { repeat constructor. }
  destruct (C10_limit_is_tested_for_truth s three_messages (Some "user") true
              eq_refl Hvalid) as [(_ & Hzero & _ & _) Hpos].
  split; [exact Hzero|].
  split; vm_compute; reflexivity.
Defined.

(** After [add_message] a positive bound holds, whatever the length was
    before. *)
Lemma add_message_within_bound (s : state) (role content : string)
    (metadata : option (gmap string pyval)) (l : list pyval) :
  history (self s) = PList l ->
  0 < max_history_size (self s) ->
  exists s' l',
    add_message role content metadata s = (Ok tt, s')
    /\ history (self s') = PList l'
    /\ Z.of_nat (length l') <= max_history_size (self s').
Proof.
  intros Hl Hmax.
  destruct (add_message_history s role content metadata l Hl)
    as (s' & Hrun & Hhist & Hsame).
  eexists s', _. split; [exact Hrun|]. split; [exact Hhist|].
  rewrite Hsame.
  destruct (Z.gtb_spec (Z.of_nat (length (l ++
    [PDict (message_record role content (clock (env s) (ticks (env s)))
              metadata)]))) (max_history_size (self s))) as [Hgt|Hle].
  - rewrite list_slice_last_length by done. lia.
  - lia.
Qed.

(** With a bound of zero the slice [history[-0:]] is the whole list, so
    [add_message] trims nothing. *)
Lemma add_message_zero_bound_keeps_all :
  let out := add_message "user" "four" None
               {| self := agent 0 false (PList three_messages);
                  env := disk ∅ |} in
  out.1 = Ok tt /\ py_len (history (self out.2)) = Ok 4.
Proof. vm_compute. split; reflexivity. Qed.

(** A history file whose "history" is [null] parses, but the value is
    stored before it is iterated: the load fails after the assignment, and
    the constructor then raises on [len(self.history)]. *)
Lemma init_raises_on_null_history :
  (__init__ "conversation_history" "agent" false 100
     (disk {[ agent_file := saved PNone ]})).1 = Raise TypeError.
Proof. vm_compute. reflexivity. Qed.

(** C1, at the input where it fails.  A history file with three messages
    is loaded by a manager whose bound is two: the constructor returns a
    manager that holds all three. *)
Theorem C1_load_exceeds_bound :
  let out := __init__ "conversation_history" "agent" false 2
               (disk {[ agent_file := saved (PList three_messages) ]}) in
  out.1 = Ok (agent 2 false (PList three_messages))
  /\ py_len (PList three_messages) = Ok 3
  /\ 3 > max_history_size (agent 2 false (PList three_messages)).
Proof. vm_compute. repeat split; reflexivity. Qed.

End HistoryClaims.

Section PersistenceClaims.
Import History Samples.

(** C4, as stated, fails when the backup cannot be written: the exception
    of the unguarded [_save_to_file] leaves [clear_history] before the
    history is emptied.  Here the manager holds three messages and the
    file system refuses to open files for writing.  On the same file
    system without [save_backup], the history is emptied but the empty
    history does not reach the history file: the failed save is caught. *)
Lemma C4_backup_failure_aborts_clear :
  let s := {| self := agent 100 false (PList three_messages);
              env := read_only_disk ∅ |} in
  let out := clear_history true s in
  let out' := clear_history false s in
  (out.1 = Raise OSError
   /\ history (self out.2) = PList three_messages
   /\ files (env out.2) = ∅)
  /\ (out'.1 = Ok tt
      /\ history (self out'.2) = PList []
      /\ files (env out'.2) = ∅).
Proof. vm_compute. repeat split; reflexivity. Qed.

(** C4, amended.  [clear_history] on a non-empty history with
    [save_backup] first writes the backup file, named after the time of
    the call and holding the current history.  When that write fails, the
    error leaves [clear_history]: the in-memory history is not emptied and
    no file other than the temporary file of the backup has changed (none
    at all when the file cannot be opened).  When it goes through, and
    when no backup is due (an empty history, or no [save_backup]), the
    in-memory history is emptied on every file system, and the empty
    history is in the history file of the agent whenever that file can be
    written.  When no backup is due, no backup file is written: no file
    other than the history file and its temporary file is touched. *)
Theorem C4_clear_history_backs_up (s : state) (save_backup : bool)
    (l : list pyval) :
  history (self s) = PList l ->
  let m := self s in
  let t := clock (env s) (ticks (env s)) in
  let due := save_backup && truthy (PList l) in
  let bk := backup_file m t in
  let hf := history_file m in
  let persisted (s' : state) :=
    on_write (env s) (with_suffix hf ".tmp") = WriteOk ->
    deny_replace (env s) hf = false ->
    exists t', files (env s') !! hf
               = Some (Json (document (set_history (PList []) m) t')) in
  (due = false ->
   exists s',
     clear_history save_backup s = (Ok tt, s')
     /\ self s' = set_history (PList []) m
     /\ (forall p, p <> hf -> p <> with_suffix hf ".tmp" ->
           files (env s') !! p = files (env s) !! p)
     /\ persisted s')
  /\ (due = true ->
      on_write (env s) (with_suffix bk ".tmp") = WriteOk ->
      deny_replace (env s) bk = false ->
      exists s',
        clear_history save_backup s = (Ok tt, s')
        /\ self s' = set_history (PList []) m
        /\ (exists t', files (env s') !! bk = Some (Json (document m t')))
        /\ (forall p, p <> hf -> p <> with_suffix hf ".tmp" ->
              p <> bk -> p <> with_suffix bk ".tmp" ->
              files (env s') !! p = files (env s) !! p)
        /\ persisted s')
  /\ (due = true ->
      on_write (env s) (with_suffix bk ".tmp") <> WriteOk
      \/ deny_replace (env s) bk = true ->
      exists s',
        clear_history save_backup s = (Raise OSError, s')
        /\ self s' = self s
        /\ (forall p, p <> with_suffix bk ".tmp" ->
              files (env s') !! p = files (env s) !! p)
        /\ (on_write (env s) (with_suffix bk ".tmp") = OpenFails ->
            files (env s') = files (env s))).
Proof.
  intros Hl m t due bk hf persisted. subst m t due bk hf persisted.
  split; [|split].
  - intros Hdue.
    unfold clear_history, now, assign_history, logging. run.
    rewrite Hl. simpl. simpl in Hdue. rewrite Hdue. simpl.
    match goal with |- context [_save_history ?st] =>
      destruct (save_history_frame st [] eq_refl)
        as (w' & Hsave & Hframe & Hpersist); rewrite Hsave
    end.
    simpl. eexists. split; [reflexivity|]. simpl. split; [done|].
    split; [exact Hframe|].
    intros Hw Hr. eexists. by apply Hpersist.
  - intros Hdue Hw Hr.
    unfold clear_history, now, assign_history, logging. run.
    rewrite Hl. simpl. simpl in Hdue. rewrite Hdue. simpl.
    rewrite (save_to_file_accepted _ _ l); [|done|exact Hw|exact Hr]. simpl.
    match goal with |- context [_save_history ?st] =>
      destruct (save_history_frame st [] eq_refl)
        as (w' & Hsave & Hframe & Hpersist); rewrite Hsave
    end.
    simpl in Hframe, Hpersist.
    change (history_file (set_history (PList []) (self s)))
      with (history_file (self s)) in Hframe, Hpersist.
    simpl. eexists. split; [reflexivity|]. simpl. split; [done|]. split.
    + eexists. rewrite Hframe.
      * rewrite lookup_insert_eq. reflexivity.
      * apply backup_ne_history.
      * apply not_eq_sym. by apply tmp_ne_json.
    + split.
      * intros p Hp Hp' Hb Hb'. rewrite Hframe by done.
        rewrite lookup_insert_ne by done.
        rewrite lookup_delete_ne by done. by rewrite lookup_insert_ne.
      * intros Hw' Hr'. eexists. by apply Hpersist.
  - intros Hdue Hfail.
    unfold clear_history, now, assign_history, logging. run.
    rewrite Hl. simpl. simpl in Hdue. rewrite Hdue. simpl.
    rewrite (save_to_file_cases _ _ l) by done. simpl.
    destruct (on_write (env s) _) eqn:Hw; simpl.
    + destruct (deny_replace (env s) _) eqn:Hr; simpl.
      * eexists. split; [reflexivity|]. simpl. split; [done|]. split.
        -- intros p Hp. by rewrite lookup_insert_ne.
        -- intros H. discriminate H.
      * destruct Hfail as [H|H]; [done|discriminate H].
    + eexists. split; [reflexivity|]. simpl. done.
    + eexists. split; [reflexivity|]. simpl. split; [done|]. split.
      * intros p Hp. by rewrite lookup_insert_ne.
      * intros H. discriminate H.
Qed.

Lemma C4_clear_history_backs_up_witness :
  exists s',
    clear_history true
      {| self := agent 100 false (PList three_messages); env := disk ∅ |}
    = (Ok tt, s')
    /\ history (self s') = PList []
    /\ (exists t',
          files (env s') !!
            {| parent := "conversation_history";
               stem := "agent_backup_20250314_092653"; suffix := ".json" |}
          = Some (Json (document (agent 100 false (PList three_messages)) t')))
    /\ (exists t',
          files (env s') !! agent_file
          = Some (Json (document (agent 100 false (PList [])) t'))).
Proof.
  destruct (C4_clear_history_backs_up
              {| self := agent 100 false (PList three_messages); env := disk ∅ |}
              true three_messages eq_refl) as (_ & Hclear & _).
  destruct (Hclear eq_refl eq_refl eq_refl)
    as (s' & Hrun & Hself & Hbackup & _ & Hpersist).
  exists s'. split; [exact Hrun|]. split; [by rewrite Hself|].
  split; [exact Hbackup|]. exact (Hpersist eq_refl eq_refl).
Defined.

(** A load that fails past the existence test leaves the object alone and
    says so in the log. *)
Lemma load_history_failure (s : state) :
  load_fails (env s) (history_file (self s)) ->
  ~ stat_fails (env s) (history_file (self s)) ->
  exists w',
    _load_history s = (Ok tt, {| self := self s; env := w' |})
    /\ log w' = log (env s) ++ load_failure_log (env s) (history_file (self s))
    /\ files w' = files (env s).
Proof.
  unfold load_fails, load_failure_log.
  unfold _load_history, path_exists, read_json, assign_history, logging. run.
  destruct s as [m w]. simpl.
  destruct (files w !! history_file m) as [c|] eqn:Hfile; simpl.
  - destruct (deny_read w (history_file m)) eqn:Hdeny; simpl.
    + intros _ _. eexists. split; [reflexivity|]. simpl.
      by rewrite <- app_assoc.
    + intros [H|[H|H]] _; try discriminate. injection H as ->.
      rewrite Hfile. simpl.
      eexists. split; [reflexivity|]. simpl. by rewrite <- app_assoc.
  - intros _ Hstat.
    destruct (deny_stat w (history_file m)) eqn:Hdeny; simpl.
    + destruct Hstat. by split.
    + eexists. split; [reflexivity|]. done.
Qed.

(** C5, as stated, fails for saving: a save that fails is caught and
    logged, but the in-memory history stays as it is, here with the message
    that was just added.  It fails for loading too when the existence test
    of the history file raises: here the directory cannot be searched, and
    the [OSError] leaves the constructor. *)
Lemma C5_failed_save_keeps_history :
  let out := add_message "user" "hello" None
               {| self := agent 100 true (PList []);
                  env := read_only_disk ∅ |} in
  let out' := __init__ "conversation_history" "agent" true 100
                (hidden (disk ∅)) in
  (out.1 = Ok tt
   /\ log (env out.2) = [ (ERROR, "Failed to save conversation history") ]
   /\ py_len (history (self out.2)) = Ok 1
   /\ history (self out.2) <> PList [])
  /\ out'.1 = Raise OSError.
Proof.
  vm_compute. split; [|reflexivity]. repeat split; try reflexivity.
  discriminate.
Qed.

(** C5, amended.  An error while the history file is saved is caught and
    logged: [_save_history] always returns normally and leaves the object,
    its history included, as it was.  An error while the history file is
    loaded (no file, a file that cannot be read, content that is not JSON)
    is caught and logged too, and the constructor returns a manager whose
    history is empty, provided that the existence test of the file does
    not itself raise.  That test is outside the [try]: when it raises, the
    [OSError] leaves [_load_history] and the constructor. *)
Theorem C5_persistence_errors_are_contained :
  (forall s : state,
     exists w',
       _save_history s = (Ok tt, {| self := self s; env := w' |})
       /\ (is_ok (_save_to_file (history_file (self s)) s).1 = false ->
           log w' = log (env s)
                    ++ [(ERROR, "Failed to save conversation history")]))
  /\ (forall (dir name : string) (auto : bool) (max : Z) (w : world),
        let p := {| parent := dir; stem := name +:+ "_history";
                    suffix := ".json" |} in
        deny_mkdir w dir = false ->
        load_fails w p ->
        ~ stat_fails w p ->
        exists w',
          __init__ dir name auto max w
          = (Ok {| history_dir := dir; agent_name := name; auto_save := auto;
                   max_history_size := max; history := PList [] |}, w')
          /\ log w' = log w ++ load_failure_log w p
                      ++ [ (INFO, "ConversationHistoryManager initialized");
                           (INFO, "Loaded messages from previous session") ])
  /\ (forall (dir name : string) (auto : bool) (max : Z) (w : world),
        let p := {| parent := dir; stem := name +:+ "_history";
                    suffix := ".json" |} in
        deny_mkdir w dir = false ->
        stat_fails w p ->
        __init__ dir name auto max w = (Raise OSError, w)
        /\ forall s : state,
             env s = w -> history_file (self s) = p ->
             _load_history s = (Raise OSError, s)).
Proof.
  split; [|split].
  - intros s. destruct (save_history_total s) as [w' Hrun].
    exists w'. split; [done|]. intros Hfail.
    pose proof (save_history_failure_logged s Hfail) as Hlog.
    by rewrite Hrun in Hlog.
  - intros dir name auto max w p Hmk Hload Hstat.
    unfold __init__, mkdir, assign_history, logging. run. rewrite Hmk. simpl.
    match goal with |- context [_load_history ?st] =>
      destruct (load_history_failure st Hload Hstat) as (w' & -> & Hlog & _)
    end.
    simpl. eexists. split; [reflexivity|]. simpl.
    rewrite Hlog. simpl. by rewrite <- !app_assoc.
  - intros dir name auto max w p Hmk Hstat. split.
    + unfold __init__, mkdir, assign_history, logging. run. rewrite Hmk. simpl.
      match goal with |- context [_load_history ?st] =>
        rewrite (load_history_stat_fails st Hstat)
      end.
      reflexivity.
    + intros s Henv Hp. apply load_history_stat_fails.
      by rewrite Henv, Hp.
Qed.

Lemma C5_persistence_errors_are_contained_witness :
  exists w',
    __init__ "conversation_history" "agent" true 100
      (disk {[ agent_file := Malformed ]})
    = (Ok (agent 100 true (PList [])), w')
    /\ log w' = [ (ERROR, "Failed to parse conversation history");
                  (INFO, "Starting with empty history");
                  (INFO, "ConversationHistoryManager initialized");
                  (INFO, "Loaded messages from previous session") ].
Proof.
  destruct C5_persistence_errors_are_contained as (_ & Hload & _).
  assert (Hfails : load_fails (disk {[ agent_file := Malformed ]}) agent_file)
    by (right; right; reflexivity).
  assert (Hstat : ~ stat_fails (disk {[ agent_file := Malformed ]}) agent_file)
    by (intros [_ H]; discriminate H).
  destruct (Hload "conversation_history" "agent" true 100
                  (disk {[ agent_file := Malformed ]}) eq_refl Hfails Hstat)
    as (w' & Hrun & Hlog).
  exists w'. split; [exact Hrun|]. rewrite Hlog. reflexivity.
Defined.

End PersistenceClaims.

(** ** The GPS connector *)

Section FabricFacts.
Import Fabric.

Lemma wait_first : wait_exponential 1 2 10 1 = 2.
Proof. reflexivity. Qed.

Lemma wait_second : wait_exponential 1 2 10 2 = 2.
Proof. reflexivity. Qed.

(** [_send_request] is the delivery in at most three attempts. *)
Lemma send_request_delivery (c : GPSFabricConnector) (coordinates : pyval)
    (w : world) :
  let req := rpc_request c coordinates in
  _send_request c coordinates w
  = (match (delivery w req).1 with
     | Responds r => Ok r
     | Fails e => Raise e
     end,
     sent w req (delivery w req).2).
Proof.
  intros req. unfold _send_request, retry, delivery, attempt, sent.
  fold req. simpl. unfold requests_post, sleep. run.
  rewrite Nat.add_0_r.
  destruct (server w (length (posts w)) req) as [r0|e0]; simpl.
  { by rewrite app_nil_r. }
  rewrite length_app. simpl.
  destruct (server w (length (posts w) + 1) req) as [r1|e1]; simpl.
  { by rewrite <- app_assoc. }
  replace (length ((posts w ++ [req]) ++ [req]))
    with (length (posts w) + 2)%nat
    by (rewrite !length_app; simpl; lia).
  destruct (server w (length (posts w) + 2) req) as [r2|e2]; simpl;
    by rewrite <- !app_assoc.
Qed.

Lemma delivery_attempts (w : world) (req : http_request) :
  (1 <= (delivery w req).2 <= 3)%nat.
Proof.
  unfold delivery.
  destruct (attempt w req 0); simpl; [lia|].
  destruct (attempt w req 1); simpl; lia.
Qed.

Lemma is_none_spec (v : pyval) : is_none v = true <-> v = PNone.
Proof. destruct v; simpl; split; congruence. Qed.

Lemma is_none_false (v : pyval) : v <> PNone -> is_none v = false.
Proof. destruct v; simpl; congruence. Qed.

Lemma get_coordinates_complete (w : world) :
  complete w ->
  _get_coordinates w
  = (Ok (Some (coordinates_of w)),
     logged [(DEBUG, "GPSFabricConnector: Retrieved coordinates")] w).
Proof.
  unfold complete, coordinates_of, latitude_of, longitude_of, yaw_of.
  unfold _get_coordinates, get_dynamic_variable, logging, logged. run.
  intros (Hlat & Hlon & Hyaw).
  by rewrite !is_none_false.
Qed.

Lemma get_coordinates_incomplete (w : world) :
  latitude_of w = PNone \/ longitude_of w = PNone \/ yaw_of w = PNone ->
  _get_coordinates w
  = (Ok None,
     logged [(DEBUG, "GPSFabricConnector: Retrieved coordinates");
             (ERROR, "GPSFabricConnector: Incomplete coordinates")] w).
Proof.
  unfold latitude_of, longitude_of, yaw_of.
  unfold _get_coordinates, get_dynamic_variable, logging, logged. run.
  intros H.
  assert (Hnone : is_none (default PNone (io_variables w !! "latitude"))
                  || is_none (default PNone (io_variables w !! "longitude"))
                  || is_none (default PNone (io_variables w !! "yaw_deg"))
                  = true).
  { rewrite !orb_true_iff, !is_none_spec. tauto. }
  rewrite Hnone. simpl. by rewrite <- app_assoc.
Qed.

Lemma complete_dec (w : world) :
  complete w
  \/ (latitude_of w = PNone \/ longitude_of w = PNone \/ yaw_of w = PNone).
Proof.
  unfold complete.
  destruct (latitude_of w); destruct (longitude_of w); destruct (yaw_of w);
    (left; repeat split; discriminate) || (right; auto).
Qed.

End FabricFacts.

Arguments Fabric._get_coordinates : simpl never.
Arguments Fabric._send_request : simpl never.

Section FabricMain.
Import Fabric.

(** Closes a branch of [send_coordinates]: the log is the old one with
    further records, an [ERROR] among them when the answer is [False]. *)
Ltac close_branch :=
  eexists; split;
  [ unfold logged, sent; simpl; rewrite <- ?app_assoc; simpl; reflexivity
  | first [ intros Hb; discriminate Hb
          | intros _; eexists;
            repeat first [ apply list_elem_of_here
                         | apply list_elem_of_further ] ] ].

Lemma send_coordinates_complete (c : GPSFabricConnector) (w : world) :
  complete w ->
  let req := rpc_request c (coordinates_of w) in
  let b := match (delivery w req).1 with
           | Responds r => verdict r
           | Fails _ => false
           end in
  exists extra,
    send_coordinates c w
    = (Ok b, logged extra (sent w req (delivery w req).2))
    /\ (b = false -> exists msg, (ERROR, msg) ∈ extra).
Proof.
  intros Hc req b. unfold send_coordinates.
  unfold bind at 1. unfold logging at 1. unfold modify.
  unfold bind at 1.
  rewrite get_coordinates_complete by exact Hc.
  unfold try_except at 1. unfold bind at 1.
  rewrite send_request_delivery.
  change (coordinates_of _) with (coordinates_of w). fold req.
  change (delivery _ req) with (delivery w req).
  subst b.
  destruct (delivery w req) as [[r|e] k]; simpl.
  2:{ destruct e; simpl; unfold logging; run; close_branch. }
  unfold verdict, raise_for_status, response_json, logging. run.
  destruct ((400 <=? status_code r) && (status_code r <? 600)); simpl.
  { close_branch. }
  destruct (body r) as [v|]; simpl.
  2:{ close_branch. }
  destruct v as [| | | |str|l|d]; [simpl; close_branch..| | |].
  - simpl. destruct (is_substring "result" str); simpl.
    { close_branch. }
    destruct (is_substring "error" str); simpl; close_branch.
  - simpl. destruct (existsb _ l); simpl.
    { close_branch. }
    destruct (existsb _ l); simpl; close_branch.
  - unfold py_contains, py_getitem.
    destruct (d !! "result") as [x|] eqn:Hres;
      destruct (d !! "error") as [y|] eqn:Herr; simpl;
      try (destruct (truthy x); simpl); close_branch.
Qed.

Lemma send_coordinates_incomplete (c : GPSFabricConnector) (w : world) :
  latitude_of w = PNone \/ longitude_of w = PNone \/ yaw_of w = PNone ->
  send_coordinates c w
  = (Ok false,
     logged [ (INFO, "GPSFabricConnector: Preparing to send coordinates to Fabric network");
              (DEBUG, "GPSFabricConnector: Retrieved coordinates");
              (ERROR, "GPSFabricConnector: Incomplete coordinates") ] w).
Proof.
  intros H. unfold send_coordinates.
  unfold bind at 1. unfold logging at 1. unfold modify.
  unfold bind at 1.
  rewrite get_coordinates_incomplete by exact H.
  unfold logged, ret. simpl. by rewrite <- app_assoc.
Qed.

Lemma verdict_spec (r : response) :
  verdict r = true <->
  (status_code r < 400 \/ 600 <= status_code r)
  /\ exists d v, body r = Some (PDict d) /\ d !! "result" = Some v
                 /\ truthy v = true.
Proof.
  unfold verdict. rewrite andb_true_iff, negb_true_iff, andb_false_iff.
  rewrite Z.leb_gt, Z.ltb_ge. split.
  - intros [Hst Hbody]. split; [lia|].
    destruct (body r) as [[| | | | | |d]|]; try discriminate.
    destruct (d !! "result") as [v|] eqn:Hv; try discriminate. eauto.
  - intros [Hst (d & v & -> & Hv & Ht)]. split; [lia|]. by rewrite Hv.
Qed.

End FabricMain.

Section FabricClaims.
Import Fabric.

(** C2. [send_coordinates] never raises: it always returns a boolean.  The
    boolean is [True] exactly when the three coordinates are there, the
    request is answered within the three attempts, the status is not an
    error status, and the body is a JSON object with a true "result".  In
    every other case (a network error, an HTTP error status, a body that is
    not JSON, a JSON-RPC error, any other shape) it is [False], and an
    [ERROR] record is added to the log. *)
Theorem C2_send_coordinates_never_raises (c : GPSFabricConnector) (w : world) :
  exists (b : bool) (w' : world) (extra : list log_record),
    send_coordinates c w = (Ok b, w')
    /\ log w' = log w ++ extra
    /\ (b = true <-> accepted c w)
    /\ (b = false -> exists msg, (ERROR, msg) ∈ extra).
Proof.
  destruct (complete_dec w) as [Hc|Hn].
  - destruct (send_coordinates_complete c w Hc) as (extra & Hrun & Herr).
    eexists _, _, extra. split; [exact Hrun|]. split; [reflexivity|].
    split; [|exact Herr].
    unfold accepted. split.
    + intros Hb. split; [exact Hc|].
      destruct (delivery w (rpc_request c (coordinates_of w))).1 as [r|e];
        [|discriminate].
      apply verdict_spec in Hb as (Hst & d & v & Hbody & Hv & Ht).
      exists r, d, v. auto.
    + intros (_ & r & d & v & -> & Hst & Hbody & Hv & Ht).
      apply verdict_spec. split; [exact Hst|]. exists d, v. auto.
  - rewrite (send_coordinates_incomplete c w Hn).
    eexists _, _, _. split; [reflexivity|]. split; [reflexivity|]. split.
    + split; [discriminate|].
      intros [(Hlat & Hlon & Hyaw) _]. destruct Hn as [H|[H|H]]; contradiction.
    + intros _. eexists. do 2 apply list_elem_of_further.
      apply list_elem_of_here.
Qed.

(** C3. [send_coordinates] reads the variables "latitude", "longitude" and
    "yaw_deg" of the IO provider.  If one of them is [None] it returns
    [False] and no request is issued.  Otherwise every request it issues
    (one to three of them) is a POST to the endpoint whose JSON-RPC body
    has the method "omp2p_shareStatus" and, as its only parameter, the
    dictionary of exactly those three values. *)
Theorem C3_coordinates_are_read_and_posted (c : GPSFabricConnector) (w : world) :
  let latitude := default PNone (io_variables w !! "latitude") in
  let longitude := default PNone (io_variables w !! "longitude") in
  let yaw := default PNone (io_variables w !! "yaw_deg") in
  (latitude = PNone \/ longitude = PNone \/ yaw = PNone ->
   exists w', send_coordinates c w = (Ok false, w') /\ posts w' = posts w)
  /\ (latitude <> PNone /\ longitude <> PNone /\ yaw <> PNone ->
      exists (b : bool) (w' : world) (k : nat),
        send_coordinates c w = (Ok b, w')
        /\ (1 <= k <= 3)%nat
        /\ posts w' = posts w ++ replicate k
             {| url := fabric_endpoint c;
                json := PDict (list_to_map
                  [ ("method", PStr "omp2p_shareStatus");
                    ("params", PList [PDict (list_to_map
                       [ ("latitude", latitude); ("longitude", longitude);
                         ("yaw", yaw) ])]);
                    ("id", PInt 1);
                    ("jsonrpc", PStr "2.0") ]);
                headers := [("Content-Type", "application/json")];
                timeout := request_timeout c |}).
Proof.
  intros latitude longitude yaw. split.
  - intros Hn. rewrite (send_coordinates_incomplete c w Hn).
    eexists. split; reflexivity.
  - intros Hc.
    destruct (send_coordinates_complete c w Hc) as (extra & Hrun & _).
    eexists _, _, _. split; [exact Hrun|].
    split; [apply delivery_attempts|]. reflexivity.
Qed.

Lemma C3_coordinates_are_read_and_posted_witness :
  (exists w', send_coordinates (__init__ default_config) (accepting ∅)
              = (Ok false, w') /\ posts w' = [])
  /\ (exists w', send_coordinates (__init__ default_config) (accepting located)
                 = (Ok true, w')
                 /\ posts w' = [rpc_request (__init__ default_config)
                                  (coordinates_of (accepting located))]).
Proof.
  split.
  - destruct (C3_coordinates_are_read_and_posted
                (__init__ default_config) (accepting ∅)) as [Hnone _].
    apply Hnone. left. reflexivity.
  - destruct (C3_coordinates_are_read_and_posted
                (__init__ default_config) (accepting located)) as [_ Hsome].
    destruct Hsome as (b & w' & k & Hrun & Hk & Hposts).
    { repeat split; discriminate. }
    eexists. split; vm_compute; reflexivity.
Defined.

(** C9. Whatever the configuration, [_send_request] behaves the same for
    every value of [max_retries].  When every attempt fails it makes exactly
    three POSTs, with a pause of two seconds (the floor of the exponential
    wait) after the first and after the second, and raises. *)
Theorem C9_three_attempts_whatever_max_retries (cfg : GPSFabricConfig)
    (coordinates : pyval) (w : world) :
  (forall n : Z,
     _send_request (__init__ (with_max_retries n cfg)) coordinates w
     = _send_request (__init__ cfg) coordinates w)
  /\ ((forall k, (k < 3)%nat ->
         exists e, attempt w (rpc_request (__init__ cfg) coordinates) k = Fails e) ->
      exists e w',
        _send_request (__init__ cfg) coordinates w = (Raise e, w')
        /\ posts w' = posts w
                      ++ replicate 3 (rpc_request (__init__ cfg) coordinates)
        /\ sleeps w' = sleeps w ++ [2; 2]).
Proof.
  split; [reflexivity|].
  intros Hfail. rewrite send_request_delivery. unfold delivery.
  destruct (Hfail 0%nat ltac:(lia)) as [e0 ->].
  destruct (Hfail 1%nat ltac:(lia)) as [e1 ->].
  destruct (Hfail 2%nat ltac:(lia)) as [e2 ->].
  simpl. eexists _, _. split; [reflexivity|]. split; reflexivity.
Qed.

Lemma C9_three_attempts_whatever_max_retries_witness :
  exists w',
    _send_request (__init__ (with_max_retries 7 default_config)) PNone
      (unreachable ∅) = (Raise ConnectionError, w')
    /\ length (posts w') = 3%nat
    /\ sleeps w' = [2; 2].
Proof.
  destruct (C9_three_attempts_whatever_max_retries
              (with_max_retries 7 default_config) PNone (unreachable ∅))
    as [_ Hthree].
  destruct Hthree as (e & w' & Hrun & Hposts & Hsleeps).
  { intros k _. exists ConnectionError. reflexivity. }
  eexists. split; [vm_compute; reflexivity|]. split; reflexivity.
Defined.

End FabricClaims.

(** ** The plugin loader *)

Section SimulatorsFacts.
Import Simulators.

(** Applies the induction hypothesis at the world the scan goes on from. *)
Ltac use_IH :=
  match goal with
  | IH : forall w, _ |- context [Simulators.scan_plugins _ _ ?w'] => exact (IH w')
  end.

(** The scan only writes to the log. *)
Lemma scan_plugins_frame (class_name : pyval)
    (plugin_files : list (string * result text)) (w : world) :
  let w' := (scan_plugins class_name plugin_files w).2 in
  plugins w' = plugins w /\ import_table w' = import_table w
  /\ on_call w' = on_call w.
Proof.
  revert w. induction plugin_files as [|[f read] rest IH]; intros w; simpl.
  { done. }
  unfold logging. run.
  destruct read as [content|e]; simpl.
  - destruct class_name as [| | | |name| |]; simpl; try use_IH.
    destruct (search_multiline (class_pattern name) content); simpl; [done|].
    use_IH.
  - use_IH.
Qed.

Lemma find_module_frame (class_name : pyval) (w : world) :
  let w' := (find_module_with_class class_name w).2 in
  plugins w' = plugins w /\ import_table w' = import_table w
  /\ on_call w' = on_call w.
Proof.
  unfold find_module_with_class. run.
  destruct (plugins w) eqn:Hp; simpl; try done.
  rewrite <- Hp. apply scan_plugins_frame.
Qed.

(** The scan never raises. *)
Lemma scan_plugins_total (class_name : pyval)
    (plugin_files : list (string * result text)) (w : world) :
  exists found w', scan_plugins class_name plugin_files w = (Ok found, w').
Proof.
  revert w. induction plugin_files as [|[f read] rest IH]; intros w; simpl.
  { eexists _, _. reflexivity. }
  unfold logging. run.
  destruct read as [content|e]; simpl.
  - destruct class_name as [| | | |name| |]; simpl; try use_IH.
    destruct (search_multiline (class_pattern name) content); simpl;
      [|use_IH].
    eexists _, _. reflexivity.
  - use_IH.
Qed.




End SimulatorsFacts.

Arguments Simulators.find_module_with_class : simpl never.

Section SimulatorsClaims.
Import Simulators.

(** The import system that [get_simulator_class] and [load_simulator] see
    after the search is the one before it. *)
Lemma import_after_find (class_name : pyval) (w w1 : world)
    (found : option string) (name : string) :
  find_module_with_class class_name w = (Ok found, w1) ->
  import_table w1 name = import_table w name.
Proof.
  intros H. pose proof (find_module_frame class_name w) as (_ & Hi & _).
  rewrite H in Hi. simpl in Hi. by rewrite Hi.
Qed.


Lemma load_simulator_fails (w : world) (class_name : string)
    (simulator_config : gmap string pyval) :
  simulator_config !! "type" = Some (PStr class_name) ->
  lookup_failure w class_name ->
  exists msg w',
    load_simulator simulator_config w = (Raise (ValueError msg), w').
Proof.
  intros Htype Hfail. unfold load_simulator, import_module. run.
  rewrite Htype. simpl.
  destruct Hfail as [w1 Hfind|mname w1 e Hfind Himp He|mname w1 m Hfind Himp Hattr
                    |mname w1 m o Hfind Himp Hattr Hvalid];
    rewrite Hfind; simpl.
  - eexists _, _. reflexivity.
  - fold (plugin_module mname).
    rewrite (import_after_find _ _ _ _ _ Hfind), Himp.
    destruct e; try discriminate He; simpl; eexists _, _; reflexivity.
  - fold (plugin_module mname).
    rewrite (import_after_find _ _ _ _ _ Hfind), Himp. simpl.
    rewrite Hattr. simpl. eexists _, _. reflexivity.
  - fold (plugin_module mname).
    rewrite (import_after_find _ _ _ _ _ Hfind), Himp. simpl.
    rewrite Hattr. simpl.
    destruct o as [cls|cls kwargs|v]; simpl.
    + simpl in Hvalid. rewrite Hvalid. simpl. eexists _, _. reflexivity.
    + eexists _, _. reflexivity.
    + eexists _, _. reflexivity.
Qed.





End SimulatorsClaims.

(* ===================================================================== *)
(** * Further properties *)
(* ===================================================================== *)

(** ** The history manager: saving and loading *)

Section HistoryPersistence.
Import History Samples HistoryScenarios.

(** X1. The write through a temporary file is atomic for the target.  For a
    target that is not itself a [.tmp] file, [_save_to_file] leaves the
    object alone and touches no file but the target and its temporary
    file; when it returns, the target holds the whole document and the
    temporary file is gone; when it raises, the target is what it was. *)
Theorem X1_save_to_file_is_atomic (p : path) (s : state) :
  suffix p <> ".tmp" ->
  let out := _save_to_file p s in
  self out.2 = self s
  /\ (forall q, q <> p -> q <> with_suffix p ".tmp" ->
        files (env out.2) !! q = files (env s) !! q)
  /\ match out.1 with
     | Ok _ =>
         files (env out.2) !! p
         = Some (Json (document (self s) (clock (env s) (ticks (env s)))))
         /\ files (env out.2) !! with_suffix p ".tmp" = None
     | Raise _ => files (env out.2) !! p = files (env s) !! p
     end.
Proof.
  intros Hsfx out. subst out.
  assert (Hne : with_suffix p ".tmp" <> p).
  { intros H. apply Hsfx. rewrite <- H. reflexivity. }
  unfold _save_to_file, now, write_json, replace, document. run.
  destruct (py_len (history (self s))) as [n|e]; simpl.
  2:{ repeat split; auto. }
  destruct (on_write (env s) (with_suffix p ".tmp")); simpl.
  - destruct (deny_replace (env s) p); simpl.
    + repeat split; auto.
      * intros q _ Hq. by rewrite lookup_insert_ne.
      * by rewrite lookup_insert_ne.
    + rewrite lookup_insert_eq. simpl. repeat split.
      * intros q Hq Hq'. rewrite lookup_insert_ne by done.
        rewrite lookup_delete_ne by done. by rewrite lookup_insert_ne.
      * by rewrite lookup_insert_eq.
      * rewrite lookup_insert_ne by done. by rewrite lookup_delete_eq.
  - repeat split; auto.
  - repeat split; auto.
    + intros q _ Hq. by rewrite lookup_insert_ne.
    + by rewrite lookup_insert_ne.
Qed.

Lemma X1_save_to_file_is_atomic_witness :
  let s := {| self := agent 100 false (PList three_messages);
              env := read_only_disk {[ agent_file := saved (PList []) ]} |} in
  (_save_to_file agent_file s).1 = Raise OSError
  /\ files (env (_save_to_file agent_file s).2) !! agent_file
     = Some (saved (PList [])).
Proof.
  intros s.
  assert (Hsfx : suffix agent_file <> ".tmp") by discriminate.
  destruct (X1_save_to_file_is_atomic agent_file s Hsfx) as (_ & _ & Hout).
  assert (Hraise : (_save_to_file agent_file s).1 = Raise OSError)
    by (vm_compute; reflexivity).
  split; [exact Hraise|].
  rewrite Hraise in Hout. rewrite Hout. reflexivity.
Defined.

(** A load of a stored list, in full. *)
Lemma load_history_stored_list (s : state) (d : gmap string pyval)
    (l : list pyval) :
  deny_read (env s) (history_file (self s)) = false ->
  files (env s) !! history_file (self s) = Some (Json (PDict d)) ->
  d !! "history" = Some (PList l) ->
  _load_history s
  = (Ok tt,
     {| self := set_history (PList (List.filter valid_message l)) (self s);
        env := add_log (INFO, "Loaded messages from history file") (env s) |}).
Proof.
  intros Hdeny Hfile Hd.
  unfold _load_history, path_exists, read_json, assign_history, logging. run.
  rewrite Hfile. simpl. rewrite Hdeny, Hfile. simpl. rewrite Hd. reflexivity.
Qed.

Lemma filter_all_valid (l : list pyval) :
  Forall (fun msg => valid_message msg = true) l ->
  List.filter valid_message l = l.
Proof.
  induction 1 as [|msg l Hmsg _ IH]; simpl; [done|]. by rewrite Hmsg, IH.
Qed.

(** X2. What one session saves, the next one loads.  After [_save_history]
    on a file system that accepts the writes, a manager constructed for
    the same directory and agent holds the saved messages that pass the
    validation, all of them when they are well formed, whatever its own
    bound is. *)
Theorem X2_saved_history_is_loaded_again (s : state) (l : list pyval)
    (auto : bool) (max : Z) :
  history (self s) = PList l ->
  accepts_writes (env s) ->
  deny_mkdir (env s) (history_dir (self s)) = false ->
  deny_read (env s) (history_file (self s)) = false ->
  exists w',
    __init__ (history_dir (self s)) (agent_name (self s)) auto max
      (env (_save_history s).2)
    = (Ok {| history_dir := history_dir (self s);
             agent_name := agent_name (self s);
             auto_save := auto; max_history_size := max;
             history := PList (List.filter valid_message l) |}, w')
    /\ (Forall (fun msg => valid_message msg = true) l ->
        List.filter valid_message l = l).
Proof.
  intros Hl Hok Hmk Hread.
  rewrite (save_history_accepted s l Hl Hok). simpl.
  unfold __init__, mkdir, assign_history, logging. run. rewrite Hmk. simpl.
  match goal with |- context [_load_history ?st] =>
    rewrite (load_history_stored_list st
               (list_to_map
                  [ ("agent_name", PStr (agent_name (self s)));
                    ("saved_at",
                     PStr (isoformat (clock (env s) (ticks (env s)))));
                    ("message_count",
                     PInt (match py_len (history (self s)) with
                           | Ok n => n | Raise _ => 0 end));
                    ("history", history (self s)) ]) l)
  end.
  - simpl. eexists. split; [reflexivity|]. apply filter_all_valid.
  - exact Hread.
  - simpl. apply lookup_insert_eq.
  - rewrite Hl. reflexivity.
Qed.

Lemma X2_saved_history_is_loaded_again_witness :
  exists w',
    __init__ "conversation_history" "agent" false 2
      (env (_save_history
              {| self := agent 100 true (PList three_messages);
                 env := disk ∅ |}).2)
    = (Ok (agent 2 false (PList three_messages)), w').
Proof.
  assert (Hok : accepts_writes (disk ∅)) by (intros p; split; reflexivity).
  destruct (X2_saved_history_is_loaded_again
              {| self := agent 100 true (PList three_messages); env := disk ∅ |}
              three_messages false 2 eq_refl Hok eq_refl eq_refl)
    as (w' & Hrun & _).
  exists w'. exact Hrun.
Defined.

End HistoryPersistence.

(** ** The history manager: the size limit *)

Section HistoryLimit.
Import History Samples HistoryScenarios.

Lemma last_elements_length {A} (k : nat) (l : list A) :
  length (last_elements k l) = Nat.min k (length l).
Proof. unfold last_elements. rewrite length_drop. lia. Qed.

Lemma last_elements_all {A} (k : nat) (l : list A) :
  (length l <= k)%nat -> last_elements k l = l.
Proof.
  intros H. unfold last_elements.
  replace (length l - k)%nat with 0%nat by lia. reflexivity.
Qed.

(** Cutting before appending does not change the cut of the whole. *)
Lemma last_elements_app {A} (k : nat) (a b : list A) :
  last_elements k (last_elements k a ++ b) = last_elements k (a ++ b).
Proof.
  destruct (Nat.le_gt_cases (length a) k) as [Hle|Hgt].
  { by rewrite (last_elements_all k a). }
  unfold last_elements at 1 3.
  rewrite !length_app, last_elements_length.
  unfold last_elements.
  rewrite !drop_app, length_drop, drop_drop.
  f_equal.
  - f_equal. lia.
  - f_equal. lia.
Qed.

(** For a positive bound the cut of the code is [last_elements]. *)
Lemma trimmed_positive (max : Z) (l : list pyval) :
  0 < max -> trimmed max l = last_elements (Z.to_nat max) l.
Proof.
  intros Hmax. unfold trimmed.
  destruct (Z.gtb_spec (Z.of_nat (length l)) max) as [Hgt|Hle].
  - by apply list_slice_last.
  - symmetry. apply last_elements_all. lia.
Qed.

Lemma add_message_trimmed (s : state) (role content : string)
    (metadata : option (gmap string pyval)) (l : list pyval) :
  history (self s) = PList l ->
  exists s',
    add_message role content metadata s = (Ok tt, s')
    /\ history (self s')
       = PList (trimmed (max_history_size (self s))
                  (l ++ [PDict (message_record role content
                                  (clock (env s) (ticks (env s))) metadata)]))
    /\ max_history_size (self s') = max_history_size (self s).
Proof. apply add_message_history. Qed.

Lemma message_record_says (role content : string) (t : datetime)
    (metadata : option (gmap string pyval)) :
  says (role, content) (PDict (message_record role content t metadata)).
Proof.
  exists (message_record role content t metadata).
  split; [reflexivity|]. unfold message_record. simpl. split; reflexivity.
Qed.

(** X3. With a positive bound, [add_message] keeps the most recent
    messages: the history becomes the last [max_history_size] elements of
    the old history followed by the new record, so the new record is its
    last element and the bound holds, whatever the length was before. *)
Theorem X3_add_message_keeps_the_most_recent (s : state)
    (role content : string) (metadata : option (gmap string pyval))
    (l : list pyval) :
  history (self s) = PList l ->
  0 < max_history_size (self s) ->
  exists s' msg kept,
    add_message role content metadata s = (Ok tt, s')
    /\ says (role, content) msg
    /\ history (self s') = PList kept
    /\ kept = last_elements (Z.to_nat (max_history_size (self s))) (l ++ [msg])
    /\ last kept = Some msg
    /\ Z.of_nat (length kept) <= max_history_size (self s).
Proof.
  intros Hl Hmax.
  destruct (add_message_trimmed s role content metadata l Hl)
    as (s' & Hrun & Hhist & _).
  eexists s', (PDict (message_record role content
                        (clock (env s) (ticks (env s))) metadata)), _.
  split; [exact Hrun|].
  split; [apply message_record_says|]. split; [exact Hhist|].
  rewrite trimmed_positive by done.
  split; [reflexivity|]. split.
  - unfold last_elements. rewrite length_app. simpl.
    rewrite drop_app_le by lia. rewrite last_app. reflexivity.
  - rewrite last_elements_length. lia.
Qed.

Lemma X3_add_message_keeps_the_most_recent_witness :
  exists s' msg,
    add_message "user" "four" None
      {| self := agent 2 false (PList three_messages); env := disk ∅ |}
    = (Ok tt, s')
    /\ history (self s') = PList [message "user" "three"; msg].
Proof.
  destruct (X3_add_message_keeps_the_most_recent
              {| self := agent 2 false (PList three_messages); env := disk ∅ |}
              "user" "four" None three_messages eq_refl eq_refl)
    as (s' & msg & kept & Hrun & _ & Hhist & Hkept & _).
  exists s', msg. split; [exact Hrun|]. rewrite Hhist, Hkept. reflexivity.
Defined.

(** X4. A bound that is not positive does not bound.  With
    [max_history_size = 0] the slice [history[-0:]] is the whole list, so
    nothing is ever dropped; with a negative bound [-k] the slice drops the
    first [k] elements of the list that ends in the new record. *)
Theorem X4_nonpositive_bound_is_no_bound (s : state) (role content : string)
    (metadata : option (gmap string pyval)) (l : list pyval) :
  history (self s) = PList l ->
  max_history_size (self s) <= 0 ->
  exists s' msg,
    add_message role content metadata s = (Ok tt, s')
    /\ says (role, content) msg
    /\ history (self s')
       = PList (drop (Z.to_nat (- max_history_size (self s))) (l ++ [msg])).
Proof.
  intros Hl Hmax.
  destruct (add_message_trimmed s role content metadata l Hl)
    as (s' & Hrun & Hhist & _).
  exists s', (PDict (message_record role content
                       (clock (env s) (ticks (env s))) metadata)).
  split; [exact Hrun|].
  split; [apply message_record_says|].
  rewrite Hhist. f_equal. unfold trimmed.
  remember (l ++ [_]) as new eqn:Hnew.
  assert (Hlen : (1 <= length new)%nat).
  { subst new. rewrite length_app. simpl. lia. }
  clear Hnew.
  destruct (Z.gtb_spec (Z.of_nat (length new)) (max_history_size (self s)))
    as [_|Hle]; [|lia].
  unfold list_slice_from, slice_start.
  destruct (Z.ltb_spec (- max_history_size (self s)) 0) as [Hneg|_]; [lia|].
  destruct (Z.le_gt_cases (- max_history_size (self s))
              (Z.of_nat (length new))) as [Hin|Hout].
  - f_equal; lia.
  - rewrite !drop_ge by lia. reflexivity.
Qed.

Lemma X4_nonpositive_bound_is_no_bound_witness :
  exists s' msg,
    add_message "user" "four" None
      {| self := agent 0 false (PList three_messages); env := disk ∅ |}
    = (Ok tt, s')
    /\ history (self s') = PList (three_messages ++ [msg]).
Proof.
  assert (Hmax : max_history_size (agent 0 false (PList three_messages)) <= 0)
    by (simpl; lia).
  destruct (X4_nonpositive_bound_is_no_bound
              {| self := agent 0 false (PList three_messages); env := disk ∅ |}
              "user" "four" None three_messages eq_refl Hmax)
    as (s' & msg & Hrun & _ & Hhist).
  exists s', msg. split; [exact Hrun|exact Hhist].
Defined.

(** X5. Adding messages one after the other, to a history within a
    positive bound, leaves the last [max_history_size] elements of the old
    history followed by the new records, in the order of the calls. *)
Theorem X5_added_messages_slide (items : list (string * string)) (s : state)
    (l : list pyval) :
  history (self s) = PList l ->
  0 < max_history_size (self s) ->
  Z.of_nat (length l) <= max_history_size (self s) ->
  exists s' msgs,
    add_messages items s = (Ok tt, s')
    /\ Forall2 says items msgs
    /\ history (self s')
       = PList (last_elements (Z.to_nat (max_history_size (self s)))
                  (l ++ msgs))
    /\ max_history_size (self s') = max_history_size (self s).
Proof.
  revert s l. induction items as [|[role content] rest IH]; intros s l Hl Hmax Hlen.
  - exists s, []. simpl. split; [reflexivity|]. split; [constructor|].
    rewrite app_nil_r, last_elements_all by lia. auto.
  - destruct (add_message_trimmed s role content None l Hl)
      as (s1 & Hrun & Hhist & Hsame).
    rewrite trimmed_positive in Hhist by done.
    set (msg := PDict (message_record role content
                         (clock (env s) (ticks (env s))) None)) in *.
    destruct (IH s1 _ Hhist) as (s' & msgs & Hrest & Hall & Hfinal & Hmax').
    { by rewrite Hsame. }
    { rewrite Hsame, last_elements_length. lia. }
    exists s', (msg :: msgs).
    split.
    { simpl. unfold bind. rewrite Hrun. exact Hrest. }
    split; [constructor; [apply message_record_says|done]|].
    split; [|by rewrite Hmax', Hsame].
    rewrite Hfinal, Hsame, last_elements_app.
    by rewrite <- app_assoc.
Qed.

Lemma X5_added_messages_slide_witness :
  exists s' a b c,
    add_messages [("user", "1"); ("user", "2"); ("user", "3")]
      {| self := agent 2 false (PList [message "system" "0"]); env := disk ∅ |}
    = (Ok tt, s')
    /\ Forall2 says [("user", "1"); ("user", "2"); ("user", "3")] [a; b; c]
    /\ history (self s') = PList [b; c].
Proof.
  assert (Hlen : Z.of_nat (length [message "system" "0"]) <= 2) by (simpl; lia).
  destruct (X5_added_messages_slide
              [("user", "1"); ("user", "2"); ("user", "3")]
              {| self := agent 2 false (PList [message "system" "0"]);
                 env := disk ∅ |}
              [message "system" "0"] eq_refl eq_refl Hlen)
    as (s' & msgs & Hrun & Hall & Hhist & _).
  destruct msgs as [|a [|b [|c [|]]]];
    try (exfalso; repeat match goal with
                         | H : Forall2 _ _ _ |- _ => inversion H; clear H; subst
                         end; fail).
  exists s', a, b, c. split; [exact Hrun|]. split; [exact Hall|exact Hhist].
Defined.

End HistoryLimit.

(** ** The history manager: reading the history *)

Section HistoryReading.
Import History Samples HistoryScenarios.

(** What the limit does to a list. *)
Lemma apply_limit_list (limit : option Z) (l : list pyval) :
  exists k, apply_limit limit (PList l) = Ok (PList (drop k l)).
Proof.
  destruct limit as [n|]; simpl.
  - destruct (n =? 0); simpl.
    + by exists 0%nat.
    + eexists. reflexivity.
  - by exists 0%nat.
Qed.

(** X6. A negative limit does not select the most recent messages: with
    [limit = -k] the slice [history[k:]] drops the first [k] messages that
    pass the filter and returns all the others. *)
Theorem X6_negative_limit_drops_the_oldest (s : state) (h : list pyval)
    (role_filter : option string) (include_system : bool) (n : Z) :
  history (self s) = PList h ->
  Forall (fun msg => valid_message msg = true) h ->
  n < 0 ->
  get_history (Some n) role_filter s
  = (Ok (PList (drop (Z.to_nat (- n)) (matching role_filter h))), s)
  /\ get_formatted_history (Some n) include_system s
     = (Ok (PList (brief <$> drop (Z.to_nat (- n))
                                 (without_system include_system h))), s).
Proof.
  intros Hh Hvalid Hn.
  assert (Hnz : (n =? 0) = false) by lia.
  assert (Hslice : forall l : list pyval,
            list_slice_from l (- n) = drop (Z.to_nat (- n)) l).
  { intros l. unfold list_slice_from, slice_start.
    destruct (Z.ltb_spec (- n) 0) as [|_]; [lia|].
    destruct (Z.le_gt_cases (- n) (Z.of_nat (length l))) as [Hin|Hout].
    - by replace (Z.to_nat (Z.min (- n) (Z.of_nat (length l))))
        with (Z.to_nat (- n)) by lia.
    - rewrite !drop_ge by lia. reflexivity. }
  split.
  - unfold get_history. run.
    rewrite (role_filtered_valid _ _ h) by done. simpl.
    rewrite Hnz. simpl. by rewrite Hslice.
  - unfold get_formatted_history. run.
    rewrite (system_filtered_valid _ _ h) by done. simpl.
    rewrite Hnz. simpl. unfold format_messages. simpl.
    rewrite Hslice, map_r_format_valid; [done|].
    apply drop_preserves_valid.
    unfold without_system. destruct include_system; [done|].
    by apply filter_preserves_valid.
Qed.

Lemma X6_negative_limit_drops_the_oldest_witness :
  let s := {| self := agent 100 false (PList three_messages); env := disk ∅ |} in
  get_history (Some (-1)) None s
  = (Ok (PList [message "assistant" "two"; message "user" "three"]), s).
Proof.
  intros s.
  assert (Hvalid : Forall (fun msg => valid_message msg = true) three_messages) by (repeat constructor).
  destruct (X6_negative_limit_drops_the_oldest s three_messages None true (-1)
              eq_refl Hvalid ltac:(lia)) as [Hget _].
  exact Hget.
Defined.

Lemma brief_shape (msg : pyval) :
  valid_message msg = true ->
  exists d, brief msg = PDict d
            /\ dom d = {[ "role"; "content" ]}
            /\ d !! "role" = field "role" msg
            /\ d !! "content" = field "content" msg.
Proof.
  intros (d0 & -> & [r Hr] & [c Hc])%valid_message_spec.
  unfold brief, field. rewrite Hr, Hc. simpl.
  eexists. split; [reflexivity|]. split.
  - rewrite !dom_insert_L, dom_empty_L. set_solver.
  - split; reflexivity.
Qed.

(** X7. [get_formatted_history] returns records of exactly two fields.
    On a history of well-formed messages, for every limit, each returned
    record has the keys "role" and "content" and no other (timestamp and
    metadata are gone), with the values of a message of the history; and
    without [include_system] no returned record has the role "system". *)
Theorem X7_formatted_records_have_two_fields (s : state) (h : list pyval)
    (limit : option Z) (include_system : bool) :
  history (self s) = PList h ->
  Forall (fun msg => valid_message msg = true) h ->
  exists out,
    get_formatted_history limit include_system s = (Ok (PList out), s)
    /\ Forall (fun record =>
                 exists d msg,
                   record = PDict d
                   /\ dom d = {[ "role"; "content" ]}
                   /\ msg ∈ h
                   /\ d !! "role" = field "role" msg
                   /\ d !! "content" = field "content" msg
                   /\ (include_system = false ->
                       d !! "role" <> Some (PStr "system"))) out.
Proof.
  intros Hh Hvalid.
  assert (Hsys : Forall (fun msg => valid_message msg = true) (without_system include_system h)).
  { unfold without_system. destruct include_system; [done|].
    by apply filter_preserves_valid. }
  destruct (apply_limit_list limit (without_system include_system h))
    as [k Hlimit].
  exists (brief <$> drop k (without_system include_system h)). split.
  - unfold get_formatted_history. run.
    rewrite (system_filtered_valid _ _ h) by done. simpl.
    rewrite Hlimit. simpl. unfold format_messages. simpl.
    rewrite map_r_format_valid; [done|]. by apply drop_preserves_valid.
  - apply Forall_fmap, Forall_forall. intros msg Hin. simpl.
    assert (Hin' : msg ∈ without_system include_system h).
    { apply list_elem_of_lookup in Hin as [i Hi].
      rewrite lookup_drop in Hi. apply list_elem_of_lookup. eauto. }
    assert (Hmsg : valid_message msg = true).
    { rewrite Forall_forall in Hsys. auto. }
    destruct (brief_shape msg Hmsg) as (d & Hd & Hdom & Hrole & Hcontent).
    exists d, msg. split; [exact Hd|]. split; [exact Hdom|].
    unfold without_system in Hin'. destruct include_system.
    + repeat split; auto; discriminate.
    + apply list_elem_of_In, List.filter_In in Hin' as [Hin' Hkeep].
      split; [by apply list_elem_of_In|]. split; [exact Hrole|].
      split; [exact Hcontent|].
      intros _ Heq. rewrite Hrole in Heq.
      change (field "role" msg) with (role_of msg) in Heq.
      rewrite Heq in Hkeep. discriminate Hkeep.
Qed.

Lemma X7_formatted_records_have_two_fields_witness :
  exists s' out,
    add_message "system" "be brief" None
      {| self := agent 100 false (PList three_messages); env := disk ∅ |}
    = (Ok tt, s')
    /\ get_formatted_history None false s' = (Ok (PList out), s')
    /\ length out = 3%nat.
Proof.
  set (s' := (add_message "system" "be brief" None
                {| self := agent 100 false (PList three_messages);
                   env := disk ∅ |}).2).
  assert (Hvalid : Forall (fun msg => valid_message msg = true) (three_messages
             ++ [PDict (message_record "system" "be brief" (sample_clock 0) None)])).
  { repeat constructor. }
  destruct (X7_formatted_records_have_two_fields s' _ None false eq_refl Hvalid)
    as (out & Hrun & _).
  exists s', out. split; [reflexivity|]. split; [exact Hrun|].
  assert (Hout : get_formatted_history None false s'
                 = (Ok (PList (brief <$> three_messages)), s'))
    by (vm_compute; reflexivity).
  rewrite Hout in Hrun. injection Hrun as <-. reflexivity.
Defined.

(** The comprehension with a raising test raises as soon as one element
    lacks the key. *)
Lemma filter_r_raises (test : pyval -> bool) (h : list pyval) :
  Exists (fun msg => role_of msg = None) h ->
  exists e,
    filter_r (fun msg => result_bind (py_getitem msg "role")
                           (fun v => Ok (test v))) h = Raise e
    /\ (e = KeyError \/ e = TypeError).
Proof.
  induction h as [|msg h IH]; intros Hex; [by apply Exists_nil in Hex|].
  simpl.
  destruct (py_getitem msg "role") as [v|e] eqn:Hget; simpl.
  - apply Exists_cons in Hex as [Hhere|Hlater].
    + destruct msg; simpl in *; try discriminate.
      rewrite Hhere in Hget. discriminate.
    + destruct (IH Hlater) as (e & -> & He). simpl. eauto.
  - exists e. split; [reflexivity|].
    destruct msg; simpl in Hget; try (injection Hget as <-; auto).
    destruct (d !! "role"); [discriminate|]. injection Hget as <-. auto.
Qed.

(** X8. The getters trust the stored messages.  When one element of the
    history has no "role" (it is not a dictionary, or a dictionary without
    the key), [get_history] with a role filter and [get_formatted_history]
    without system messages raise [KeyError] or [TypeError], for every
    limit, while [get_history] without a filter still returns the list. *)
Theorem X8_getters_raise_on_a_message_without_role (s : state)
    (h : list pyval) (limit : option Z) (r : string) :
  history (self s) = PList h ->
  Exists (fun msg => role_of msg = None) h ->
  r <> "" ->
  (exists e, get_history limit (Some r) s = (Raise e, s)
             /\ (e = KeyError \/ e = TypeError))
  /\ (exists e, get_formatted_history limit false s = (Raise e, s)
                /\ (e = KeyError \/ e = TypeError))
  /\ get_history None None s = (Ok (PList h), s).
Proof.
  intros Hh Hex Hr.
  assert (Hneq : String.eqb r "" = false) by (by apply String.eqb_neq).
  split; [|split].
  - destruct (filter_r_raises (fun v => py_eq_str v r) h Hex) as (e & He & Hkind).
    exists e. split; [|exact Hkind].
    unfold get_history, role_filtered. run. rewrite Hh. simpl.
    rewrite Hneq. simpl. by rewrite He.
  - destruct (filter_r_raises (fun v => negb (py_eq_str v "system")) h Hex)
      as (e & He & Hkind).
    exists e. split; [|exact Hkind].
    unfold get_formatted_history, system_filtered. run. rewrite Hh. simpl.
    by rewrite He.
  - unfold get_history, role_filtered. run. by rewrite Hh.
Qed.

Lemma X8_getters_raise_on_a_message_without_role_witness :
  let s := {| self := agent 100 false
                        (PList [message "user" "one";
                                PDict {[ "content" := PStr "orphan" ]}]);
              env := disk ∅ |} in
  get_history None (Some "user") s = (Raise KeyError, s).
Proof.
  intros s.
  assert (Hex : Exists (fun msg => role_of msg = None)
                  [message "user" "one"; PDict {[ "content" := PStr "orphan" ]}]).
  { apply Exists_cons_tl, Exists_cons_hd. reflexivity. }
  destruct (X8_getters_raise_on_a_message_without_role s _ None "user"
              eq_refl Hex ltac:(discriminate)) as [(e & Hrun & _) _].
  rewrite Hrun. vm_compute in Hrun. injection Hrun as ->. reflexivity.
Defined.

End HistoryReading.

(** ** The history manager: import and export *)

Section HistoryImport.
Import History Samples HistoryScenarios.

(** A [try] whose only clause is [except Exception] with a handler that
    logs always returns. *)
Lemma caught_and_logged (body : M state unit) (l : level) (msg : string)
    (s : state) :
  exists s',
    try_except body [ (C_Exception, fun _ => logging l msg) ] s = (Ok tt, s').
Proof.
  unfold try_except. destruct (body s) as [[[]|e] s1]; simpl.
  - eauto.
  - unfold logging, modify. eauto.
Qed.

(** X9. [import_history] raises from its existence test only.  The test
    is outside the [try]: when it raises, the [OSError] leaves
    [import_history] and the state is untouched.  Otherwise
    [import_history] returns normally, whatever the file holds and
    whatever the state is; and when there is no file at the path, nothing
    changes but the log, which gets one [ERROR] record. *)
Theorem X9_import_history_raises_at_the_existence_test_only (p : path)
    (append : bool) (s : state) :
  (stat_fails (env s) p -> import_history p append s = (Raise OSError, s))
  /\ (~ stat_fails (env s) p ->
      exists s', import_history p append s = (Ok tt, s'))
  /\ (files (env s) !! p = None -> deny_stat (env s) p = false ->
      import_history p append s
      = (Ok tt, noted (ERROR, "Import file not found") s)).
Proof.
  split; [|split].
  - intros [Hfile Hstat].
    unfold import_history, path_exists. unfold bind at 1.
    by rewrite Hfile, Hstat.
  - intros Hstat.
    unfold import_history, path_exists. unfold bind at 1.
    destruct (files (env s) !! p) eqn:Hfile.
    + cbn [negb]. apply caught_and_logged.
    + destruct (deny_stat (env s) p) eqn:Hdeny.
      * destruct Hstat. by split.
      * cbn [negb]. unfold logging, modify. eexists. reflexivity.
  - intros Hfile Hstat.
    unfold import_history, path_exists. unfold bind at 1.
    rewrite Hfile, Hstat. reflexivity.
Qed.

Lemma X9_import_history_raises_at_the_existence_test_only_witness :
  let s := {| self := agent 100 true (PList three_messages); env := disk ∅ |} in
  import_history agent_file true s
  = (Ok tt, noted (ERROR, "Import file not found") s)
  /\ import_history agent_file true (on_env hidden s) = (Raise OSError, on_env hidden s).
Proof.
  intros s. split.
  - destruct (X9_import_history_raises_at_the_existence_test_only
                agent_file true s) as (_ & _ & Hmissing).
    apply Hmissing; reflexivity.
  - destruct (X9_import_history_raises_at_the_existence_test_only
                agent_file true (on_env hidden s)) as (Hraise & _ & _).
    apply Hraise. split; reflexivity.
Defined.

(** The state in which [import_history] saves, when the file holds a
    list. *)
Lemma import_history_list (p : path) (append : bool) (s : state)
    (d : gmap string pyval) (l imp : list pyval) :
  history (self s) = PList l ->
  deny_read (env s) p = false ->
  files (env s) !! p = Some (Json (PDict d)) ->
  default (PList []) (d !! "history") = PList imp ->
  let kept := trimmed (max_history_size (self s))
                (if append then l ++ imp else imp) in
  let st := on_self (set_history (PList kept)) s in
  import_history p append s
  = (Ok tt, noted (INFO, "Imported messages") (_save_history st).2).
Proof.
  intros Hl Hdeny Hfile Himp kept st. subst kept st.
  assert (Hget : py_get (PDict d) "history" (PList []) = Ok (PList imp)).
  { simpl. destruct (d !! "history"); simpl in Himp; by rewrite Himp. }
  unfold import_history, path_exists, read_json, assign_history, logging.
  unfold bind at 1. rewrite Hfile.
  cbn [negb]. unfold try_except, noted.
  unfold bind at 1. rewrite Hdeny, Hfile.
  unfold bind at 1. unfold lift at 1. rewrite Hget.
  run. unfold trimmed.
  destruct append; simpl.
  - rewrite Hl. simpl.
    destruct (Z.of_nat (length (l ++ imp)) >? max_history_size (self s));
      simpl;
      try change (on_self (set_history ?a) (on_self _ s))
        with (on_self (set_history a) s);
      match goal with |- context [_save_history ?st] =>
        destruct (save_history_total st) as [w' Hsave]; rewrite Hsave end;
      reflexivity.
  - destruct (Z.of_nat (length imp) >? max_history_size (self s)); simpl;
      try change (on_self (set_history ?a) (on_self _ s))
        with (on_self (set_history a) s);
      match goal with |- context [_save_history ?st] =>
        destruct (save_history_total st) as [w' Hsave]; rewrite Hsave end;
      reflexivity.
Qed.

(** X10. [import_history] takes the stored list as it is.  When the file
    holds an object whose "history" is a list (or is absent), the history
    becomes that list, or the old history followed by it with [append],
    cut to the bound; the entries are not validated.  A positive bound
    holds afterwards, and on a file system that accepts the writes the
    result is in the history file of the agent. *)
Theorem X10_import_takes_the_list_as_it_is (p : path) (append : bool)
    (s : state) (d : gmap string pyval) (l imp : list pyval) :
  history (self s) = PList l ->
  deny_read (env s) p = false ->
  files (env s) !! p = Some (Json (PDict d)) ->
  default (PList []) (d !! "history") = PList imp ->
  let kept := trimmed (max_history_size (self s))
                (if append then l ++ imp else imp) in
  exists s',
    import_history p append s = (Ok tt, s')
    /\ self s' = set_history (PList kept) (self s)
    /\ (0 < max_history_size (self s) ->
        Z.of_nat (length kept) <= max_history_size (self s))
    /\ (accepts_writes (env s) ->
        exists t, files (env s') !! history_file (self s)
                  = Some (Json (document (self s') t))).
Proof.
  intros Hl Hdeny Hfile Himp kept.
  rewrite (import_history_list p append s d l imp Hl Hdeny Hfile Himp).
  fold kept. set (st := on_self (set_history (PList kept)) s).
  destruct (save_history_total st) as [w' Hsave].
  eexists. split; [reflexivity|]. rewrite Hsave. simpl.
  split; [reflexivity|]. split.
  - intros Hmax. subst kept. rewrite trimmed_positive by done.
    rewrite last_elements_length. lia.
  - intros Hok.
    rewrite (save_history_accepted st kept) in Hsave; [|done|exact Hok].
    injection Hsave as <-. simpl. eexists. apply lookup_insert_eq.
Qed.

Lemma X10_import_takes_the_list_as_it_is_witness :
  exists s',
    import_history agent_file true
      {| self := agent 5 false (PList three_messages);
         env := disk {[ agent_file := saved (PList mixed_entries) ]} |}
    = (Ok tt, s')
    /\ history (self s') = PList (message "user" "three" :: mixed_entries).
Proof.
  set (s := {| self := agent 5 false (PList three_messages);
               env := disk {[ agent_file := saved (PList mixed_entries) ]} |}).
  set (d := list_to_map [("agent_name", PStr "agent");
                         ("history", PList mixed_entries)]
            : gmap string pyval).
  assert (Hfile : files (env s) !! agent_file = Some (Json (PDict d)))
    by (vm_compute; reflexivity).
  assert (Himp : default (PList []) (d !! "history") = PList mixed_entries)
    by (vm_compute; reflexivity).
  destruct (X10_import_takes_the_list_as_it_is agent_file true s d
              three_messages mixed_entries eq_refl eq_refl Hfile Himp)
    as (s' & Hrun & Hself & _).
  exists s'. split; [exact Hrun|]. rewrite Hself. vm_compute. reflexivity.
Defined.

(** X11. What [export_history] writes, [import_history] reads back.  On a
    file system that accepts the writes, a manager that imports (without
    [append]) the file another manager exported holds the exported list,
    cut to its own bound. *)
Theorem X11_export_then_import (p : path) (s : state) (importer : manager)
    (l l2 : list pyval) :
  history (self s) = PList l ->
  history importer = PList l2 ->
  accepts_writes (env s) ->
  deny_read (env s) p = false ->
  exists s1 s2,
    export_history p s = (Ok tt, s1)
    /\ self s1 = self s
    /\ import_history p false {| self := importer; env := env s1 |}
       = (Ok tt, s2)
    /\ history (self s2) = PList (trimmed (max_history_size importer) l).
Proof.
  intros Hl Hl2 Hok Hread.
  set (doc := list_to_map
                [ ("agent_name", PStr (agent_name (self s)));
                  ("saved_at", PStr (isoformat (clock (env s) (ticks (env s)))));
                  ("message_count",
                   PInt (match py_len (history (self s)) with
                         | Ok n => n | Raise _ => 0 end));
                  ("history", history (self s)) ] : gmap string pyval).
  assert (Hexport : exists w1,
            export_history p s = (Ok tt, {| self := self s; env := w1 |})
            /\ files w1 !! p = Some (Json (PDict doc))
            /\ deny_read w1 p = false).
  { unfold export_history. unfold bind at 1.
    rewrite (save_to_file_accepted p s l Hl); [|apply Hok..].
    unfold logging, modify. simpl. eexists. split; [reflexivity|].
    simpl. split; [apply lookup_insert_eq|exact Hread]. }
  destruct Hexport as (w1 & Hexport & Hfile & Hread1).
  assert (Himp : default (PList []) (doc !! "history") = PList l).
  { subst doc. simpl. rewrite lookup_insert_ne by done.
    rewrite lookup_insert_ne by done. rewrite lookup_insert_ne by done.
    rewrite lookup_insert_eq. simpl. exact Hl. }
  assert (Himport : exists w2,
            import_history p false {| self := importer; env := w1 |}
            = (Ok tt,
               {| self := set_history
                            (PList (trimmed (max_history_size importer) l))
                            importer;
                  env := w2 |})).
  { rewrite (import_history_list p false {| self := importer; env := w1 |}
               doc l2 l Hl2 Hread1 Hfile Himp).
    match goal with |- context [_save_history ?st] =>
      destruct (save_history_total st) as [w2 Hsave]; rewrite Hsave
    end.
    eexists. reflexivity. }
  destruct Himport as (w2 & Himport).
  eexists _, _. split; [exact Hexport|]. split; [reflexivity|].
  split; [exact Himport|]. reflexivity.
Qed.

Lemma X11_export_then_import_witness :
  exists s1 s2,
    export_history {| parent := "."; stem := "export"; suffix := ".json" |}
      {| self := agent 100 false (PList three_messages); env := disk ∅ |}
    = (Ok tt, s1)
    /\ import_history {| parent := "."; stem := "export"; suffix := ".json" |}
         false {| self := agent 2 false (PList []); env := env s1 |}
       = (Ok tt, s2)
    /\ history (self s2)
       = PList [message "assistant" "two"; message "user" "three"].
Proof.
  assert (Hok : accepts_writes (disk ∅)) by (intros p; split; reflexivity).
  destruct (X11_export_then_import
              {| parent := "."; stem := "export"; suffix := ".json" |}
              {| self := agent 100 false (PList three_messages); env := disk ∅ |}
              (agent 2 false (PList [])) three_messages [] eq_refl eq_refl
              Hok eq_refl)
    as (s1 & s2 & Hexport & _ & Himport & Hhist).
  exists s1, s2. split; [exact Hexport|]. split; [exact Himport|].
  rewrite Hhist. reflexivity.
Defined.

(** X12. [import_history] assigns before it checks.  When the "history" of
    the file is a value without a length ([null], a boolean, a number), the
    error is caught and logged; but without [append] the value has already
    replaced the in-memory history, while with [append] the history is
    untouched.  In both cases no file is written. *)
Theorem X12_import_assigns_before_it_checks (p : path) (s : state)
    (d : gmap string pyval) (v : pyval) (l : list pyval) :
  history (self s) = PList l ->
  deny_read (env s) p = false ->
  files (env s) !! p = Some (Json (PDict d)) ->
  d !! "history" = Some v ->
  py_len v = Raise TypeError ->
  import_history p false s
  = (Ok tt, noted (ERROR, "Failed to import conversation history")
              (on_self (set_history v) s))
  /\ import_history p true s
     = (Ok tt, noted (ERROR, "Failed to import conversation history") s).
Proof.
  intros Hl Hdeny Hfile Hv Hlen.
  unfold import_history, path_exists, read_json, assign_history, logging, noted.
  run. rewrite Hfile. simpl. rewrite Hdeny, Hfile. simpl. rewrite Hv, Hl.
  destruct v; try discriminate Hlen; simpl; split; reflexivity.
Qed.

Lemma X12_import_assigns_before_it_checks_witness :
  let s := {| self := agent 100 true (PList three_messages);
              env := disk {[ agent_file := saved PNone ]} |} in
  history (self (import_history agent_file false s).2) = PNone
  /\ history (self (import_history agent_file true s).2) = PList three_messages.
Proof.
  intros s.
  set (d := list_to_map [("agent_name", PStr "agent"); ("history", PNone)]
            : gmap string pyval).
  assert (Hfile : files (env s) !! agent_file = Some (Json (PDict d)))
    by (vm_compute; reflexivity).
  assert (Hv : d !! "history" = Some PNone) by (vm_compute; reflexivity).
  destruct (X12_import_assigns_before_it_checks agent_file s d
              PNone three_messages eq_refl eq_refl Hfile Hv eq_refl)
    as [Hreplace Happend].
  rewrite Hreplace, Happend. split; reflexivity.
Defined.

End HistoryImport.

(** ** The history manager: the constructor *)

Section HistoryConstructor.
Import History Samples HistoryScenarios.




End HistoryConstructor.

(** ** The history manager: what a failed export leaves behind *)

Section HistoryExport.
Import History Samples HistoryScenarios.



End HistoryExport.

(** ** The GPS connector: retries, errors and the entry point *)

Section FabricFurther.
Import Fabric FabricScenarios.

(** X13. [_send_request] stops at the first response.  It makes between
    one and three POSTs of the same request; every attempt before the last
    one failed; it pauses two seconds between consecutive attempts and
    never after the last; it returns the response of the last attempt, or
    re-raises its exception when that was the third failure. *)
Theorem X13_retry_stops_at_first_response (c : GPSFabricConnector)
    (coordinates : pyval) (w : world) :
  let req := rpc_request c coordinates in
  exists (k : nat) (w' : world) (r : result response),
    _send_request c coordinates w = (r, w')
    /\ (1 <= k <= 3)%nat
    /\ posts w' = posts w ++ replicate k req
    /\ sleeps w' = sleeps w ++ replicate (k - 1) 2
    /\ (forall j, (j < k - 1)%nat -> exists e, attempt w req j = Fails e)
    /\ match r with
       | Ok resp => attempt w req (k - 1) = Responds resp
       | Raise e => k = 3%nat /\ attempt w req 2 = Fails e
       end.
Proof.
  intros req. rewrite send_request_delivery. fold req. unfold delivery.
  destruct (attempt w req 0) as [r0|e0] eqn:H0; simpl.
  { exists 1%nat. eexists _, _. split; [reflexivity|].
    split; [lia|]. split; [reflexivity|]. split; [reflexivity|].
    split; [intros j Hj; lia|exact H0]. }
  destruct (attempt w req 1) as [r1|e1] eqn:H1; simpl.
  { exists 2%nat. eexists _, _. split; [reflexivity|].
    split; [lia|]. split; [reflexivity|]. split; [reflexivity|].
    split; [|exact H1].
    intros j Hj. assert (j = 0%nat) as -> by lia. eauto. }
  exists 3%nat. eexists _, _. split; [reflexivity|].
  split; [lia|]. split; [reflexivity|]. split; [reflexivity|]. split.
  - intros j Hj.
    assert (j = 0 \/ j = 1)%nat as [-> | ->] by lia; eauto.
  - simpl. destruct (attempt w req 2); auto.
Qed.

(** When the coordinates are complete and the first attempt is answered,
    [send_coordinates] judges that answer after one POST and no pause. *)
Lemma send_coordinates_first_answer (c : GPSFabricConnector) (w : world)
    (r : response) :
  complete w ->
  attempt w (rpc_request c (coordinates_of w)) 0 = Responds r ->
  exists extra,
    send_coordinates c w
    = (Ok (verdict r),
       logged extra (sent w (rpc_request c (coordinates_of w)) 1))
    /\ (verdict r = false -> exists msg, (ERROR, msg) ∈ extra).
Proof.
  intros Hc H0.
  destruct (send_coordinates_complete c w Hc) as (extra & Hrun & Herr).
  unfold delivery in *. rewrite H0 in *. simpl in *. eauto.
Qed.

(** X14. An HTTP error status is not retried.  When the coordinates are
    complete and the first attempt is answered with a status from 400 to
    599, [send_coordinates] returns [False] after exactly one POST and no
    pause: only exceptions of [requests.post] are retried. *)
Theorem X14_http_error_is_not_retried (c : GPSFabricConnector) (w : world)
    (r : response) :
  complete w ->
  attempt w (rpc_request c (coordinates_of w)) 0 = Responds r ->
  400 <= status_code r < 600 ->
  exists w',
    send_coordinates c w = (Ok false, w')
    /\ posts w' = posts w ++ [rpc_request c (coordinates_of w)]
    /\ sleeps w' = sleeps w.
Proof.
  intros Hc H0 Hst.
  destruct (send_coordinates_first_answer c w r Hc H0) as (extra & Hrun & _).
  assert (Hv : verdict r = false).
  { unfold verdict.
    replace (400 <=? status_code r) with true by lia.
    replace (status_code r <? 600) with true by lia. reflexivity. }
  rewrite Hv in Hrun. eexists. split; [exact Hrun|].
  simpl. split; [reflexivity|]. by rewrite app_nil_r.
Qed.

Lemma X14_http_error_is_not_retried_witness :
  exists w',
    send_coordinates (__init__ default_config) (answering 503 located)
    = (Ok false, w')
    /\ length (posts w') = 1%nat
    /\ sleeps w' = [].
Proof.
  assert (Hc : complete (answering 503 located)).
  { repeat split; discriminate. }
  destruct (X14_http_error_is_not_retried (__init__ default_config)
              (answering 503 located)
              {| status_code := 503; body := None |} Hc eq_refl ltac:(simpl; lia))
    as (w' & Hrun & Hposts & Hsleeps).
  exists w'. split; [exact Hrun|]. split.
  - rewrite Hposts. reflexivity.
  - rewrite Hsleeps. reflexivity.
Defined.

(** X15. How a persistent failure is reported.  When the coordinates are
    complete and the three attempts fail, [send_coordinates] returns
    [False] and the log ends with one [ERROR] record whose text is chosen
    by the first [except] clause the last exception is an instance of: a
    timeout is reported as a timeout even when it is a connection error
    too ([ConnectTimeout]). *)
Theorem X15_failure_is_reported_by_class (c : GPSFabricConnector) (w : world)
    (e0 e1 e : exn) :
  complete w ->
  let req := rpc_request c (coordinates_of w) in
  attempt w req 0 = Fails e0 ->
  attempt w req 1 = Fails e1 ->
  attempt w req 2 = Fails e ->
  send_coordinates c w
  = (Ok false,
     logged [ (INFO, "GPSFabricConnector: Preparing to send coordinates to Fabric network");
              (DEBUG, "GPSFabricConnector: Retrieved coordinates");
              (ERROR, failure_text e) ]
       (sent w req 3)).
Proof.
  intros Hc req H0 H1 H2. unfold send_coordinates.
  unfold bind at 1. unfold logging at 1. unfold modify.
  unfold bind at 1.
  rewrite get_coordinates_complete by exact Hc.
  unfold try_except at 1. unfold bind at 1.
  rewrite send_request_delivery.
  change (coordinates_of _) with (coordinates_of w). fold req.
  change (delivery _ req) with (delivery w req).
  unfold delivery. rewrite H0, H1, H2. simpl.
  unfold failure_text, logging, logged, sent.
  destruct e; simpl; run; rewrite <- ?app_assoc; reflexivity.
Qed.

Lemma X15_failure_is_reported_by_class_witness :
  exists w',
    send_coordinates (__init__ default_config) (timing_out located)
    = (Ok false, w')
    /\ last (log w') = Some (ERROR, "GPSFabricConnector: Request timeout").
Proof.
  assert (Hc : complete (timing_out located)).
  { repeat split; discriminate. }
  pose proof (X15_failure_is_reported_by_class (__init__ default_config)
                (timing_out located) ConnectTimeout ConnectTimeout
                ConnectTimeout Hc eq_refl eq_refl eq_refl) as Hrun.
  eexists. split; [exact Hrun|]. reflexivity.
Defined.

Lemma send_coordinates_returns (c : GPSFabricConnector) (w : world) :
  exists b extra k,
    send_coordinates c w
    = (Ok b, logged extra (sent w (rpc_request c (coordinates_of w)) k))
    /\ (complete w -> (1 <= k <= 3)%nat)
    /\ (~ complete w -> k = 0%nat).
Proof.
  destruct (complete_dec w) as [Hc|Hn].
  - destruct (send_coordinates_complete c w Hc) as (extra & Hrun & _).
    eexists _, extra, _. split; [exact Hrun|]. split.
    + intros _. apply delivery_attempts.
    + intros Hno. contradiction.
  - rewrite (send_coordinates_incomplete c w Hn).
    exists false,
      [ (INFO, "GPSFabricConnector: Preparing to send coordinates to Fabric network");
        (DEBUG, "GPSFabricConnector: Retrieved coordinates");
        (ERROR, "GPSFabricConnector: Incomplete coordinates") ], 0%nat.
    split.
    + unfold logged, sent. simpl. rewrite !app_nil_r. reflexivity.
    + split; [|reflexivity].
      intros (Hlat & Hlon & Hyaw). destruct Hn as [H|[H|H]]; contradiction.
Qed.

(** X16. The entry point [connect] never raises.  For an action other
    than [SHARE_LOCATION] it logs the request and does nothing else: no
    POST, no pause.  For [SHARE_LOCATION] it runs [send_coordinates], which
    issues no POST when a coordinate is missing and one to three
    otherwise, and it adds one [WARNING] record exactly when
    [send_coordinates] returned [False]. *)
Theorem X16_connect_only_shares_location (c : GPSFabricConnector)
    (w : world) :
  let requested := logged [(INFO, "GPSFabricConnector: Action requested")] w in
  (forall name,
     connect c {| action := OtherAction name |} w = (Ok tt, requested))
  /\ exists b w1 k,
       send_coordinates c requested = (Ok b, w1)
       /\ connect c {| action := SHARE_LOCATION |} w
          = (Ok tt,
             if b then w1
             else logged [(WARNING, "GPSFabricConnector: Failed to share location")] w1)
       /\ posts w1 = posts w ++ replicate k (rpc_request c (coordinates_of w))
       /\ sleeps w1 = sleeps w ++ replicate (k - 1) 2
       /\ (complete w -> (1 <= k <= 3)%nat)
       /\ (~ complete w -> k = 0%nat).
Proof.
  intros requested. split; [reflexivity|].
  destruct (send_coordinates_returns c requested)
    as (b & extra & k & Hrun & Hk & H0).
  exists b, (logged extra (sent requested (rpc_request c (coordinates_of w)) k)), k.
  split; [exact Hrun|]. split.
  - unfold connect. unfold bind at 1. unfold logging at 1. unfold modify.
    simpl. unfold bind at 1.
    change (logged _ w) with requested in Hrun.
    change {| io_variables := io_variables w; server := server w;
              posts := posts w; sleeps := sleeps w;
              log := log w ++ [(INFO, "GPSFabricConnector: Action requested")] |}
      with requested.
    rewrite Hrun. destruct b; reflexivity.
  - split; [reflexivity|]. split; [reflexivity|]. split; [exact Hk|exact H0].
Qed.

End FabricFurther.

(** ** The simulator loader: the pattern and the search *)

Section RegexFacts.
Import Simulators SimulatorsScenarios.

Lemma matches_seq_inv (r1 r2 : regex) (s : text) :
  matches (Seq r1 r2) s ->
  exists s1 s2, s = s1 ++ s2 /\ matches r1 s1 /\ matches r2 s2.
Proof. inversion 1; subst; eauto. Qed.

Lemma matches_sym_inv (p : char -> bool) (s : text) :
  matches (Sym p) s -> exists c, s = [c] /\ p c = true.
Proof. inversion 1; subst; eauto. Qed.

Lemma nullable_spec (r : regex) : nullable r = true <-> matches r [].
Proof.
  induction r as [| |p|r1 IH1 r2 IH2|r1 IH1 r2 IH2|r IH]; simpl.
  - split; [discriminate|inversion 1].
  - split; [constructor|done].
  - split; [discriminate|inversion 1].
  - rewrite orb_true_iff, IH1, IH2. split.
    + intros [H|H]; [by apply matches_alt_l|by apply matches_alt_r].
    + inversion 1; subst; auto.
  - rewrite andb_true_iff, IH1, IH2. split.
    + intros [H1 H2]. by apply (matches_seq r1 r2 [] []).
    + intros (s1 & s2 & Heq & H1 & H2)%matches_seq_inv.
      symmetry in Heq. apply app_eq_nil in Heq as [-> ->]. done.
  - split; [constructor|done].
Qed.

(** A non-empty match of a star starts with a non-empty match of its
    body. *)
Lemma matches_star_cons_inv (r : regex) (c : char) (s : text) :
  matches (Star r) (c :: s) ->
  exists s1 s2,
    s = s1 ++ s2 /\ matches r (c :: s1) /\ matches (Star r) s2.
Proof.
  remember (Star r) as r' eqn:Hr. remember (c :: s) as t eqn:Ht.
  intros H. revert s Ht.
  induction H as [| | | | |r0|r0 s1 s2 H1 _ H2 IH2]; intros t Ht;
    try discriminate.
  injection Hr as ->.
  destruct s1 as [|a s1]; simpl in Ht.
  - by apply IH2.
  - injection Ht as -> <-. eauto.
Qed.

Lemma deriv_spec (r : regex) (c : char) (s : text) :
  matches (deriv c r) s <-> matches r (c :: s).
Proof.
  revert s.
  induction r as [| |p|r1 IH1 r2 IH2|r1 IH1 r2 IH2|r IH]; intros s; simpl.
  - split; inversion 1.
  - split; inversion 1.
  - destruct (p c) eqn:Hp; split; inversion 1; subst.
    + by constructor.
    + constructor.
    + congruence.
  - split; inversion 1; subst.
    + by apply matches_alt_l, IH1.
    + by apply matches_alt_r, IH2.
    + by apply matches_alt_l, IH1.
    + by apply matches_alt_r, IH2.
  - assert (Hfirst : forall t, matches (Seq (deriv c r1) r2) t ->
                               matches (Seq r1 r2) (c :: t)).
    { intros t (s1 & s2 & -> & H1 & H2)%matches_seq_inv.
      apply IH1 in H1. exact (matches_seq r1 r2 (c :: s1) s2 H1 H2). }
    split.
    + destruct (nullable r1) eqn:Hnull; [|by apply Hfirst].
      inversion 1; subst; [by apply Hfirst|].
      apply (matches_seq r1 r2 [] (c :: s)).
      * by apply nullable_spec.
      * by apply IH2.
    + intros (s1 & s2 & Heq & H1 & H2)%matches_seq_inv.
      destruct s1 as [|a s1]; simpl in Heq.
      * subst s2. apply nullable_spec in H1. rewrite H1.
        by apply matches_alt_r, IH2.
      * injection Heq as <- ->. apply IH1 in H1.
        pose proof (matches_seq _ _ _ _ H1 H2) as Hseq.
        destruct (nullable r1); [by apply matches_alt_l|done].
  - split.
    + intros (s1 & s2 & -> & H1 & H2)%matches_seq_inv.
      apply IH in H1. exact (matches_star_cons r (c :: s1) s2 H1 H2).
    + intros (s1 & s2 & -> & H1 & H2)%matches_star_cons_inv.
      apply matches_seq; [by apply IH|done].
Qed.

(** [re.match]: a prefix of the text is in the language. *)
Lemma matches_prefix_spec (r : regex) (s : text) :
  matches_prefix r s = true
  <-> exists p q, s = p ++ q /\ matches r p.
Proof.
  revert r. induction s as [|c s IH]; intros r; simpl.
  - rewrite orb_false_r, nullable_spec. split.
    + intros H. by exists [], [].
    + intros (p & q & Heq & H). symmetry in Heq.
      apply app_eq_nil in Heq as [-> _]. done.
  - rewrite orb_true_iff, nullable_spec, IH. split.
    + intros [H|(p & q & -> & H)].
      * by exists [], (c :: s).
      * exists (c :: p), q. split; [done|]. by apply deriv_spec.
    + intros (p & q & Heq & H). destruct p as [|a p]; simpl in Heq.
      * by left.
      * injection Heq as <- ->. right. exists p, q. split; [done|].
        by apply deriv_spec.
Qed.

Lemma search_after_newline_spec (r : regex) (s : text) :
  search_after_newline r s = true
  <-> exists b p q, s = b ++ 10%N :: (p ++ q) /\ matches r p.
Proof.
  induction s as [|c s IH]; simpl.
  - split; [discriminate|]. intros (b & p & q & Heq & _).
    destruct b; discriminate.
  - rewrite orb_true_iff, IH. split.
    + intros [H|(b & p & q & -> & H)].
      * destruct (N.eqb_spec c 10) as [->|]; [|discriminate].
        apply matches_prefix_spec in H as (p & q & -> & H).
        by exists [], p, q.
      * by exists (c :: b), p, q.
    + intros (b & p & q & Heq & H). destruct b as [|a b]; simpl in Heq.
      * injection Heq as -> ->. left. simpl.
        apply matches_prefix_spec. eauto.
      * injection Heq as <- ->. right. eauto.
Qed.

(** [re.search] of an anchored pattern under [re.MULTILINE]: some line of
    the text starts with a text of the language. *)
Lemma search_multiline_spec (r : regex) (s : text) :
  search_multiline r s = true
  <-> exists before p after,
        s = before ++ p ++ after /\ line_start before /\ matches r p.
Proof.
  unfold search_multiline.
  rewrite orb_true_iff, matches_prefix_spec, search_after_newline_spec.
  split.
  - intros [(p & q & -> & H)|(b & p & q & -> & H)].
    + exists [], p, q. split; [done|]. split; [by left|done].
    + exists (b ++ [10%N]), p, q.
      split; [by rewrite <- app_assoc|]. split; [right; eauto|done].
  - intros (before & p & after & -> & [->|[b ->]] & H).
    + left. by exists p, after.
    + right. exists b, p, after. split; [by rewrite <- app_assoc|done].
Qed.

Lemma matches_lit (t s : text) : matches (lit t) s <-> s = t.
Proof.
  revert s. induction t as [|c t IH]; intros s; simpl.
  - split; [by inversion 1|intros ->; constructor].
  - split.
    + intros (s1 & s2 & -> & (a & -> & Ha)%matches_sym_inv & H2)%matches_seq_inv.
      apply N.eqb_eq in Ha as <-. apply IH in H2 as ->. done.
    + intros ->. apply (matches_seq _ _ [c] t).
      * constructor. apply N.eqb_refl.
      * by apply IH.
Qed.

Lemma matches_star_sym (p : char -> bool) (s : text) :
  matches (Star (Sym p)) s <-> all_chars p s = true.
Proof.
  split.
  - remember (Star (Sym p)) as r eqn:Hr. intros H.
    induction H as [| | | | |r0|r0 s1 s2 H1 _ H2 IH2]; try discriminate.
    + done.
    + injection Hr as ->.
      apply matches_sym_inv in H1 as (c & -> & Hc). simpl.
      rewrite Hc. by apply IH2.
  - induction s as [|c s IH]; simpl.
    + constructor.
    + intros [Hc Hs]%andb_true_iff.
      apply (matches_star_cons _ [c] s); [by constructor|auto].
Qed.

Lemma matches_plus_sym (p : char -> bool) (s : text) :
  matches (Seq (Sym p) (Star (Sym p))) s
  <-> s <> [] /\ all_chars p s = true.
Proof.
  split.
  - intros (s1 & s2 & -> & (c & -> & Hc)%matches_sym_inv
            & H2%matches_star_sym)%matches_seq_inv.
    simpl. by rewrite Hc, H2.
  - intros [Hne Hall]. destruct s as [|c s]; [done|].
    simpl in Hall. apply andb_true_iff in Hall as [Hc Hs].
    apply (matches_seq _ _ [c] s);
      [by constructor|by apply matches_star_sym].
Qed.

(** The language of the pattern of [find_module_with_class]. *)
Lemma class_pattern_spec (class_name : string) (p : text) :
  matches (class_pattern class_name) p
  <-> exists l, p = declaration class_name l /\ well_formed l.
Proof.
  unfold class_pattern, declaration, well_formed. split.
  - intros (s1 & t1 & -> & ->%matches_lit & H)%matches_seq_inv.
    apply matches_seq_inv in H as (g1 & t2 & -> & [Hne Hg1]%matches_plus_sym & H).
    apply matches_seq_inv in H as (s2 & t3 & -> & ->%matches_lit & H).
    apply matches_seq_inv in H as (g2 & t4 & -> & Hg2%matches_star_sym & H).
    apply matches_seq_inv in H as (s3 & t5 & -> & ->%matches_lit & H).
    apply matches_seq_inv in H as (b1 & t6 & -> & Hb1%matches_star_sym & H).
    apply matches_seq_inv in H as (s4 & t7 & -> & ->%matches_lit & H).
    apply matches_seq_inv in H as (b2 & t8 & -> & Hb2%matches_star_sym & H).
    apply matches_seq_inv in H as (s5 & t9 & -> & ->%matches_lit & H).
    apply matches_seq_inv in H as (g3 & t10 & -> & Hg3%matches_star_sym
                                   & ->%matches_lit).
    exists {| after_class := g1; after_name := g2; bases_before := b1;
              bases_after := b2; before_colon := g3 |}.
    cbn [after_class after_name bases_before bases_after before_colon].
    done.
  - intros ([g1 g2 b1 b2 g3] & -> & Hne & Hg1 & Hg2 & Hb1 & Hb2 & Hg3).
    cbn [after_class after_name bases_before bases_after before_colon] in *.
    repeat (apply matches_seq;
            [first [by apply matches_lit | by apply matches_star_sym
                   | by apply matches_plus_sym]|]).
    by apply matches_lit.
Qed.

End RegexFacts.

Section SimulatorsFurther.
Import Simulators SimulatorsScenarios.

#[local] Arguments unreadable : simpl never.

(** X17. What [find_module_with_class] looks for in a file.  The search of
    the pattern succeeds exactly when some line of the text starts with the
    word [class], white space, the class name taken literally, optional
    white space, a parenthesis, a base list without closing parenthesis
    that contains the word [Simulator], the closing parenthesis, optional
    white space and a colon.  White space is any white space of Unicode,
    and the base list may run over several lines. *)
Theorem X17_pattern_finds_class_declarations (class_name : string)
    (content : text) :
  search_multiline (class_pattern class_name) content = true
  <-> declares class_name content.
Proof.
  rewrite search_multiline_spec. unfold declares. split.
  - intros (before & p & after & -> & Hstart & (l & -> & Hl)%class_pattern_spec).
    eauto 10.
  - intros (before & l & after & -> & Hstart & Hl).
    exists before, (declaration class_name l), after.
    split; [done|]. split; [done|]. apply class_pattern_spec. eauto.
Qed.

Lemma X17_pattern_finds_class_declarations_witness :
  declares "Turtle" turtle_source
  /\ search_multiline (class_pattern "Turtle") typeset_source = true.
Proof.
  split.
  - apply (proj1 (X17_pattern_finds_class_declarations "Turtle" turtle_source)).
    vm_compute. reflexivity.
  - apply (proj2 (X17_pattern_finds_class_declarations "Turtle"
                    typeset_source)).
    exists [], {| after_class := [160%N]; after_name := [];
                  bases_before := []; bases_after := [];
                  before_colon := [8195%N] |}, [].
    split; [reflexivity|]. split; [by left|].
    repeat split; try reflexivity. discriminate.
Defined.

Lemma string_of_list_ascii_app (a b : list ascii) :
  String.string_of_list_ascii (a ++ b)
  = String.string_of_list_ascii a +:+ String.string_of_list_ascii b.
Proof.
  induction a as [|c a IH]; [done|].
  change (String c (String.string_of_list_ascii (a ++ b))
          = String c (String.string_of_list_ascii a
                      +:+ String.string_of_list_ascii b)).
  by rewrite IH.
Qed.

Lemma length_list_ascii_of_string (s : string) :
  length (String.list_ascii_of_string s) = String.length s.
Proof. induction s as [|c s IH]; simpl; [done|]. by rewrite IH. Qed.

(** A name that ends in [.py] is its module name followed by [.py]. *)
Lemma endswith_py (f : string) :
  endswith f ".py" = true -> f = drop_last 3 f +:+ ".py".
Proof.
  unfold endswith, drop_last. intros [k Hk]%bool_decide_eq_true.
  rewrite <- length_list_ascii_of_string, Hk, length_app.
  change (length (String.list_ascii_of_string ".py")) with 3%nat.
  replace (length k + 3 - 3)%nat with (length k) by lia.
  rewrite take_app_length.
  rewrite <- (String.string_of_list_ascii_of_string f) at 1.
  by rewrite Hk, string_of_list_ascii_app.
Qed.

Lemma warned_0 (w : world) : warned 0 w = w.
Proof. destruct w. unfold warned. simpl. by rewrite app_nil_r. Qed.

Lemma warned_S (k : nat) (w : world) :
  warned k {| plugins := plugins w; import_table := import_table w;
              on_call := on_call w; str_of := str_of w;
              log := log w ++ [(WARNING, "Could not read plugin file")] |}
  = warned (S k) w.
Proof. unfold warned. simpl. by rewrite <- app_assoc. Qed.

Lemma unreadable_cons_ok (f : string) (content : text)
    (l : list (string * result text)) :
  unreadable ((f, Ok content) :: l) = unreadable l.
Proof.
  unfold unreadable. cbn [List.filter fst snd].
  by destruct (endswith f ".py").
Qed.

Lemma unreadable_cons_raise (f : string) (e : exn)
    (l : list (string * result text)) :
  endswith f ".py" = true ->
  length (unreadable ((f, Raise e) :: l)) = S (length (unreadable l)).
Proof.
  intros H. unfold unreadable. cbn [List.filter fst snd]. by rewrite H.
Qed.

Lemma unreadable_cons_other (f : string) (read : result text)
    (l : list (string * result text)) :
  endswith f ".py" = false ->
  unreadable ((f, read) :: l) = unreadable l.
Proof.
  intros H. unfold unreadable. cbn [List.filter fst snd]. by rewrite H.
Qed.

(** The scan stops at the first readable plugin file that matches, and
    warns once for each unreadable plugin file before it. *)
Lemma scan_first_match (class_name : string)
    (entries : list (string * result text)) (w : world) :
  exists found k,
    scan_plugins (PStr class_name)
      (List.filter (fun f => endswith f.1 ".py") entries) w
    = (Ok found, warned k w)
    /\ match found with
       | Some m =>
           exists skipped content rest,
             entries = skipped ++ (m +:+ ".py", Ok content) :: rest
             /\ search_multiline (class_pattern class_name) content = true
             /\ no_match class_name skipped
             /\ k = length (unreadable skipped)
       | None =>
           no_match class_name entries /\ k = length (unreadable entries)
       end.
Proof.
  revert w. induction entries as [|[f read] rest IH]; intros w.
  { exists None, 0%nat. simpl. rewrite warned_0. split; [done|].
    split; [|done]. intros f c Hin. by apply elem_of_nil in Hin. }
  simpl. destruct (endswith f ".py") eqn:Hpy.
  - simpl. unfold logging. run. destruct read as [content|e]; simpl.
    + destruct (search_multiline (class_pattern class_name) content) eqn:Hs;
        simpl.
      * exists (Some (drop_last 3 f)), 0%nat. rewrite warned_0.
        split; [done|]. exists [], content, rest. simpl.
        rewrite <- (endswith_py f Hpy). split; [done|]. split; [done|].
        split; [|done]. intros f' c Hin. by apply elem_of_nil in Hin.
      * destruct (IH w) as (found & k & Hrun & Hfound).
        exists found, k. split; [exact Hrun|].
        destruct found as [m|].
        -- destruct Hfound as (skipped & c & rest' & -> & Hc & Hno & ->).
           exists ((f, Ok content) :: skipped), c, rest'.
           split; [done|]. split; [done|]. split.
           ++ intros f' c' [Heq|Hin]%elem_of_cons Hpy'.
              ** by injection Heq as -> ->.
              ** by apply (Hno f').
           ++ by rewrite unreadable_cons_ok.
        -- destruct Hfound as [Hno ->]. split.
           ++ intros f' c' [Heq|Hin]%elem_of_cons Hpy'.
              ** by injection Heq as -> ->.
              ** by apply (Hno f').
           ++ by rewrite unreadable_cons_ok.
    + match goal with |- context [scan_plugins _ _ ?w1] =>
        destruct (IH w1) as (found & k & Hrun & Hfound)
      end.
      rewrite warned_S in Hrun.
      exists found, (S k). split; [exact Hrun|].
      destruct found as [m|].
      * destruct Hfound as (skipped & c & rest' & -> & Hc & Hno & ->).
        exists ((f, Raise e) :: skipped), c, rest'.
        split; [done|]. split; [done|]. split.
        -- intros f' c' [Heq|Hin]%elem_of_cons Hpy'; [done|].
           by apply (Hno f').
        -- by rewrite unreadable_cons_raise.
      * destruct Hfound as [Hno ->]. split.
        -- intros f' c' [Heq|Hin]%elem_of_cons Hpy'; [done|].
           by apply (Hno f').
        -- by rewrite unreadable_cons_raise.
  - destruct (IH w) as (found & k & Hrun & Hfound).
    exists found, k. split; [exact Hrun|].
    destruct found as [m|].
    + destruct Hfound as (skipped & c & rest' & -> & Hc & Hno & ->).
      exists ((f, read) :: skipped), c, rest'.
      split; [done|]. split; [done|]. split.
      * intros f' c' [Heq|Hin]%elem_of_cons Hpy'.
        -- injection Heq as -> _. simpl in Hpy'. congruence.
        -- by apply (Hno f').
      * by rewrite unreadable_cons_other.
    + destruct Hfound as [Hno ->]. split.
      * intros f' c' [Heq|Hin]%elem_of_cons Hpy'.
        -- injection Heq as -> _. simpl in Hpy'. congruence.
        -- by apply (Hno f').
      * by rewrite unreadable_cons_other.
Qed.

(** X18. [find_module_with_class] returns the first match.  On a listed
    directory it never raises.  When it returns a module name, the
    directory has the file of that name with [.py], it is readable and
    matches the pattern, and no readable plugin file listed before it
    matches; when it returns [None], no readable plugin file matches.
    Files without [.py] are not looked at, and the only effect is one
    warning for each unreadable plugin file that was tried. *)
Theorem X18_find_module_returns_first_match (class_name : string)
    (w : world) (entries : list (string * result text)) :
  plugins w = Listing entries ->
  exists found k,
    find_module_with_class (PStr class_name) w = (Ok found, warned k w)
    /\ match found with
       | Some m =>
           exists skipped content rest,
             entries = skipped ++ (m +:+ ".py", Ok content) :: rest
             /\ search_multiline (class_pattern class_name) content = true
             /\ no_match class_name skipped
             /\ k = length (unreadable skipped)
       | None =>
           no_match class_name entries /\ k = length (unreadable entries)
       end.
Proof.
  intros Hp. unfold find_module_with_class. run. rewrite Hp.
  apply scan_first_match.
Qed.

Lemma X18_find_module_returns_first_match_witness :
  exists k,
    find_module_with_class (PStr "Turtle") (broken_turtle OSError)
    = (Ok (Some "turtle"), warned k (broken_turtle OSError)).
Proof.
  destruct (X18_find_module_returns_first_match "Turtle"
              (broken_turtle OSError) _ eq_refl)
    as (found & k & Hrun & Hfound).
  exists k. rewrite Hrun. f_equal. f_equal.
  assert (Hfst : (find_module_with_class (PStr "Turtle")
                    (broken_turtle OSError)).1 = Ok (Some "turtle"))
    by (vm_compute; reflexivity).
  rewrite Hrun in Hfst. simpl in Hfst. by injection Hfst.
Defined.

End SimulatorsFurther.

(** ** The simulator loader: resolving and instantiating *)

Section SimulatorsLoading.
Import Simulators SimulatorsScenarios.

(** X19. [get_simulator_class] returns strict subclasses of [Simulator]
    only.  It returns an object exactly when the name is a string, a
    plugin module is found for it and imported, and the attribute of that
    name in the module passes the subclass test; the object returned is
    that attribute, and the only effect beyond the search is one [DEBUG]
    record. *)
Theorem X19_get_simulator_class_returns_valid_classes (class_name : pyval)
    (w w' : world) (o : pyobj) :
  get_simulator_class class_name w = (Ok o, w')
  <-> exists name module_name w1 m,
        class_name = PStr name
        /\ find_module_with_class class_name w = (Ok (Some module_name), w1)
        /\ import_table w (plugin_module module_name) = Ok m
        /\ getattr m name = Ok o
        /\ valid_simulator_class o = true
        /\ w' = recorded (DEBUG, "Got Simulator class") w1.
Proof.
  unfold get_simulator_class, import_module, logging. split.
  - run.
    destruct (find_module_with_class class_name w) as [[[mname|]|e] w1]
      eqn:Hfind; simpl; try discriminate.
    fold (plugin_module mname).
    rewrite (import_after_find _ _ _ _ _ Hfind).
    destruct (import_table w (plugin_module mname)) as [m|e] eqn:Himp; simpl.
    2:{ destruct e; simpl; discriminate. }
    destruct class_name as [| | | |name| |]; simpl; try discriminate.
    destruct (getattr m name) as [o'|e] eqn:Hattr; simpl.
    2:{ destruct e; simpl; discriminate. }
    destruct (valid_simulator_class o') eqn:Hvalid; simpl; [|discriminate].
    intros [= <- <-]. exists name, mname, w1, m. done.
  - intros (name & mname & w1 & m & -> & Hfind & Himp & Hattr & Hvalid & ->).
    run. rewrite Hfind. simpl. fold (plugin_module mname).
    rewrite (import_after_find _ _ _ _ _ Hfind), Himp. simpl.
    rewrite Hattr. simpl. rewrite Hvalid. reflexivity.
Qed.

Lemma X19_get_simulator_class_returns_valid_classes_witness :
  get_simulator_class (PStr "Turtle") (installation (Ok turtle_module))
  = (Ok (Class Turtle),
     recorded (DEBUG, "Got Simulator class") (installation (Ok turtle_module))).
Proof.
  apply (proj2 (X19_get_simulator_class_returns_valid_classes
                  (PStr "Turtle") (installation (Ok turtle_module))
                  (recorded (DEBUG, "Got Simulator class")
                     (installation (Ok turtle_module)))
                  (Class Turtle))).
  exists "Turtle", "turtle", (installation (Ok turtle_module)), turtle_module.
  split; [reflexivity|]. split; [vm_compute; reflexivity|].
  split; [reflexivity|]. split; [reflexivity|]. split; reflexivity.
Defined.

(** With a name that is not a string every plugin file is warned about and
    nothing is found. *)
Lemma scan_non_string (class_name : pyval)
    (plugin_files : list (string * result text)) (w : world) :
  (forall name, class_name <> PStr name) ->
  scan_plugins class_name plugin_files w
  = (Ok None, warned (length plugin_files) w).
Proof.
  intros Hname. revert w.
  induction plugin_files as [|[f read] rest IH]; intros w; simpl.
  { by rewrite warned_0. }
  unfold logging. run.
  destruct read as [content|e]; simpl.
  - destruct class_name as [| | | |name| |]; simpl;
      try (rewrite IH, warned_S; reflexivity).
    by destruct (Hname name).
  - rewrite IH, warned_S. reflexivity.
Qed.

(** X20. [load_simulator] without a usable "type".  Without the key it
    raises [KeyError] before it looks at anything.  With a value that is
    not a string and a listed directory, every plugin file is tried and
    warned about (the pattern cannot be built), and the failure is reported
    as a class that was not found, by [load_simulator] and by
    [get_simulator_class] alike. *)
Theorem X20_load_simulator_needs_a_type_name (simulator_config : gmap string pyval)
    (w : world) :
  (simulator_config !! "type" = None ->
   load_simulator simulator_config w = (Raise KeyError, w))
  /\ (forall v entries,
        simulator_config !! "type" = Some v ->
        (forall name, v <> PStr name) ->
        plugins w = Listing entries ->
        let tried := List.filter (fun f => endswith f.1 ".py") entries in
        (exists msg,
           load_simulator simulator_config w
           = (Raise (ValueError msg), warned (length tried) w))
        /\ (exists msg,
              get_simulator_class v w
              = (Raise (ValueError msg), warned (length tried) w))).
Proof.
  split.
  - intros Htype. unfold load_simulator. run. by rewrite Htype.
  - intros v entries Htype Hname Hp tried.
    assert (Hfind : find_module_with_class v w
                    = (Ok None, warned (length tried) w)).
    { unfold find_module_with_class. run. rewrite Hp.
      by apply scan_non_string. }
    split.
    + unfold load_simulator. run. rewrite Htype. simpl. rewrite Hfind. simpl.
      eexists. reflexivity.
    + unfold get_simulator_class. run. rewrite Hfind. simpl.
      eexists. reflexivity.
Qed.

Lemma X20_load_simulator_needs_a_type_name_witness :
  load_simulator {[ "config" := PDict ∅ ]} (broken_turtle OSError)
  = (Raise KeyError, broken_turtle OSError)
  /\ exists msg,
       load_simulator {[ "type" := PInt 7 ]} (broken_turtle OSError)
       = (Raise (ValueError msg), warned 2 (broken_turtle OSError)).
Proof.
  split.
  - apply (X20_load_simulator_needs_a_type_name {[ "config" := PDict ∅ ]}).
    reflexivity.
  - destruct (X20_load_simulator_needs_a_type_name {[ "type" := PInt 7 ]}
                (broken_turtle OSError)) as [_ Hbad].
    destruct (Hbad (PInt 7) _ eq_refl ltac:(discriminate) eq_refl)
      as [Hload _].
    exact Hload.
Defined.

(** What [load_simulator] does once the class is resolved. *)
Lemma load_simulator_resolved (simulator_config : gmap string pyval)
    (w w1 : world) (name module_name : string) (m : module) (cls : class_obj) :
  simulator_config !! "type" = Some (PStr name) ->
  find_module_with_class (PStr name) w = (Ok (Some module_name), w1) ->
  import_table w (plugin_module module_name) = Ok m ->
  getattr m name = Ok (Class cls) ->
  valid_simulator_class (Class cls) = true ->
  let handlers : list (exc_class * (exn -> M world pyobj)) :=
    [ (C_ImportError,
       fun e => raise (ValueError ("Could not import simulator module '"
                                   +:+ module_name +:+ "': " +:+ exn_text e)));
      (C_AttributeError,
       fun _ => raise (ValueError ("Class '" +:+ name
                                   +:+ "' not found in simulator module '"
                                   +:+ module_name +:+ "'"))) ] in
  load_simulator simulator_config w
  = match on_call w (default SimulatorConfig (find_config_class m None))
            (config_kwargs (default (PDict ∅) (simulator_config !! "config")))
    with
    | Raise e => dispatch handlers e w1
    | Ok config =>
        match on_call w cls [("config", config)] with
        | Raise e =>
            dispatch handlers e (recorded (DEBUG, "Loaded simulator") w1)
        | Ok sim => (Ok sim, recorded (DEBUG, "Loaded simulator") w1)
        end
    end.
Proof.
  intros Htype Hfind Himp Hattr Hvalid handlers. subst handlers.
  pose proof (find_module_frame (PStr name) w) as (_ & _ & Hcall).
  rewrite Hfind in Hcall. simpl in Hcall.
  unfold load_simulator, import_module, call_class, logging. run.
  rewrite Htype. simpl. rewrite Hfind. simpl.
  fold (plugin_module module_name).
  rewrite (import_after_find _ _ _ _ _ Hfind), Himp. simpl.
  rewrite Hattr. simpl. simpl in Hvalid. rewrite Hvalid. simpl.
  rewrite <- Hcall.
  destruct (on_call w1 _ _) as [config|e]; simpl; [|reflexivity].
  destruct (on_call w1 cls _) as [sim|e]; reflexivity.
Qed.

(** X21. The constructors run inside the [try].  Once the class is
    resolved, an exception of the configuration class or of the simulator
    class is reported by the clauses meant for the import and the
    attribute lookup: an [ImportError] as a module that could not be
    imported, an [AttributeError] as a class that was not found in its
    module, both as [ValueError]; every other exception is raised
    unchanged. *)
Theorem X21_constructor_errors_are_reported_as_lookup_failures
    (simulator_config : gmap string pyval) (w w1 : world)
    (name module_name : string) (m : module) (cls : class_obj)
    (config : pyobj) (e : exn) :
  simulator_config !! "type" = Some (PStr name) ->
  find_module_with_class (PStr name) w = (Ok (Some module_name), w1) ->
  import_table w (plugin_module module_name) = Ok m ->
  getattr m name = Ok (Class cls) ->
  valid_simulator_class (Class cls) = true ->
  on_call w (default SimulatorConfig (find_config_class m None))
    (config_kwargs (default (PDict ∅) (simulator_config !! "config")))
  = Ok config ->
  on_call w cls [("config", config)] = Raise e ->
  exists raised,
    load_simulator simulator_config w
    = (Raise raised, recorded (DEBUG, "Loaded simulator") w1)
    /\ (isinstance e C_ImportError = true ->
        raised = ValueError ("Could not import simulator module '"
                             +:+ module_name +:+ "': " +:+ exn_text e))
    /\ (e = AttributeError ->
        raised = ValueError ("Class '" +:+ name
                             +:+ "' not found in simulator module '"
                             +:+ module_name +:+ "'"))
    /\ (isinstance e C_ImportError = false -> e <> AttributeError ->
        raised = e).
Proof.
  intros Htype Hfind Himp Hattr Hvalid Hconfig Hsim.
  rewrite (load_simulator_resolved _ w w1 name module_name m cls
             Htype Hfind Himp Hattr Hvalid).
  rewrite Hconfig, Hsim.
  destruct e; simpl; eexists; (split; [reflexivity|]);
    (split; [intros H; first [discriminate H|reflexivity]|]);
    (split; [intros H; first [discriminate H|reflexivity]|]);
    intros H1 H2; first [discriminate H1|done].
Qed.

Lemma X21_constructor_errors_are_reported_as_lookup_failures_witness :
  exists w',
    load_simulator {[ "type" := PStr "Turtle" ]} (broken_turtle AttributeError)
    = (Raise (ValueError "Class 'Turtle' not found in simulator module 'turtle'"),
       w').
Proof.
  assert (Hfind : find_module_with_class (PStr "Turtle")
                    (broken_turtle AttributeError)
                  = (Ok (Some "turtle"), warned 1 (broken_turtle AttributeError)))
    by (vm_compute; reflexivity).
  assert (Htype : ({[ "type" := PStr "Turtle" ]} : gmap string pyval) !! "type"
                  = Some (PStr "Turtle")) by reflexivity.
  assert (Hconfig :
            on_call (broken_turtle AttributeError)
              (default SimulatorConfig (find_config_class turtle_module None))
              (config_kwargs
                 (default (PDict ∅)
                    (({[ "type" := PStr "Turtle" ]} : gmap string pyval)
                       !! "config")))
            = Ok (Instance TurtleConfig [])) by (vm_compute; reflexivity).
  destruct (X21_constructor_errors_are_reported_as_lookup_failures
              {[ "type" := PStr "Turtle" ]} (broken_turtle AttributeError)
              _ "Turtle" "turtle" turtle_module Turtle
              (Instance TurtleConfig []) AttributeError
              Htype Hfind eq_refl eq_refl eq_refl Hconfig eq_refl)
    as (raised & Hrun & _ & Hattr & _).
  eexists. rewrite Hrun, (Hattr eq_refl). reflexivity.
Defined.

(** X22. What [load_simulator] returns.  It returns an object exactly when
    the "type" is a string that resolves to a strict subclass of
    [Simulator], the configuration class accepts the keyword arguments and
    the simulator class accepts the configuration; the object is what the
    simulator class returned.  The configuration class is the one the scan
    of the module chose, or [SimulatorConfig]; a "config" that is not a
    dictionary counts as an empty one. *)
Theorem X22_load_simulator_returns_the_instance
    (simulator_config : gmap string pyval) (w w' : world) (sim : pyobj) :
  load_simulator simulator_config w = (Ok sim, w')
  <-> exists name module_name w1 m cls config,
        simulator_config !! "type" = Some (PStr name)
        /\ find_module_with_class (PStr name) w = (Ok (Some module_name), w1)
        /\ import_table w (plugin_module module_name) = Ok m
        /\ getattr m name = Ok (Class cls)
        /\ valid_simulator_class (Class cls) = true
        /\ on_call w (default SimulatorConfig (find_config_class m None))
             (match simulator_config !! "config" with
              | Some (PDict d) => (fun kv => (kv.1, Data kv.2)) <$> map_to_list d
              | _ => []
              end)
           = Ok config
        /\ on_call w cls [("config", config)] = Ok sim
        /\ w' = recorded (DEBUG, "Loaded simulator") w1.
Proof.
  assert (Hkw : config_kwargs (default (PDict ∅) (simulator_config !! "config"))
                = match simulator_config !! "config" with
                  | Some (PDict d) => (fun kv => (kv.1, Data kv.2)) <$> map_to_list d
                  | _ => []
                  end).
  { destruct (simulator_config !! "config") as [[]|]; reflexivity. }
  split.
  - intros Hrun.
    destruct (simulator_config !! "type") as [v|] eqn:Htype.
    2:{ unfold load_simulator in Hrun. run. rewrite Htype in Hrun.
        discriminate Hrun. }
    destruct (find_module_with_class v w) as [[[mname|]|e] w1] eqn:Hfind.
    2,3: unfold load_simulator in Hrun; run; rewrite Htype in Hrun;
         simpl in Hrun; rewrite Hfind in Hrun; discriminate Hrun.
    destruct (import_table w (plugin_module mname)) as [m|e] eqn:Himp.
    2:{ unfold load_simulator, import_module in Hrun. run.
        rewrite Htype in Hrun. simpl in Hrun. rewrite Hfind in Hrun.
        simpl in Hrun. fold (plugin_module mname) in Hrun.
        rewrite (import_after_find _ _ _ _ _ Hfind), Himp in Hrun.
        destruct e; simpl in Hrun; discriminate Hrun. }
    destruct v as [| | | |name| |];
      try (unfold load_simulator, import_module in Hrun; run;
           rewrite Htype in Hrun; simpl in Hrun; rewrite Hfind in Hrun;
           simpl in Hrun; fold (plugin_module mname) in Hrun;
           rewrite (import_after_find _ _ _ _ _ Hfind), Himp in Hrun;
           discriminate Hrun).
    destruct (getattr m name) as [o|e] eqn:Hattr.
    2:{ unfold load_simulator, import_module in Hrun. run.
        rewrite Htype in Hrun. simpl in Hrun. rewrite Hfind in Hrun.
        simpl in Hrun. fold (plugin_module mname) in Hrun.
        rewrite (import_after_find _ _ _ _ _ Hfind), Himp in Hrun.
        simpl in Hrun. rewrite Hattr in Hrun.
        destruct e; simpl in Hrun; discriminate Hrun. }
    destruct (valid_simulator_class o) eqn:Hvalid.
    2:{ assert (Hfail : lookup_failure w name)
          by exact (not_a_simulator w name mname w1 m o Hfind Himp Hattr Hvalid).
        destruct (load_simulator_fails w name simulator_config Htype Hfail)
          as (msg & w2 & Hraise).
        rewrite Hraise in Hrun. discriminate Hrun. }
    destruct o as [cls|cls kwargs|v]; try discriminate Hvalid.
    rewrite (load_simulator_resolved _ w w1 name mname m cls
               Htype Hfind Himp Hattr Hvalid) in Hrun.
    rewrite Hkw in Hrun.
    destruct (on_call w (default SimulatorConfig (find_config_class m None)) _)
      as [config|e] eqn:Hconfig.
    2:{ destruct e; simpl in Hrun; discriminate Hrun. }
    destruct (on_call w cls [("config", config)]) as [sim'|e] eqn:Hsim.
    2:{ destruct e; simpl in Hrun; discriminate Hrun. }
    injection Hrun as <- <-.
    exists name, mname, w1, m, cls, config. done.
  - intros (name & mname & w1 & m & cls & config & Htype & Hfind & Himp
            & Hattr & Hvalid & Hconfig & Hsim & ->).
    rewrite (load_simulator_resolved _ w w1 name mname m cls
               Htype Hfind Himp Hattr Hvalid).
    by rewrite Hkw, Hconfig, Hsim.
Qed.

Lemma X22_load_simulator_returns_the_instance_witness :
  load_simulator {[ "type" := PStr "Turtle"; "config" := PInt 3 ]}
    (installation (Ok turtle_module))
  = (Ok (Instance Turtle [("config", Instance TurtleConfig [])]),
     recorded (DEBUG, "Loaded simulator") (installation (Ok turtle_module))).
Proof.
  apply (proj2 (X22_load_simulator_returns_the_instance
                  {[ "type" := PStr "Turtle"; "config" := PInt 3 ]}
                  (installation (Ok turtle_module))
                  (recorded (DEBUG, "Loaded simulator")
                     (installation (Ok turtle_module)))
                  (Instance Turtle [("config", Instance TurtleConfig [])]))).
  exists "Turtle", "turtle", (installation (Ok turtle_module)), turtle_module,
    Turtle, (Instance TurtleConfig []).
  split; [vm_compute; reflexivity|]. split; [vm_compute; reflexivity|].
  split; [reflexivity|]. split; [reflexivity|]. split; [reflexivity|].
  split; [vm_compute; reflexivity|]. split; reflexivity.
Defined.

Lemma find_config_class_app (m1 m2 : module) (acc : option class_obj) :
  find_config_class (m1 ++ m2) acc
  = find_config_class m2 (find_config_class m1 acc).
Proof.
  revert acc. induction m1 as [|[k o] m1 IH]; intros acc; simpl; [done|].
  apply IH.
Qed.

Lemma find_config_class_none (m : module) (acc : option class_obj) :
  Forall (fun kv => config_subclass kv.2 = false) m ->
  find_config_class m acc = acc.
Proof.
  intros H. revert acc.
  induction H as [|[k o] m Ho _ IH]; intros acc; simpl; [done|].
  rewrite IH. destruct o as [c| |]; try done.
  simpl in Ho. by rewrite Ho.
Qed.

Lemma find_config_class_last (m : module) (k : string) (o : pyobj) :
  find_config_class (m ++ [(k, o)]) None
  = match o with
    | Class c => if config_subclass o then Some c
                 else find_config_class m None
    | _ => find_config_class m None
    end.
Proof.
  rewrite find_config_class_app. simpl. by destruct o.
Qed.

(** X23. The last configuration class of the module wins.  The scan of
    the module dictionary chooses a class exactly when it is a strict
    subclass of [SimulatorConfig] bound in the module with no such class
    bound after it, and chooses none exactly when the module binds no
    strict subclass of [SimulatorConfig]; [SimulatorConfig] itself, which
    every plugin imports, is never chosen. *)
Theorem X23_last_config_class_wins (m : module) :
  (forall c,
     find_config_class m None = Some c
     <-> exists m1 k m2,
           m = m1 ++ (k, Class c) :: m2
           /\ config_subclass (Class c) = true
           /\ Forall (fun kv => config_subclass kv.2 = false) m2)
  /\ (find_config_class m None = None
      <-> Forall (fun kv => config_subclass kv.2 = false) m)
  /\ find_config_class m None <> Some SimulatorConfig.
Proof.
  assert (Hsome : forall c,
            find_config_class m None = Some c
            <-> exists m1 k m2,
                  m = m1 ++ (k, Class c) :: m2
                  /\ config_subclass (Class c) = true
                  /\ Forall (fun kv => config_subclass kv.2 = false) m2).
  { intros c. split.
    - induction m as [|[k o] m IH] using rev_ind; [discriminate|].
      rewrite find_config_class_last.
      destruct o as [c'|cls kwargs|v].
      + destruct (config_subclass (Class c')) eqn:Hc.
        * intros [= ->]. exists m, k, []. done.
        * intros (m1 & k1 & m2 & -> & Hsub & Hrest)%IH.
          exists m1, k1, (m2 ++ [(k, Class c')]).
          split; [by rewrite <- app_assoc|]. split; [done|].
          apply Forall_app. split; [done|]. by constructor.
      + intros (m1 & k1 & m2 & -> & Hsub & Hrest)%IH.
        exists m1, k1, (m2 ++ [(k, Instance cls kwargs)]).
        split; [by rewrite <- app_assoc|]. split; [done|].
        apply Forall_app. split; [done|]. by constructor.
      + intros (m1 & k1 & m2 & -> & Hsub & Hrest)%IH.
        exists m1, k1, (m2 ++ [(k, Data v)]).
        split; [by rewrite <- app_assoc|]. split; [done|].
        apply Forall_app. split; [done|]. by constructor.
    - intros (m1 & k & m2 & -> & Hsub & Hrest).
      rewrite find_config_class_app. simpl. simpl in Hsub. rewrite Hsub.
      by apply find_config_class_none. }
  split; [exact Hsome|]. split.
  - split.
    + induction m as [|[k o] m IH] using rev_ind; [constructor|].
      rewrite find_config_class_last. intros Hnone.
      assert (Hm : find_config_class m None = None
                   /\ config_subclass o = false).
      { destruct o as [c| |]; try done.
        destruct (config_subclass (Class c)); [discriminate|done]. }
      destruct Hm as [Hm Ho].
      apply Forall_app. split; [|by constructor].
      apply IH; [|exact Hm].
      intros c. split.
      * intros Habs. rewrite Hm in Habs. discriminate.
      * intros (m1 & k1 & m2 & -> & Hsub & Hrest).
        rewrite find_config_class_app. simpl. simpl in Hsub. rewrite Hsub.
        by apply find_config_class_none.
    + by apply find_config_class_none.
  - intros (m1 & k & m2 & _ & Hsub & _)%Hsome. discriminate Hsub.
Qed.

Lemma X23_last_config_class_wins_witness :
  find_config_class turtle_module None = Some TurtleConfig.
Proof.
  destruct (X23_last_config_class_wins turtle_module) as [Hsome _].
  apply (proj2 (Hsome TurtleConfig)).
  exists [("Simulator", Class Simulator);
          ("SimulatorConfig", Class SimulatorConfig)],
    "TurtleConfig", [("Turtle", Class Turtle)].
  split; [reflexivity|]. split; [reflexivity|].
  repeat constructor.
Defined.

End SimulatorsLoading.
